(** * leafmap toolbar panels: a shallow embedding of [leafmap/toolbar.py]

    The module builds ipywidgets panels and wires their observers to an
    ipyleaflet map.  Every closure of the Python file becomes a function
    on the state it reads and writes: the widgets' traits that the
    closure captures (a panel record) and the map object [m].

    Conventions.
    - A trait assignment [w.value = v] notifies the observers of [w]
      only when the stored value changes (traitlets); the setters below
      write this out.
    - Python exceptions are values of [exn]; code that mutates and may
      raise lives in the monad [Py], which keeps the state reached when
      an exception escapes.
    - Widgets and layers are compared by identity in Python; here they
      carry an identifier ([model_id], [layer_id]). *)

From Stdlib Require Import ZArith Lia.
From stdpp Require Import base tactics option list strings.

Open Scope string_scope.
Open Scope list_scope.

(** ** Exceptions *)

Inductive exn : Set :=
| TypeError | ValueError | IndexError | KeyError | TraitError
| ControlException | LayerException.

Inductive result (A : Type) : Type :=
| Ok (a : A)
| Raise (e : exn).
Arguments Ok {A} a.
Arguments Raise {A} e.

(** A Python computation over a mutable state [S]: the state it leaves
    behind, also when it raises, and its outcome. *)
Definition Py (S A : Type) : Type := S -> S * result A.

Definition ret {S A : Type} (a : A) : Py S A := fun s => (s, Ok a).
Definition raise {S A : Type} (e : exn) : Py S A := fun s => (s, Raise e).
Definition bind {S A B : Type} (c : Py S A) (k : A -> Py S B) : Py S B :=
  fun s => match c s with
           | (s', Ok a) => k a s'
           | (s', Raise e) => (s', Raise e)
           end.
Definition get {S : Type} : Py S S := fun s => (s, Ok s).
Definition modify {S : Type} (f : S -> S) : Py S unit := fun s => (f s, Ok tt).
(** A call that either updates the state or raises and leaves it alone. *)
Definition attempt {S : Type} (f : S -> result S) : Py S unit :=
  fun s => match f s with
           | Ok s' => (s', Ok tt)
           | Raise e => (s, Raise e)
           end.

Notation "'let!' x ':=' c 'in' k" := (bind c (fun x => k))
  (at level 10, x name, c at level 200, k at level 200).
Notation "'do!' c 'in' k" := (bind c (fun _ => k))
  (at level 10, c at level 200, k at level 200).

(** Python dictionaries keep insertion order: association lists. *)
Fixpoint lookup_key {V : Type} (k : string) (d : list (string * V))
  : option V :=
  match d with
  | [] => None
  | (k', v) :: d' => if decide (k' = k) then Some v else lookup_key k d'
  end.

(** [d[k]] *)
Definition getitem {S V : Type} (k : string) (d : list (string * V))
  : Py S V :=
  match lookup_key k d with
  | Some v => ret v
  | None => raise KeyError
  end.

(** [xs[i]] *)
Definition index {S A : Type} (i : nat) (xs : list A) : Py S A :=
  match xs !! i with
  | Some x => ret x
  | None => raise IndexError
  end.

Definition keys {V : Type} (d : list (string * V)) : list string := fst <$> d.

#[global] Instance exn_eq_dec : EqDecision exn.
Proof. solve_decision. Defined.

(** ** The map collaborator (ipyleaflet.Map as leafmap.Map uses it) *)

Module Leaflet.

(** A layer object: its identity and its class.  Its attributes are
    mutable and shared by everything that holds the object (the map, the
    basemap tables, the closures), so they live in the store
    [layer_attrs] below. *)
Record Layer : Set := mkLayer {
  layer_id : nat;
  is_wms : bool  (* an instance of ipyleaflet.WMSLayer *)
}.

Record LayerAttrs : Set := mkAttrs {
  layer_name : string;
  layer_url : string
}.

Inductive ControlKind : Set :=
| WidgetControl | SplitMapControl | ZoomControl
| FullScreenControl | ScaleControl.

Record Control : Set := mkControl {
  model_id : nat;
  kind : ControlKind
}.

(** One toggle of the main toolbar grid. *)
Record ToggleButton : Set := mkToggle {
  icon : string;
  value : bool
}.

(** The attributes of [m] that the toolbar code reads or writes, and the
    attributes of the layer objects. *)
Record Map : Set := mkMap {
  layers : list Layer;
  controls : list Control;
  tool_control : option Control;
  basemap_ctrl : option Control;
  slider_ctrl : option Control;
  toolbar : list ToggleButton;
  layer_attrs : nat -> LayerAttrs
}.

#[global] Instance Layer_eq_dec : EqDecision Layer.
Proof. solve_decision. Defined.
#[global] Instance ControlKind_eq_dec : EqDecision ControlKind.
Proof. solve_decision. Defined.
#[global] Instance Control_eq_dec : EqDecision Control.
Proof. solve_decision. Defined.

Definition set_layers (ls : list Layer) (m : Map) : Map :=
  mkMap ls (controls m) (tool_control m) (basemap_ctrl m) (slider_ctrl m)
        (toolbar m) (layer_attrs m).
Definition set_controls (cs : list Control) (m : Map) : Map :=
  mkMap (layers m) cs (tool_control m) (basemap_ctrl m) (slider_ctrl m)
        (toolbar m) (layer_attrs m).
Definition set_tool_control (c : option Control) (m : Map) : Map :=
  mkMap (layers m) (controls m) c (basemap_ctrl m) (slider_ctrl m)
        (toolbar m) (layer_attrs m).
Definition set_basemap_ctrl (c : option Control) (m : Map) : Map :=
  mkMap (layers m) (controls m) (tool_control m) c (slider_ctrl m)
        (toolbar m) (layer_attrs m).
Definition set_slider_ctrl (c : option Control) (m : Map) : Map :=
  mkMap (layers m) (controls m) (tool_control m) (basemap_ctrl m) c
        (toolbar m) (layer_attrs m).
Definition set_toolbar (t : list ToggleButton) (m : Map) : Map :=
  mkMap (layers m) (controls m) (tool_control m) (basemap_ctrl m)
        (slider_ctrl m) t (layer_attrs m).
Definition set_layer_attrs (f : nat -> LayerAttrs) (m : Map) : Map :=
  mkMap (layers m) (controls m) (tool_control m) (basemap_ctrl m)
        (slider_ctrl m) (toolbar m) f.

(** [layer.name], [layer.url] *)
Definition name_of (m : Map) (l : Layer) : string :=
  layer_name (layer_attrs m (layer_id l)).
Definition url_of (m : Map) (l : Layer) : string :=
  layer_url (layer_attrs m (layer_id l)).

(** [layer.url = u], [layer.name = n]: seen through every reference. *)
Definition assign_url (l : Layer) (u : string) (m : Map) : Map :=
  set_layer_attrs
    (fun i => if decide (i = layer_id l)
              then mkAttrs (layer_name (layer_attrs m i)) u
              else layer_attrs m i) m.
Definition assign_name (l : Layer) (n : string) (m : Map) : Map :=
  set_layer_attrs
    (fun i => if decide (i = layer_id l)
              then mkAttrs n (layer_url (layer_attrs m i))
              else layer_attrs m i) m.

Definition control_ids (m : Map) : list nat := model_id <$> controls m.
Definition layer_ids (m : Map) : list nat := layer_id <$> layers m.

(** The [controls] and [layers] traits validate every assignment:
    no identifier may occur twice. *)
Definition assign_controls (cs : list Control) (m : Map) : result Map :=
  if decide (NoDup (model_id <$> cs)) then Ok (set_controls cs m)
  else Raise ControlException.

Definition assign_layers (ls : list Layer) (m : Map) : result Map :=
  if decide (NoDup (layer_id <$> ls)) then Ok (set_layers ls m)
  else Raise LayerException.

(** [Map.add_control]: refuses a control that is already on the map. *)
Definition add_control (c : Control) (m : Map) : result Map :=
  if decide (model_id c ∈ control_ids m) then Raise ControlException
  else assign_controls (controls m ++ [c]) m.

(** [Map.remove_control]: refuses a control that is not on the map. *)
Definition remove_control (c : Control) (m : Map) : result Map :=
  if decide (model_id c ∈ control_ids m) then
    assign_controls
      (filter (fun c' => model_id c' ≠ model_id c) (controls m)) m
  else Raise ControlException.

Definition clear_controls (m : Map) : Map := set_controls [] m.

(** [Map.add_layer]: refuses a layer that is already on the map. *)
Definition add_layer (l : Layer) (m : Map) : result Map :=
  if decide (layer_id l ∈ layer_ids m) then Raise LayerException
  else assign_layers (layers m ++ [l]) m.

Definition clear_layers (m : Map) : Map := set_layers [] m.

(** [Map.substitute_layer old new]: every layer with [old]'s identifier
    is replaced; [old] must be on the map. *)
Definition substitute_layer (old new : Layer) (m : Map) : result Map :=
  if decide (layer_id old ∈ layer_ids m) then
    assign_layers
      ((fun l => if decide (layer_id l = layer_id old) then new else l)
         <$> layers m) m
  else Raise LayerException.

(** Maps as the library builds them. *)
Definition well_formed (m : Map) : Prop :=
  NoDup (control_ids m) /\ NoDup (layer_ids m).

End Leaflet.
Import Leaflet.

(** ** The generic tool panel: [tool_template]

    The census, XYZ-search and OSM-download panels repeat the same three
    closures verbatim. *)

Module ToolTemplate.

(** The widgets that may be children of [toolbar_widget]. *)
Inductive Widget : Set :=
| toolbar_button | close_button | toolbar_header | toolbar_footer.

#[global] Instance Widget_eq_dec : EqDecision Widget.
Proof. solve_decision. Defined.

(** Traits captured by the closures: [toolbar_widget.children],
    [toolbar_button.value], [close_button.value], and whether
    [toolbar_widget.close()] has run. *)
Record Panel : Set := mkPanel {
  children : list Widget;
  toolbar_button_value : bool;
  close_button_value : bool;
  closed : bool
}.

Definition set_children (ws : list Widget) (p : Panel) : Panel :=
  mkPanel ws (toolbar_button_value p) (close_button_value p) (closed p).
Definition store_toolbar_button (v : bool) (p : Panel) : Panel :=
  mkPanel (children p) v (close_button_value p) (closed p).
Definition store_close_button (v : bool) (p : Panel) : Panel :=
  mkPanel (children p) (toolbar_button_value p) v (closed p).
Definition close_widget (p : Panel) : Panel :=
  mkPanel (children p) (toolbar_button_value p) (close_button_value p) true.

(** [close_button.value = False].  The observer [close_btn_click] does
    nothing for a change to [False] (see [close_btn_click_false]), so
    only the store remains. *)
Definition assign_close_button_false (p : Panel) : Panel :=
  store_close_button false p.

(** Lines 144-150. *)
Definition toolbar_btn_click (new : bool) (p : Panel) : Panel :=
  if new then
    set_children [toolbar_header; toolbar_footer]
                 (assign_close_button_false p)
  else
    if negb (close_button_value p) then set_children [toolbar_button] p
    else p.

(** [toolbar_button.value = v], with its observer. *)
Definition assign_toolbar_button (v : bool) (p : Panel) : Panel :=
  if decide (toolbar_button_value p = v) then p
  else toolbar_btn_click v (store_toolbar_button v p).

(** Lines 132-140; [event] is [event["type"]]. *)
Definition handle_toolbar_event (event : string) (p : Panel) : Panel :=
  if decide (event = "mouseenter") then
    set_children [toolbar_header; toolbar_footer] p
  else if decide (event = "mouseleave") then
    if negb (toolbar_button_value p) then
      assign_close_button_false
        (assign_toolbar_button false (set_children [toolbar_button] p))
    else p
  else p.

(** The state of [tool_template] before line 186, and after it
    ([toolbar_button.value = True]). *)
Definition fresh_panel : Panel := mkPanel [toolbar_button] false false false.
Definition opened_panel : Panel := assign_toolbar_button true fresh_panel.

Inductive Display : Set := Collapsed | Expanded.

Definition displayed (p : Panel) : option Display :=
  if decide (children p = [toolbar_button]) then Some Collapsed
  else if decide (children p = [toolbar_header; toolbar_footer])
       then Some Expanded
       else None.

Fixpoint run_events (evs : list string) (p : Panel) : Panel :=
  match evs with
  | [] => p
  | e :: evs' => run_events evs' (handle_toolbar_event e p)
  end.

Definition pointer_event (e : string) : Prop :=
  e = "mouseenter" \/ e = "mouseleave".

(** The pointer is not part of the program's state: the session keeps
    it next to the panel, as the event source would. *)
Record Session : Set := mkSession {
  panel : Panel;
  pointer_over : bool
}.

Definition pointer_enter (s : Session) : Session :=
  mkSession (handle_toolbar_event "mouseenter" (panel s)) true.
Definition pointer_leave (s : Session) : Session :=
  mkSession (handle_toolbar_event "mouseleave" (panel s)) false.
(** The user toggles the gear button to [v]. *)
Definition pin_toggle (v : bool) (s : Session) : Session :=
  mkSession (assign_toolbar_button v (panel s)) (pointer_over s).

(** What the specification asks of unpinning under the pointer. *)
Definition unpin_keeps_hovered_panel (s : Session) : Prop :=
  displayed (panel s) = Some Expanded ->
  pointer_over s = true ->
  toolbar_button_value (panel (pin_toggle false s)) = false /\
  displayed (panel (pin_toggle false s)) = Some Expanded.


(** The closures' whole state: the panel and the argument [m]. *)
Definition World : Set := Panel * option Map.

Definition on_panel (f : Panel -> Panel) : Py World unit :=
  modify (fun w => (f (fst w), snd w)).

(** [if m is not None: body] *)
Definition when_map (body : Py Map unit) : Py World unit :=
  fun w => match snd w with
           | None => (w, Ok tt)
           | Some m => let '(m', r) := body m in ((fst w, Some m'), r)
           end.

Section WithMap.

(** [Map.toolbar_reset] is defined in leafmap.py, outside this file. *)
Variable toolbar_reset : Map -> Map.

(** Lines 154-162. *)
Definition close_btn_click (new : bool) : Py World unit :=
  if new then
    do! on_panel (assign_toolbar_button false) in
    do! when_map
          (do! modify toolbar_reset in
           let! m := get in
           match tool_control m with
           | Some c =>
               if decide (c ∈ controls m) then
                 do! attempt (remove_control c) in
                 modify (set_tool_control None)
               else ret tt
           | None => ret tt
           end) in
    on_panel close_widget
  else ret tt.

(** [close_button.value = v], with its observer. *)
Definition assign_close_button (v : bool) : Py World unit :=
  fun w =>
    if decide (close_button_value (fst w) = v) then (w, Ok tt)
    else close_btn_click v (store_close_button v (fst w), snd w).

End WithMap.

Definition world_controls (w : World) : list Control :=
  match snd w with Some m => controls m | None => [] end.

(** The panel's control is off the map's control list. *)
Definition detached (w : World) : Prop :=
  match snd w with
  | None => True
  | Some m =>
      match tool_control m with
      | None => True
      | Some c => c ∉ controls m
      end
  end.

(** The map, when there is one, has no control twice. *)
Definition world_ok (w : World) : Prop :=
  match snd w with
  | None => True
  | Some m => NoDup (control_ids m)
  end.

(** The panel as [tool_template] leaves it (pinned open), with the
    pointer moved over it. *)
Definition hovered_pinned : Session :=
  pointer_enter (mkSession opened_panel false).

(** A [toolbar_reset] that leaves the controls alone. *)
Definition keeps_controls (f : Map -> Map) : Prop :=
  forall m, controls (f m) = controls m /\ tool_control (f m) = tool_control m.

(** Lines 186-194, the end of [tool_template]: pin the panel open and,
    when there is a map, put the fresh [toolbar_control] on it. *)
Definition attach (toolbar_control : Control) : Py World unit :=
  do! on_panel (assign_toolbar_button true) in
  when_map
    (let! m := get in
     if decide (toolbar_control ∉ controls m) then
       do! attempt (add_control toolbar_control) in
       modify (set_tool_control (Some toolbar_control))
     else ret tt).

(** [tool_template(m)]: the widgets as lines 25-126 build them, then
    lines 186-194. *)
Definition tool_template (toolbar_control : Control) (m : option Map)
  : World * result unit :=
  attach toolbar_control (fresh_panel, m).

(** The widgets that [button_clicked] writes: [textarea.value], what
    the [output] widget shows, and [buttons.value]. *)
Record Form : Set := mkForm {
  textarea_value : string;
  output : list string;
  buttons_value : option string
}.

Definition set_textarea (v : string) (f : Form) : Form :=
  mkForm v (output f) (buttons_value f).
Definition set_output (o : list string) (f : Form) : Form :=
  mkForm (textarea_value f) o (buttons_value f).
Definition store_buttons (v : option string) (f : Form) : Form :=
  mkForm (textarea_value f) (output f) v.

Definition on_world {A : Type} (c : Py World A) : Py (World * Form) A :=
  fun s => let '(w', r) := c (fst s) in ((w', snd s), r).
Definition on_form (g : Form -> Form) : Py (World * Form) unit :=
  modify (fun s => (fst s, g (snd s))).

Section WithReset.

Variable toolbar_reset : Map -> Map.

(** Lines 166-182.  The closing [buttons.value = None] calls the
    observer once more with [None], which matches no branch and stores
    [None] again, so only the store remains. *)
Definition button_clicked (new : option string) : Py (World * Form) unit :=
  do! (if decide (new = Some "Apply") then
         on_form (set_output ["Running ..."])
       else if decide (new = Some "Reset") then
         do! on_form (set_textarea "") in
         on_form (set_output [])
       else if decide (new = Some "Close") then
         on_world
           (do! when_map
                  (do! modify toolbar_reset in
                   let! m := get in
                   match tool_control m with
                   | Some c =>
                       if decide (c ∈ controls m) then
                         do! attempt (remove_control c) in
                         modify (set_tool_control None)
                       else ret tt
                   | None => ret tt
                   end) in
            on_panel close_widget)
       else ret tt) in
  on_form (store_buttons None).

End WithReset.

(** A [toolbar_reset] that writes the toolbar grid only. *)
Definition toolbar_only (f : Map -> Map) : Prop :=
  forall m, f m = set_toolbar (toolbar (f m)) m.

End ToolTemplate.

(** ** The main toolbar grid: [main_toolbar] *)

Module MainToolbar.

(** The [tools] table, icon to tool name (tooltips left out). *)
Definition tools : list (string * string) :=
  [ ("map", "basemap"); ("globe", "split_map"); ("adjust", "planet");
    ("folder-open", "open_data"); ("gears", "whitebox");
    ("fast-forward", "timeslider"); ("eraser", "eraser");
    ("camera", "save_map"); ("address-book", "census");
    ("search", "search_xyz"); ("download", "download_osm");
    ("question", "help") ].

(** [toolbar_grid.children]: one toggle per icon, all off. *)
Definition toolbar_grid : list ToggleButton :=
  (fun i => mkToggle i false) <$> keys tools.

Definition store_tool (i : nat) (v : bool) (m : Map) : Map :=
  match toolbar m !! i with
  | Some t => set_toolbar (<[i := mkToggle (icon t) v]> (toolbar m)) m
  | None => m
  end.

Definition tool_value (i : nat) (m : Map) : bool :=
  match toolbar m !! i with
  | Some t => value t
  | None => false
  end.

Section WithMap.

(** [Map.toolbar_reset] is defined in leafmap.py, outside this file. *)
Variable toolbar_reset : Map -> Map.

(** What opening the panel of a named tool does to the map
    ([change_basemap(m)], [split_basemaps(m)], [open_data_widget(m)],
    the whitebox toolbox, [m.add_time_slider()], ...). *)
Variable launch : string -> Py Map unit.

(** [tool_callback] for a change to [False]: the [else: pass] branch,
    then [m.toolbar_reset()]. *)
Definition tool_callback_off (m : Map) : Map := toolbar_reset m.

(** [tool.value = False] on the [i]-th child, with its observer. *)
Definition assign_tool_false (i : nat) (m : Map) : Map :=
  if tool_value i m then tool_callback_off (store_tool i false m)
  else m.

(** Lines 305-307: the loop over [toolbar_grid.children]. *)
Fixpoint reset_siblings (owner : nat) (idx : list nat) (m : Map) : Map :=
  match idx with
  | [] => m
  | i :: idx' =>
      reset_siblings owner idx'
        (if decide (i = owner) then m else assign_tool_false i m)
  end.

(** Lines 311-354: the [if]/[elif] chain on the tool name. *)
Definition dispatch (tool_name : string) (owner : nat) : Py Map unit :=
  do! (if decide (tool_name = "basemap") then launch "basemap"
       else ret tt) in
  do! (if decide (tool_name = "split_map") then launch "split_map"
       else ret tt) in
  if decide (tool_name = "planet") then launch "planet"
  else if decide (tool_name = "open_data") then launch "open_data"
  else if decide (tool_name = "eraser") then launch "eraser"
  else if decide (tool_name = "whitebox") then launch "whitebox"
  else if decide (tool_name = "timeslider") then launch "timeslider"
  else if decide (tool_name = "save_map") then launch "save_map"
  else if decide (tool_name = "census") then launch "census"
  else if decide (tool_name = "search_xyz") then launch "search_xyz"
  else if decide (tool_name = "download_osm") then launch "download_osm"
  else if decide (tool_name = "help") then
         modify (assign_tool_false owner)
  else ret tt.

(** Lines 301-360.  [owner] is the position of [change["owner"]] in
    the grid (the observer is registered on grid children only, so
    the position exists). *)
Definition tool_callback (owner : nat) (new : bool) : Py Map unit :=
  do! (if new then
         let! m := get in
         do! modify (reset_siblings owner (seq 0 (length (toolbar m)))) in
         let! m := get in
         let! tool := index owner (toolbar m) in
         let! tool_name := getitem (icon tool) tools in
         dispatch tool_name owner
       else ret tt) in
  modify toolbar_reset.

(** The user switches the [i]-th toggle on. *)
Definition activate (i : nat) : Py Map unit :=
  fun m => if tool_value i m then (m, Ok tt)
           else tool_callback i true (store_tool i true m).

End WithMap.

(** Modelled from the spec: [Map.toolbar_reset] of leafmap.py, "one
    boolean flag per sibling tool forced to false". *)
Definition reset_all (m : Map) : Map :=
  set_toolbar ((fun t => mkToggle (icon t) false) <$> toolbar m) m.

Definition at_most_one_active (m : Map) : Prop :=
  forall i k, tool_value i m = true -> tool_value k m = true -> i = k.

(** A step that switches no toggle on. *)
Definition switches_nothing_on (f : Map -> Map) : Prop :=
  forall m i, tool_value i (f m) = true -> tool_value i m = true.

(** A computation that switches no toggle on, whether it returns or
    raises. *)
Definition quiet {A : Type} (c : Py Map A) : Prop :=
  switches_nothing_on (fun m => fst (c m)).

(** The toggles of the grid by their icons, in the grid's order. *)
Definition grid_icons (m : Map) : list string := icon <$> toolbar m.

(** A step that leaves every toggle of the grid in its place (it may
    change their values). *)
Definition keeps_grid (f : Map -> Map) : Prop :=
  forall m, grid_icons (f m) = grid_icons m.

(** A computation that leaves every toggle in its place, whether it
    returns or raises. *)
Definition steady {A : Type} (c : Py Map A) : Prop :=
  keeps_grid (fun m => fst (c m)).

End MainToolbar.

(** ** The main toolbar's own panel: [main_toolbar], lines 365-509 *)

Module ToolbarPanel.

(** The widgets that may be children of [toolbar_widget]. *)
Inductive Widget : Set := toolbar_button | toolbar_header | toolbar_footer.

#[global] Instance Widget_eq_dec : EqDecision Widget.
Proof. solve_decision. Defined.

(** [toolbar_footer.children]: the tool grid, or the "All layers on/off"
    checkbox followed by one row per listed layer (its name). *)
Inductive Footer : Set :=
| Grid
| LayerRows (rows : list string).

(** The traits the closures capture; [layer_control] is the attribute
    [m.layer_control] of the map. *)
Record Bar : Set := mkBar {
  children : list Widget;
  toolbar_button_value : bool;
  layers_button_value : bool;
  footer : Footer;
  layer_control : option Control
}.

Definition set_children (ws : list Widget) (b : Bar) : Bar :=
  mkBar ws (toolbar_button_value b) (layers_button_value b) (footer b)
        (layer_control b).
Definition store_toolbar_button (v : bool) (b : Bar) : Bar :=
  mkBar (children b) v (layers_button_value b) (footer b) (layer_control b).
Definition store_layers_button (v : bool) (b : Bar) : Bar :=
  mkBar (children b) (toolbar_button_value b) v (footer b) (layer_control b).
Definition set_footer (f : Footer) (b : Bar) : Bar :=
  mkBar (children b) (toolbar_button_value b) (layers_button_value b) f
        (layer_control b).
Definition set_layer_control (c : option Control) (b : Bar) : Bar :=
  mkBar (children b) (toolbar_button_value b) (layers_button_value b)
        (footer b) c.

(** The panel as lines 365-385 build it. *)
Definition new_bar (layer_control : option Control) : Bar :=
  mkBar [toolbar_button] false false Grid layer_control.

(** Lines 500-501: [layers_btn_click] for a change to [False]. *)
Definition layers_btn_click_off (b : Bar) : Bar := set_footer Grid b.

(** [layers_button.value = False], with its observer. *)
Definition assign_layers_button_false (b : Bar) : Bar :=
  if layers_button_value b then
    layers_btn_click_off (store_layers_button false b)
  else b.

(** Lines 403-409. *)
Definition toolbar_btn_click (new : bool) (b : Bar) : Bar :=
  if new then
    set_children [toolbar_header; toolbar_footer]
                 (assign_layers_button_false b)
  else
    if negb (layers_button_value b) then set_children [toolbar_button] b
    else b.

(** [toolbar_button.value = v], with its observer. *)
Definition assign_toolbar_button (v : bool) (b : Bar) : Bar :=
  if decide (toolbar_button_value b = v) then b
  else toolbar_btn_click v (store_toolbar_button v b).

(** Lines 391-399. *)
Definition handle_toolbar_event (event : string) (b : Bar) : Bar :=
  if decide (event = "mouseenter") then
    set_children [toolbar_header; toolbar_footer] b
  else if decide (event = "mouseleave") then
    if negb (toolbar_button_value b) then
      assign_layers_button_false
        (assign_toolbar_button false (set_children [toolbar_button] b))
    else b
  else b.

Definition State : Set := Bar * Map.

Definition on_bar (f : Bar -> Bar) : Py State unit :=
  modify (fun s => (f (fst s), snd s)).
Definition on_map (f : Map -> result Map) : Py State unit :=
  attempt (fun s => match f (snd s) with
                    | Ok m => Ok (fst s, m)
                    | Raise e => Raise e
                    end).

Section WithClasses.

(** [isinstance(lyr, ipyleaflet.TileLayer)]: the class of a layer object
    beyond what [Layer] records. *)
Variable is_tile_layer : Layer -> bool.

(** The [LayersControl] that line 448 constructs. *)
Variable new_layer_control : Control.

(** Lines 436-443. *)
Definition listed (lyr : Layer) : bool := is_tile_layer lyr || is_wms lyr.

(** Lines 413-501. *)
Definition layers_btn_click (new : bool) : Py State unit :=
  if new then
    let! s := get in
    let m := snd s in
    let layers := filter (fun lyr => listed lyr = true) (layers m) in
    do! (if (Z.of_nat (length layers)
             <? Z.of_nat (length (Leaflet.layers m)) - 1)%Z then
           do! (match layer_control (fst s) with
                | None => on_bar (set_layer_control (Some new_layer_control))
                | Some _ => ret tt
                end) in
           let! s := get in
           match layer_control (fst s) with
           | Some c =>
               if decide (c ∉ controls (snd s)) then on_map (add_control c)
               else ret tt
           | None => ret tt
           end
         else ret tt) in
    do! on_bar (set_footer (LayerRows (name_of m <$> layers))) in
    on_bar (assign_toolbar_button false)
  else on_bar layers_btn_click_off.

(** What the user and the event source do to the panel. *)
Inductive Event : Set :=
| Dom (type : string)
| ToolbarClick (v : bool)   (* the wrench toggle is set to [v] *)
| LayersClick (v : bool).   (* the layers toggle is set to [v] *)

Definition step (e : Event) : Py State unit :=
  match e with
  | Dom type => on_bar (handle_toolbar_event type)
  | ToolbarClick v => on_bar (assign_toolbar_button v)
  | LayersClick v =>
      fun s =>
        if decide (layers_button_value (fst s) = v) then (s, Ok tt)
        else layers_btn_click v (store_layers_button v (fst s), snd s)
  end.

Fixpoint run (evs : list Event) : Py State unit :=
  match evs with
  | [] => ret tt
  | e :: evs' => do! step e in run evs'
  end.

End WithClasses.

(** The two toggles are never on together, and the footer lists the
    layers exactly while the layers toggle is on. *)
Definition consistent (b : Bar) : Prop :=
  (toolbar_button_value b = true -> layers_button_value b = false) /\
  (footer b = Grid <-> layers_button_value b = false).

End ToolbarPanel.

(** ** The open-data panel: numeric entry fields of the raster branch *)

Module OpenData.

(** The four text boxes ([bands.value], [vmin.value], ...). *)
Record RasterFields : Set := mkFields {
  bands : string;
  vmin : string;
  vmax : string;
  nodata : string
}.

Section Parsers.

(** Python's builtins [int] and [float] on a string; [None] stands
    for the [ValueError] they raise. *)
Variable PyFloat : Type.
Variable int_of_str : string -> option Z.
Variable float_of_str : string -> option PyFloat.

(** The locals [band], [vis_min], [vis_max], [vis_nodata]. *)
Record RasterArgs : Type := mkArgs {
  band : option Z;
  vis_min : option PyFloat;
  vis_max : option PyFloat;
  vis_nodata : option PyFloat
}.

Definition store_band v a := mkArgs v (vis_min a) (vis_max a) (vis_nodata a).
Definition store_vis_min v a := mkArgs (band a) v (vis_max a) (vis_nodata a).
Definition store_vis_max v a := mkArgs (band a) (vis_min a) v (vis_nodata a).
Definition store_vis_nodata v a := mkArgs (band a) (vis_min a) (vis_max a) v.

(** [if len(text) > 0: local = parse(text)] *)
Definition parse_into {V : Type} (parse : string -> option V)
           (store : option V -> RasterArgs -> RasterArgs)
           (text : string) : Py RasterArgs unit :=
  if (0 <? String.length text)%nat then
    match parse text with
    | Some v => modify (store (Some v))
    | None => raise ValueError
    end
  else ret tt.

(** Lines 829-836. *)
Definition try_body (f : RasterFields) : Py RasterArgs unit :=
  do! parse_into int_of_str store_band (bands f) in
  do! parse_into float_of_str store_vis_min (vmin f) in
  do! parse_into float_of_str store_vis_max (vmax f) in
  parse_into float_of_str store_vis_nodata (nodata f).

(** [try: body / except: pass] *)
Definition except_pass (body : Py RasterArgs unit) : Py RasterArgs unit :=
  fun a => (fst (body a), Ok tt).

(** Lines 823-838. *)
Definition parse_numeric_fields (f : RasterFields) : Py RasterArgs unit :=
  do! modify (fun _ => mkArgs None None None None) in
  except_pass (try_body f).

(** The locals handed to [m.add_local_tile]; the locals before line
    823 do not matter. *)
Definition raster_args (f : RasterFields) : RasterArgs :=
  fst (parse_numeric_fields f (mkArgs None None None None)).

(** The text is not empty and the parser raises on it. *)
Definition rejects {V : Type} (parse : string -> option V)
           (text : string) : bool :=
  (0 <? String.length text)%nat
  && match parse text with Some _ => false | None => true end.

(** What "best effort, per field" hands over for one field. *)
Definition per_field {V : Type} (parse : string -> option V)
           (text : string) : option V :=
  if (0 <? String.length text)%nat then parse text else None.

Definition parsed_per_field (f : RasterFields) : Prop :=
  band (raster_args f) = per_field int_of_str (bands f) /\
  vis_min (raster_args f) = per_field float_of_str (vmin f) /\
  vis_max (raster_args f) = per_field float_of_str (vmax f) /\
  vis_nodata (raster_args f) = per_field float_of_str (nodata f).

End Parsers.

(** A parser of unsigned decimal numerals; it agrees with [int] and,
    up to the conversion to a float, with [float] on such strings. *)
Definition digit_of (c : Ascii.ascii) : option Z :=
  let n := Z.of_N (Ascii.N_of_ascii c) in
  if (48 <=? n)%Z && (n <=? 57)%Z then Some (n - 48)%Z else None.

Fixpoint digits_from (acc : Z) (s : string) : option Z :=
  match s with
  | EmptyString => Some acc
  | String c s' =>
      match digit_of c with
      | Some d => digits_from (10 * acc + d)%Z s'
      | None => None
      end
  end.

Definition decimal_of_str (s : string) : option Z :=
  match s with
  | EmptyString => None
  | _ => digits_from 0%Z s
  end.

End OpenData.

(** ** The basemap switcher: [change_basemap] *)

Module Basemap.

Section WithBasemaps.

(** The [leafmap_basemaps] table of basemaps.py, outside this file. *)
Variable leafmap_basemaps : list (string * Layer).

(** Lines 887-891: the local [layers] before it is stored. *)
Definition normalized (layers : list Layer) : Py Map (list Layer) :=
  if decide (length layers = 1) then
    let! l0 := index 0 layers in
    let! osm := getitem "OpenStreetMap" leafmap_basemaps in
    ret ([l0] ++ [osm])
  else if decide (1 < length layers) then
    let! l1 := index 1 layers in
    let! m := get in
    if decide (name_of m l1 ≠ "OpenStreetMap") then
      let! l0 := index 0 layers in
      let! osm := getitem "OpenStreetMap" leafmap_basemaps in
      ret ([l0] ++ [osm] ++ drop 1 layers)
    else ret layers
  else ret layers.

(** Lines 885-935; [basemap_control] is the fresh [WidgetControl]. *)
Definition change_basemap (basemap_control : Control) : Py Map unit :=
  let! m := get in
  let! layers := normalized (layers m) in
  do! attempt (assign_layers layers) in
  do! attempt (add_control basemap_control) in
  modify (set_basemap_ctrl (Some basemap_control)).

(** Lines 911-914; [m.zoom_to_bounds] moves the view only. *)
Definition on_click (basemap_name : string) : Py Map unit :=
  let! m := get in
  let! old_basemap := index 1 (layers m) in
  let! new_basemap := getitem basemap_name leafmap_basemaps in
  attempt (substitute_layer old_basemap new_basemap).

(** No layer named "OpenStreetMap" stands at index 1 of the map. *)
Definition osm_missing_at_index_1 (m : Map) : Prop :=
  forall l1, layers m !! 1 = Some l1 -> name_of m l1 ≠ "OpenStreetMap".

(** The layer list that the claim about [change_basemap] describes;
    [m] is the map on entry.  Where the basemap is put in, it stands at
    index 1 and the layers that followed index 0 follow it, in their
    order. *)
Definition osm_at_index_1 (m : Map) (after : list Layer) : Prop :=
  (forall l1, layers m !! 1 = Some l1 -> name_of m l1 = "OpenStreetMap" ->
              after = layers m) /\
  (osm_missing_at_index_1 m ->
   exists osm, lookup_key "OpenStreetMap" leafmap_basemaps = Some osm /\
               after !! 1 = Some osm /\
               drop 2 after = drop 1 (layers m)) /\
  after !! 0 = layers m !! 0.

End WithBasemaps.

(** Lines 923-927; [basemap_widget.close()] touches no state modelled
    here. *)
Definition close_click (toolbar_reset : Map -> Map) : Py Map unit :=
  do! modify toolbar_reset in
  let! m := get in
  match basemap_ctrl m with
  | Some c =>
      if decide (c ∈ controls m) then attempt (remove_control c)
      else ret tt
  | None => ret tt
  end.

End Basemap.

(** ** Split-panel mode: [split_basemaps] *)

Module SplitMap.

(** The controls that [split_basemaps] constructs. *)
Record Widgets : Set := mkWidgets {
  control : Control;
  left_control : Control;
  right_control : Control;
  close_control : Control;
  zoom_control : Control;
  fullscreen_control : Control;
  scale_control : Control
}.

(** The locals [controls] and [layers] captured by [close_btn_click]. *)
Record Closure : Set := mkClosure {
  saved_controls : list Control;
  saved_layers : list Layer
}.

Section WithBasemaps.

Variable leafmap_basemaps : list (string * Layer).

(** Lines 1061-1068. *)
Definition default_layers_dict : list (string * Layer) :=
  filter (fun kv => is_wms (snd kv) = false) leafmap_basemaps.

(** Lines 1053-1120. *)
Definition split_basemaps (layers_dict : option (list (string * Layer)))
           (left_name right_name : option string) (w : Widgets)
  : Py Map Closure :=
  let! m := get in
  let controls := controls m in
  let layers := layers m in
  do! modify clear_controls in
  let layers_dict :=
    match layers_dict with
    | None => default_layers_dict
    | Some d => d
    end in
  let keys := keys layers_dict in
  let! left_name :=
    match left_name with
    | None => index 0 keys
    | Some n => ret n
    end in
  let! right_name :=
    match right_name with
    | None => match last keys with
              | Some k => ret k
              | None => raise IndexError
              end
    | Some n => ret n
    end in
  let! left_layer := getitem left_name layers_dict in
  let! right_layer := getitem right_name layers_dict in
  do! attempt (add_control (control w)) in
  do! attempt (add_control (left_control w)) in
  do! attempt (add_control (right_control w)) in
  do! attempt (add_control (close_control w)) in
  do! attempt (add_control (zoom_control w)) in
  do! attempt (add_control (fullscreen_control w)) in
  do! attempt (add_control (scale_control w)) in
  ret (mkClosure controls layers).

End WithBasemaps.

(** Lines 1128-1134: [left_change] and [right_change] write the url of
    the chosen layer into the layer object shown on that side. *)
Definition side_change (side_layer : Layer)
           (layers_dict : list (string * Layer)) (dropdown_value : string)
  : Py Map unit :=
  let! chosen := getitem dropdown_value layers_dict in
  let! m := get in
  modify (assign_url side_layer (url_of m chosen)).

(** Lines 1104-1108. *)
Definition close_btn_click (clo : Closure) (new : bool) : Py Map unit :=
  if new then
    do! attempt (assign_controls (saved_controls clo)) in
    do! modify clear_layers in
    attempt (assign_layers (saved_layers clo))
  else ret tt.

(** What may happen to the map while split mode is open. *)
Inductive Edit : Set :=
| AddControl (c : Control)
| RemoveControl (c : Control)
| AddLayer (l : Layer)
| SetLayers (ls : list Layer)
| SetControls (cs : list Control)
| ClearLayers
| ClearControls
| SetUrl (l : Layer) (url : string)    (* as [left_change] does *)
| SetName (l : Layer) (name : string). (* as [slider_changed] does *)

(** An edit that raises leaves the map as it was. *)
Definition edit (e : Edit) (m : Map) : Map :=
  fst (match e with
       | AddControl c => attempt (add_control c) m
       | RemoveControl c => attempt (remove_control c) m
       | AddLayer l => attempt (add_layer l) m
       | SetLayers ls => attempt (assign_layers ls) m
       | SetControls cs => attempt (assign_controls cs) m
       | ClearLayers => modify clear_layers m
       | ClearControls => modify clear_controls m
       | SetUrl l url => modify (assign_url l url) m
       | SetName l name => modify (assign_name l name) m
       end).

Definition edits (es : list Edit) (m : Map) : Map := foldl (flip edit) m es.

(** The seven controls in the order [split_basemaps] adds them. *)
Definition widget_list (w : Widgets) : list Control :=
  [control w; left_control w; right_control w; close_control w;
   zoom_control w; fullscreen_control w; scale_control w].

End SplitMap.

(** ** The time slider: [time_slider] *)

Module TimeSlider.

(** The [layers_dict] argument: any Python object. *)
Inductive PyArg : Set :=
| NotADict
| Dict (d : list (string * Layer)).

(** Where a playback thread stands in [work]. *)
Inductive Pc : Set :=
| AtWhile    (* about to read [play_chk.value] *)
| AtIf       (* about to compare [slider.value] with [len(labels)] *)
| AtIncr     (* about to run [slider.value += 1] *)
| AtReset    (* about to run [slider.value = 1] *)
| AtSleep    (* in [time.sleep(time_interval)] *)
| Finished.

#[global] Instance Pc_eq_dec : EqDecision Pc.
Proof. solve_decision. Defined.

(** The traits and threads behind one slider panel. *)
Record Player : Set := mkPlayer {
  n_labels : Z;          (* [len(labels)], the slider's [max] *)
  play_chk : bool;
  slider_value : Z;
  tasks : list Pc
}.

(** An [IntSlider] keeps its value between [min = 1] and [max]. *)
Definition clamp (n v : Z) : Z := Z.max 1 (Z.min n v).

Definition assign_slider (v : Z) (p : Player) : Player :=
  mkPlayer (n_labels p) (play_chk p) (clamp (n_labels p) v) (tasks p).
Definition assign_play_chk (b : bool) (p : Player) : Player :=
  mkPlayer (n_labels p) b (slider_value p) (tasks p).
Definition set_tasks (ts : list Pc) (p : Player) : Player :=
  mkPlayer (n_labels p) (play_chk p) (slider_value p) ts.

(** Lines 1207-1220: set the flag, start a thread on [work]. *)
Definition play_click (p : Player) : Player :=
  let p := assign_play_chk true p in
  set_tasks (tasks p ++ [AtWhile]) p.

(** Lines 1222-1223. *)
Definition pause_click (p : Player) : Player := assign_play_chk false p.

(** One step of a thread running [work] (lines 1211-1217). *)
Definition work_step (pc : Pc) (p : Player) : Pc * Player :=
  match pc with
  | AtWhile => (if play_chk p then AtIf else Finished, p)
  | AtIf => (if (slider_value p <? n_labels p)%Z then AtIncr else AtReset, p)
  | AtIncr => (AtSleep, assign_slider (slider_value p + 1)%Z p)
  | AtReset => (AtSleep, assign_slider 1%Z p)
  | AtSleep => (AtWhile, p)
  | Finished => (Finished, p)
  end.

(** The scheduler lets thread [k] take a step. *)
Definition task_step (k : nat) (p : Player) : Player :=
  match tasks p !! k with
  | Some pc =>
      let '(pc', p') := work_step pc p in
      set_tasks (<[k := pc']> (tasks p')) p'
  | None => p
  end.

(** Lines 1213-1216 run by one thread without interference: the new
    slider value. *)
Definition advance (p : Player) : Z :=
  let '(pc, p) := work_step AtIf p in
  slider_value (snd (work_step pc p)).

Inductive Action : Set :=
| Play | Pause | Step (k : nat).

Definition act (a : Action) (p : Player) : Player :=
  match a with
  | Play => play_click p
  | Pause => pause_click p
  | Step k => task_step k p
  end.

Fixpoint run (acts : list Action) (p : Player) : Player :=
  match acts with
  | [] => p
  | a :: acts' => run acts' (act a p)
  end.

(** Threads that have not left the [while] loop. *)
Definition active (p : Player) : nat :=
  length (filter (fun pc => pc ≠ Finished) (tasks p)).

(** The slider as [time_slider] creates it: value [1], nothing runs. *)
Definition new_player (n : Z) : Player := mkPlayer n false 1 [].

(** What a guarded play button would ensure. *)
Definition play_is_guarded (p : Player) : Prop :=
  play_chk p = true -> 0 < active p ->
  active (play_click p) = active p /\ active (play_click p) <= 1.

Definition in_range (p : Player) : Prop :=
  (1 <= slider_value p <= n_labels p)%Z.

Section WithPlanet.

(** [planet_monthly_tiles()] of common.py, outside this file; it may
    raise. *)
Variable planet_monthly_tiles : result (list (string * Layer)).

(** Lines 1160-1254; [slider_ctrl] is the fresh [WidgetControl]. *)
Definition time_slider (layers_dict : PyArg)
           (labels : option (list string)) (slider_ctrl : Control)
  : Py Map Player :=
  let! layers_dict :=
    match layers_dict with
    | NotADict => raise TypeError
    | Dict d => ret d
    end in
  let! layers_dict :=
    (if decide (length layers_dict = 0) then
       fun m => (m, planet_monthly_tiles)
     else ret layers_dict) in
  let labels :=
    match labels with
    | None => keys layers_dict
    | Some ls => ls
    end in
  if decide (length labels ≠ length layers_dict) then raise ValueError
  else
    (* IntSlider(min=1, max=len(labels)) refuses max < min *)
    if decide (length labels = 0) then raise TraitError
    else
      let! label := index 0 labels in
      let! key0 := index 0 (keys layers_dict) in
      let! layer := getitem key0 layers_dict in
      do! attempt (add_layer layer) in
      do! attempt (add_control slider_ctrl) in
      do! modify (set_slider_ctrl (Some slider_ctrl)) in
      ret (new_player (Z.of_nat (length labels))).

(** The calls that the claim about the early errors speaks of. *)
Definition bad_arguments (layers_dict : PyArg)
           (labels : option (list string)) : Prop :=
  match layers_dict with
  | NotADict => True
  | Dict d =>
      match labels with
      | Some ls => length ls ≠ length d
      | None => False
      end
  end.

(** The dictionary that the length check looks at (line 1168). *)
Definition effective_dict (d : list (string * Layer))
  : result (list (string * Layer)) :=
  if decide (length d = 0) then planet_monthly_tiles else Ok d.

(** The calls that lines 1160-1169 turn down. *)
Definition rejected (layers_dict : PyArg) (labels : option (list string))
  : Prop :=
  match layers_dict with
  | NotADict => True
  | Dict d =>
      match effective_dict d, labels with
      | Ok d', Some ls => length ls ≠ length d'
      | _, _ => False
      end
  end.

(** What the claim about the early errors asks of a call. *)
Definition early_error (m : Map) (layers_dict : PyArg)
           (labels : option (list string)) (slider_ctrl : Control) : Prop :=
  bad_arguments layers_dict labels ->
  time_slider layers_dict labels slider_ctrl m
  = (m, Raise (match layers_dict with
               | NotADict => TypeError
               | Dict _ => ValueError
               end)).

End WithPlanet.

(** [xs[i]] for a Python integer: a negative index counts from the
    end. *)
Definition py_index {S A : Type} (i : Z) (xs : list A) : Py S A :=
  if (0 <=? i)%Z then index (Z.to_nat i) xs
  else if (0 <=? Z.of_nat (length xs) + i)%Z
       then index (Z.to_nat (Z.of_nat (length xs) + i)) xs
       else raise IndexError.

(** What [slider_changed] captures: the labels and the dictionary after
    lines 1163-1167, and [layer], the object [layers_dict[keys[0]]] that
    line 1230 puts on the map. *)
Record Frames : Set := mkFrames {
  frame_labels : list string;
  frame_layers : list (string * Layer);
  shown_layer : Layer
}.

(** Lines 1232-1238, for the slider value [value]; the state is the map
    and [label.value] ([m.default_style] is not part of the model). *)
Definition slider_changed (f : Frames) (value : Z) : Py (Map * string) unit :=
  let index := (value - 1)%Z in
  let! lab := py_index index (frame_labels f) in
  do! modify (fun s => (fst s, lab)) in
  let! s := get in
  let! chosen := getitem (snd s) (frame_layers f) in
  do! modify (fun s => (assign_url (shown_layer f) (url_of (fst s) chosen)
                                   (fst s), snd s)) in
  let! s := get in
  let! chosen := getitem (snd s) (frame_layers f) in
  modify (fun s => (assign_name (shown_layer f) (name_of (fst s) chosen)
                                (fst s), snd s)).

(** Lines 1242-1248; [slider_widget.close()] touches no state modelled
    here. *)
Definition close_click (toolbar_reset : Map -> Map)
  : Py (Map * Player) unit :=
  do! modify (fun s => (fst s, assign_play_chk false (snd s))) in
  do! modify (fun s => (toolbar_reset (fst s), snd s)) in
  let! s := get in
  match slider_ctrl (fst s) with
  | Some c =>
      if decide (c ∈ controls (fst s)) then
        attempt (fun s => match remove_control c (fst s) with
                          | Ok m => Ok (m, snd s)
                          | Raise e => Raise e
                          end)
      else ret tt
  | None => ret tt
  end.

(** A thread that will not write the slider before it tests the run
    flag again. *)
Definition waiting (pc : Pc) : Prop :=
  pc = AtWhile \/ pc = AtSleep \/ pc = Finished.

(** Paused, with every thread waiting. *)
Definition quiescent (p : Player) : Prop :=
  play_chk p = false /\ Forall waiting (tasks p).

End TimeSlider.

(** ** The export panel: [save_map] *)

Module SaveMap.

(** The widgets that may be children of [save_map_widget]. *)
Inductive Child : Set := save_type | file_chooser | ok_cancel | label.

#[global] Instance Child_eq_dec : EqDecision Child.
Proof. solve_decision. Defined.

(** The calls that leave the program: [m.to_html(path)] and
    [screen_capture(outfile=path)]. *)
Inductive Export : Set :=
| ToHtml (path : string)
| ScreenCapture (path : string).

(** The traits the closures capture, the attribute [m.save_map_control]
    of the map, and the exports made so far. *)
Record Panel : Set := mkPanel {
  children : list Child;
  save_type_value : string;
  default_filename : string;
  selected : option string;          (* [file_chooser.selected] *)
  ok_cancel_value : option string;
  save_map_control : option Control;
  exports : list Export
}.

Definition set_children (cs : list Child) (p : Panel) : Panel :=
  mkPanel cs (save_type_value p) (default_filename p) (selected p)
          (ok_cancel_value p) (save_map_control p) (exports p).
Definition store_save_type (v : string) (p : Panel) : Panel :=
  mkPanel (children p) v (default_filename p) (selected p)
          (ok_cancel_value p) (save_map_control p) (exports p).
Definition set_default_filename (v : string) (p : Panel) : Panel :=
  mkPanel (children p) (save_type_value p) v (selected p)
          (ok_cancel_value p) (save_map_control p) (exports p).
Definition set_selected (v : option string) (p : Panel) : Panel :=
  mkPanel (children p) (save_type_value p) (default_filename p) v
          (ok_cancel_value p) (save_map_control p) (exports p).
Definition store_ok_cancel (v : option string) (p : Panel) : Panel :=
  mkPanel (children p) (save_type_value p) (default_filename p) (selected p)
          v (save_map_control p) (exports p).
Definition set_save_map_control (c : option Control) (p : Panel) : Panel :=
  mkPanel (children p) (save_type_value p) (default_filename p) (selected p)
          (ok_cancel_value p) c (exports p).
Definition record_export (e : Export) (p : Panel) : Panel :=
  mkPanel (children p) (save_type_value p) (default_filename p) (selected p)
          (ok_cancel_value p) (save_map_control p) (exports p ++ [e]).

(** The export panel, the main toolbar's panel (whose wrench toggle is
    [m.toolbar_button]) and the map. *)
Record State : Set := mkState {
  panel : Panel;
  bar : ToolbarPanel.Bar;
  map : Map
}.

Definition on_panel (f : Panel -> Panel) : Py State unit :=
  modify (fun s => mkState (f (panel s)) (bar s) (map s)).
Definition on_bar (f : ToolbarPanel.Bar -> ToolbarPanel.Bar) : Py State unit :=
  modify (fun s => mkState (panel s) (f (bar s)) (map s)).
Definition on_map (f : Map -> Map) : Py State unit :=
  modify (fun s => mkState (panel s) (bar s) (f (map s))).
Definition try_map (f : Map -> result Map) : Py State unit :=
  attempt (fun s => match f (map s) with
                    | Ok m => Ok (mkState (panel s) (bar s) m)
                    | Raise e => Raise e
                    end).

Section WithBuiltins.

(** [os.path.splitext(path)[1]] and [str.upper]. *)
Variable splitext_ext : string -> string.
Variable upper : string -> string.

(** [Map.toolbar_reset] is defined in leafmap.py, outside this file. *)
Variable toolbar_reset : Map -> Map.

(** Lines 998-1000 (and 1006-1008, 1020-1022): the removal is not
    guarded by a membership test. *)
Definition remove_save_map_control : Py State unit :=
  let! s := get in
  match save_map_control (panel s) with
  | Some c =>
      do! try_map (remove_control c) in
      on_panel (set_save_map_control None)
  | None => ret tt
  end.

(** Lines 996-1002 and 1004-1010; [time.sleep(2)] has no effect on the
    state. *)
Definition capture (file_path : string) : Py State unit :=
  do! on_bar (ToolbarPanel.assign_toolbar_button false) in
  do! remove_save_map_control in
  on_panel (record_export (ScreenCapture file_path)).

(** The observer's run for the change to [None] that line 1023 causes:
    no branch matches, the value is [None] already, and line 1024 runs. *)
Definition assign_ok_cancel_none : Py State unit :=
  let! s := get in
  if decide (ok_cancel_value (panel s) = None) then ret tt
  else
    do! on_panel (store_ok_cancel None) in
    on_map toolbar_reset.

(** Lines 988-1024. *)
Definition ok_cancel_clicked (new : option string) : Py State unit :=
  do! (if decide (new = Some "OK") then
         let! s := get in
         let! file_path :=
           match selected (panel s) with
           | Some path => ret path
           | None => raise TypeError   (* [os.path.splitext(None)] *)
           end in
         let ext := splitext_ext file_path in
         if decide (save_type_value (panel s) = "HTML"
                    /\ upper ext = ".HTML") then
           on_panel (record_export (ToHtml file_path))
         else if decide (save_type_value (panel s) = "PNG"
                         /\ upper ext = ".PNG") then
           capture file_path
         else if decide (save_type_value (panel s) = "JPG"
                         /\ upper ext = ".JPG") then
           capture file_path
         else
           on_panel (set_children [save_type; file_chooser; label])
       else if decide (new = Some "Cancel") then
         on_panel (set_selected None)      (* [file_chooser.reset()] *)
       else if decide (new = Some "Close") then
         remove_save_map_control
       else ret tt) in
  do! assign_ok_cancel_none in
  on_map toolbar_reset.

(** The user picks [choice] in the row of buttons. *)
Definition click (choice : string) : Py State unit :=
  fun s =>
    if decide (ok_cancel_value (panel s) = Some choice) then (s, Ok tt)
    else ok_cancel_clicked (Some choice)
           (mkState (store_ok_cancel (Some choice) (panel s)) (bar s) (map s)).

(** Lines 973-983; the closing assignment of [ok_cancel.value] is that
    of line 974. *)
Definition save_type_changed (new : string) : Py State unit :=
  do! assign_ok_cancel_none in
  do! (if decide (new = "HTML") then
         on_panel (set_default_filename "my_map.html")
       else if decide (new = "PNG") then
         on_panel (set_default_filename "my_map.png")
       else if decide (new = "JPG") then
         on_panel (set_default_filename "my_map.jpg")
       else ret tt) in
  on_panel (set_children [save_type; file_chooser]).

(** Lines 985-986, after the chooser has stored the selection. *)
Definition chooser_callback (path : string) : Py State unit :=
  do! on_panel (set_selected (Some path)) in
  on_panel (set_children [save_type; file_chooser; ok_cancel]).

End WithBuiltins.

(** Lines 946-1036: the panel as [save_map] builds it and puts it on
    the map; [save_map_control] is the fresh [WidgetControl]. *)
Definition new_panel : Panel :=
  mkPanel [save_type; file_chooser] "HTML" "my_map.html" None None None [].

Definition save_map (save_map_control : Control) (b : ToolbarPanel.Bar)
  : Map -> State * result unit :=
  fun m =>
    (do! try_map (add_control save_map_control) in
     on_panel (set_save_map_control (Some save_map_control)))
      (mkState new_panel b m).

(** The upper-cased extension goes with the selected export type. *)
Definition matching (p : Panel) (upper_ext : string) : Prop :=
  (save_type_value p = "HTML" /\ upper_ext = ".HTML") \/
  (save_type_value p = "PNG" /\ upper_ext = ".PNG") \/
  (save_type_value p = "JPG" /\ upper_ext = ".JPG").

End SaveMap.

(** ** The panel of [open_data_widget] *)

Module OpenDataWidget.

(** The widgets that are put into and taken out of the panel's rows. *)
Inductive Child : Set :=
| longitude | latitude | label
| point_check | point_popup
| filepath
| bands | vmin | vmax | nodata | palette.

(** The traits of the panel's widgets that the closures read and write.
    A [filter_pattern] that is one string is the list of that string,
    and every child of [raster_options] is an [HBox], given by its own
    children. *)
Record Panel : Set := mkPanel {
  file_type_value : string;
  filepath_value : string;
  layer_name_value : string;
  point_check_value : bool;
  point_popup_options : list string;
  point_popup_value : list string;
  longitude_value : option string;
  latitude_value : option string;
  label_value : option string;
  texts : OpenData.RasterFields;   (* [bands], [vmin], [vmax], [nodata] *)
  palette_options : list string;
  palette_value : option string;
  chooser_default_path : string;
  chooser_selected : option string;
  filter_pattern : list string;
  csv_widget_children : list Child;
  raster_options_children : list (list Child);
  point_widget_children : list Child;
  http_widget_children : list Child;
  ok_cancel_value : option string;
  output : list string   (* what [tool_output] shows *)
}.

Definition store_filepath (v : string) (p : Panel) : Panel :=
  mkPanel (file_type_value p) v (layer_name_value p) (point_check_value p)
          (point_popup_options p) (point_popup_value p) (longitude_value p)
          (latitude_value p) (label_value p) (texts p) (palette_options p)
          (palette_value p) (chooser_default_path p) (chooser_selected p)
          (filter_pattern p) (csv_widget_children p)
          (raster_options_children p) (point_widget_children p)
          (http_widget_children p) (ok_cancel_value p) (output p).
Definition store_layer_name (v : string) (p : Panel) : Panel :=
  mkPanel (file_type_value p) (filepath_value p) v (point_check_value p)
          (point_popup_options p) (point_popup_value p) (longitude_value p)
          (latitude_value p) (label_value p) (texts p) (palette_options p)
          (palette_value p) (chooser_default_path p) (chooser_selected p)
          (filter_pattern p) (csv_widget_children p)
          (raster_options_children p) (point_widget_children p)
          (http_widget_children p) (ok_cancel_value p) (output p).
Definition store_point_check (v : bool) (p : Panel) : Panel :=
  mkPanel (file_type_value p) (filepath_value p) (layer_name_value p) v
          (point_popup_options p) (point_popup_value p) (longitude_value p)
          (latitude_value p) (label_value p) (texts p) (palette_options p)
          (palette_value p) (chooser_default_path p) (chooser_selected p)
          (filter_pattern p) (csv_widget_children p)
          (raster_options_children p) (point_widget_children p)
          (http_widget_children p) (ok_cancel_value p) (output p).
Definition set_point_popup_options (v : list string) (p : Panel) : Panel :=
  mkPanel (file_type_value p) (filepath_value p) (layer_name_value p)
          (point_check_value p) v (point_popup_value p) (longitude_value p)
          (latitude_value p) (label_value p) (texts p) (palette_options p)
          (palette_value p) (chooser_default_path p) (chooser_selected p)
          (filter_pattern p) (csv_widget_children p)
          (raster_options_children p) (point_widget_children p)
          (http_widget_children p) (ok_cancel_value p) (output p).
Definition store_point_popup (v : list string) (p : Panel) : Panel :=
  mkPanel (file_type_value p) (filepath_value p) (layer_name_value p)
          (point_check_value p) (point_popup_options p) v
          (longitude_value p) (latitude_value p) (label_value p) (texts p)
          (palette_options p) (palette_value p) (chooser_default_path p)
          (chooser_selected p) (filter_pattern p) (csv_widget_children p)
          (raster_options_children p) (point_widget_children p)
          (http_widget_children p) (ok_cancel_value p) (output p).
Definition set_palette_options (v : list string) (p : Panel) : Panel :=
  mkPanel (file_type_value p) (filepath_value p) (layer_name_value p)
          (point_check_value p) (point_popup_options p)
          (point_popup_value p) (longitude_value p) (latitude_value p)
          (label_value p) (texts p) v (palette_value p)
          (chooser_default_path p) (chooser_selected p) (filter_pattern p)
          (csv_widget_children p) (raster_options_children p)
          (point_widget_children p) (http_widget_children p)
          (ok_cancel_value p) (output p).
Definition store_palette (v : option string) (p : Panel) : Panel :=
  mkPanel (file_type_value p) (filepath_value p) (layer_name_value p)
          (point_check_value p) (point_popup_options p)
          (point_popup_value p) (longitude_value p) (latitude_value p)
          (label_value p) (texts p) (palette_options p) v
          (chooser_default_path p) (chooser_selected p) (filter_pattern p)
          (csv_widget_children p) (raster_options_children p)
          (point_widget_children p) (http_widget_children p)
          (ok_cancel_value p) (output p).
Definition set_chooser_default_path (v : string) (p : Panel) : Panel :=
  mkPanel (file_type_value p) (filepath_value p) (layer_name_value p)
          (point_check_value p) (point_popup_options p)
          (point_popup_value p) (longitude_value p) (latitude_value p)
          (label_value p) (texts p) (palette_options p) (palette_value p) v
          (chooser_selected p) (filter_pattern p) (csv_widget_children p)
          (raster_options_children p) (point_widget_children p)
          (http_widget_children p) (ok_cancel_value p) (output p).
Definition set_chooser_selected (v : option string) (p : Panel) : Panel :=
  mkPanel (file_type_value p) (filepath_value p) (layer_name_value p)
          (point_check_value p) (point_popup_options p)
          (point_popup_value p) (longitude_value p) (latitude_value p)
          (label_value p) (texts p) (palette_options p) (palette_value p)
          (chooser_default_path p) v (filter_pattern p)
          (csv_widget_children p) (raster_options_children p)
          (point_widget_children p) (http_widget_children p)
          (ok_cancel_value p) (output p).
Definition set_filter_pattern (v : list string) (p : Panel) : Panel :=
  mkPanel (file_type_value p) (filepath_value p) (layer_name_value p)
          (point_check_value p) (point_popup_options p)
          (point_popup_value p) (longitude_value p) (latitude_value p)
          (label_value p) (texts p) (palette_options p) (palette_value p)
          (chooser_default_path p) (chooser_selected p) v
          (csv_widget_children p) (raster_options_children p)
          (point_widget_children p) (http_widget_children p)
          (ok_cancel_value p) (output p).
Definition set_csv_widget_children (v : list Child) (p : Panel) : Panel :=
  mkPanel (file_type_value p) (filepath_value p) (layer_name_value p)
          (point_check_value p) (point_popup_options p)
          (point_popup_value p) (longitude_value p) (latitude_value p)
          (label_value p) (texts p) (palette_options p) (palette_value p)
          (chooser_default_path p) (chooser_selected p) (filter_pattern p) v
          (raster_options_children p) (point_widget_children p)
          (http_widget_children p) (ok_cancel_value p) (output p).
Definition set_raster_options_children (v : list (list Child)) (p : Panel)
  : Panel :=
  mkPanel (file_type_value p) (filepath_value p) (layer_name_value p)
          (point_check_value p) (point_popup_options p)
          (point_popup_value p) (longitude_value p) (latitude_value p)
          (label_value p) (texts p) (palette_options p) (palette_value p)
          (chooser_default_path p) (chooser_selected p) (filter_pattern p)
          (csv_widget_children p) v (point_widget_children p)
          (http_widget_children p) (ok_cancel_value p) (output p).
Definition set_point_widget_children (v : list Child) (p : Panel) : Panel :=
  mkPanel (file_type_value p) (filepath_value p) (layer_name_value p)
          (point_check_value p) (point_popup_options p)
          (point_popup_value p) (longitude_value p) (latitude_value p)
          (label_value p) (texts p) (palette_options p) (palette_value p)
          (chooser_default_path p) (chooser_selected p) (filter_pattern p)
          (csv_widget_children p) (raster_options_children p) v
          (http_widget_children p) (ok_cancel_value p) (output p).
Definition set_http_widget_children (v : list Child) (p : Panel) : Panel :=
  mkPanel (file_type_value p) (filepath_value p) (layer_name_value p)
          (point_check_value p) (point_popup_options p)
          (point_popup_value p) (longitude_value p) (latitude_value p)
          (label_value p) (texts p) (palette_options p) (palette_value p)
          (chooser_default_path p) (chooser_selected p) (filter_pattern p)
          (csv_widget_children p) (raster_options_children p)
          (point_widget_children p) v (ok_cancel_value p) (output p).
Definition store_ok_cancel (v : option string) (p : Panel) : Panel :=
  mkPanel (file_type_value p) (filepath_value p) (layer_name_value p)
          (point_check_value p) (point_popup_options p)
          (point_popup_value p) (longitude_value p) (latitude_value p)
          (label_value p) (texts p) (palette_options p) (palette_value p)
          (chooser_default_path p) (chooser_selected p) (filter_pattern p)
          (csv_widget_children p) (raster_options_children p)
          (point_widget_children p) (http_widget_children p) v (output p).
Definition set_output (v : list string) (p : Panel) : Panel :=
  mkPanel (file_type_value p) (filepath_value p) (layer_name_value p)
          (point_check_value p) (point_popup_options p)
          (point_popup_value p) (longitude_value p) (latitude_value p)
          (label_value p) (texts p) (palette_options p) (palette_value p)
          (chooser_default_path p) (chooser_selected p) (filter_pattern p)
          (csv_widget_children p) (raster_options_children p)
          (point_widget_children p) (http_widget_children p)
          (ok_cancel_value p) v.

(** The [popup] argument of [add_point_layer]: a column name or a list
    of them. *)
Inductive Popup : Set :=
| One (name : string)
| Several (names : list string).

Section WithMap.

Variable PyFloat : Type.
Variable int_of_str : string -> option Z.
Variable float_of_str : string -> option PyFloat.

(** The data-loading methods of [leafmap.Map] that the Apply button
    calls, with the arguments that are not constants. *)
Inductive Call : Type :=
| add_point_layer (file_path : string) (popup : Popup) (layer_name : string)
| add_shp (file_path layer_name : string)
| add_geojson (file_path layer_name : string)
| add_xy_data (file_path : string) (x y label : option string)
              (layer_name : string)
| add_local_tile (file_path layer_name : string)
                 (args : OpenData.RasterArgs PyFloat)
                 (palette : option string).

(** The panel, the attributes [m.tool_output_ctrl] and
    [m.default_style["cursor"]], the loading calls made so far, and the
    map. *)
Record State : Type := mkState {
  panel : Panel;
  tool_output_ctrl : option Control;
  cursor : string;
  calls : list Call;
  map : Map
}.

Definition on_panel (f : Panel -> Panel) : Py State unit :=
  modify (fun s => mkState (f (panel s)) (tool_output_ctrl s) (cursor s)
                           (calls s) (map s)).
Definition set_tool_output_ctrl (c : option Control) : Py State unit :=
  modify (fun s => mkState (panel s) c (cursor s) (calls s) (map s)).
Definition set_cursor (v : string) : Py State unit :=
  modify (fun s => mkState (panel s) (tool_output_ctrl s) v (calls s) (map s)).
Definition record_call (c : Call) : Py State unit :=
  modify (fun s => mkState (panel s) (tool_output_ctrl s) (cursor s)
                           (calls s ++ [c]) (map s)).
Definition on_map (f : Map -> Map) : Py State unit :=
  modify (fun s => mkState (panel s) (tool_output_ctrl s) (cursor s)
                           (calls s) (f (map s))).
Definition in_map {A : Type} (c : Py Map A) : Py State A :=
  fun s => let (m, r) := c (map s) in
           (mkState (panel s) (tool_output_ctrl s) (cursor s) (calls s) m, r).

(** [str.strip], [os.path.splitext(path)[1]], [str.lower] and
    [os.getcwd()]. *)
Variable strip : string -> string.
Variable splitext_ext : string -> string.
Variable lower : string -> string.
Variable cwd : string.

(** [Map.toolbar_reset], the loading methods, [vector_col_names] and
    [get_palettable(types=["matplotlib", "cartocolors"])] are defined
    outside this file. *)
Variable toolbar_reset : Map -> Map.
Variable load : Call -> Py Map unit.
Variable vector_col_names : string -> result (list string).
Variable palettes : list string.

(** Whether the context manager of [tool_output] swallows an exception
    raised in its block (ipywidgets does so inside a kernel, after
    showing the traceback). *)
Variable swallows : bool.

Definition with_output (block : Py State unit) : Py State unit :=
  fun s => let (s', r) := block s in
           match r with
           | Ok _ => (s', Ok tt)
           | Raise e => if swallows then (s', Ok tt) else (s', Raise e)
           end.

(** Lines 602-611, the observer of [point_check]. *)
Definition point_layer_check : Py State unit :=
  let! s := get in
  if point_check_value (panel s) then
    do! (if decide (strip (filepath_value (panel s)) ≠ "") then
           do! set_cursor "wait" in
           let! names := (fun s' : State =>
                            (s', vector_col_names
                                   (filepath_value (panel s)))) in
           (* a new list of options clears the selection *)
           do! on_panel (set_point_popup_options names) in
           do! on_panel (store_point_popup []) in
           let! first := index 0 names in
           on_panel (store_point_popup [first])
         else ret tt) in
    on_panel (set_point_widget_children [point_check; point_popup])
  else
    on_panel (set_point_widget_children [point_check]).

(** [point_check.value = v]: the observer runs when the value changes. *)
Definition assign_point_check (v : bool) : Py State unit :=
  let! s := get in
  if decide (point_check_value (panel s) = v) then ret tt
  else
    do! on_panel (store_point_check v) in
    point_layer_check.

(** One of the loading calls on [m]. *)
Definition call (c : Call) : Py State unit :=
  do! record_call c in
  in_map (load c).

(** Lines 790-842, the block under [with tool_output:]. *)
Definition apply_block (file_path : string) : Py State unit :=
  do! on_panel (set_output []) in
  let! s := get in
  let p := panel s in
  if decide (strip file_path ≠ "") then
    let ext := splitext_ext file_path in
    if point_check_value p then
      let popup := match point_popup_value p with
                   | [name] => One name
                   | names => Several names
                   end in
      call (add_point_layer file_path popup (layer_name_value p))
    else if decide (lower ext = ".shp") then
      call (add_shp file_path (layer_name_value p))
    else if decide (lower ext = ".geojson") then
      call (add_geojson file_path (layer_name_value p))
    else if decide (lower ext = ".csv" /\ file_type_value p = "CSV") then
      call (add_xy_data file_path (longitude_value p) (latitude_value p)
                        (label_value p) (layer_name_value p))
    else if decide ((lower ext = ".tif" \/ lower ext = "img")
                    /\ file_type_value p = "Raster") then
      call (add_local_tile file_path (layer_name_value p)
              (OpenData.raster_args PyFloat int_of_str float_of_str (texts p))
              (palette_value p))
    else ret tt
  else
    on_panel (fun p' => set_output (output p' ++ ["Please select a file to open."]) p').

(** Lines 785-867.  The assignment of line 867 changes the value only
    when the observer runs for a click, and the run it causes then finds
    no branch to take and the value [None] already. *)
Definition ok_cancel_clicked (new : option string) : Py State unit :=
  do! (if decide (new = Some "Apply") then
         do! set_cursor "wait" in
         let! s := get in
         do! with_output (apply_block (filepath_value (panel s))) in
         do! on_map toolbar_reset in
         set_cursor "default"
       else if decide (new = Some "Reset") then
         do! on_panel (set_chooser_selected None) in
         do! on_panel (set_output []) in
         do! on_panel (store_filepath "") in
         on_map toolbar_reset
       else if decide (new = Some "Close") then
         let! s := get in
         match tool_output_ctrl s with
         | Some c =>
             if decide (c ∈ controls (map s)) then
               do! in_map (attempt (remove_control c)) in
               do! set_tool_output_ctrl None in
               on_map toolbar_reset
             else ret tt
         | None => ret tt
         end
       else ret tt) in
  on_panel (store_ok_cancel None).

(** The user picks [choice] in the row of buttons. *)
Definition click (choice : string) : Py State unit :=
  let! s := get in
  if decide (ok_cancel_value (panel s) = Some choice) then ret tt
  else
    do! on_panel (store_ok_cancel (Some choice)) in
    ok_cancel_clicked (Some choice).

(** Lines 739-783, the observer of [file_type]; [file_type.value] is
    [new] when it runs.  Line 740 starts a run of [ok_cancel_clicked]
    that does nothing, and [filepath_change] (lines 666-684) does
    nothing either. *)
Definition file_type_changed (new : string) : Py State unit :=
  do! on_panel (store_ok_cancel None) in
  do! on_panel (set_chooser_default_path cwd) in
  do! on_panel (set_chooser_selected None) in
  do! on_panel (store_layer_name new) in
  do! on_panel (set_csv_widget_children []) in
  do! on_panel (store_filepath "") in
  do! on_panel (set_output []) in
  if decide (new = "Shapefile") then
    do! on_panel (set_filter_pattern ["*.shp"]) in
    do! on_panel (set_raster_options_children []) in
    do! on_panel (set_point_widget_children []) in
    do! assign_point_check false in
    on_panel (set_http_widget_children [])
  else if decide (new = "GeoJSON") then
    do! on_panel (set_filter_pattern ["*.geojson"; "*.json"]) in
    do! on_panel (set_raster_options_children []) in
    do! on_panel (set_point_widget_children []) in
    do! assign_point_check false in
    on_panel (set_http_widget_children [filepath])
  else if decide (new = "Vector") then
    do! on_panel (set_filter_pattern ["*.*"]) in
    do! on_panel (set_raster_options_children []) in
    do! on_panel (set_point_widget_children [point_check]) in
    do! assign_point_check false in
    on_panel (set_http_widget_children [filepath])
  else if decide (new = "CSV") then
    do! on_panel (set_filter_pattern ["*.csv"; "*.CSV"]) in
    do! on_panel (set_csv_widget_children [longitude; latitude; label]) in
    do! on_panel (set_raster_options_children []) in
    do! on_panel (set_point_widget_children []) in
    do! assign_point_check false in
    on_panel (set_http_widget_children [filepath])
  else if decide (new = "Raster") then
    do! on_panel (set_filter_pattern ["*.tif"; "*.img"]) in
    do! on_panel (set_palette_options palettes) in
    do! on_panel (store_palette None) in
    do! on_panel (set_raster_options_children
                    [[bands; vmin; vmax]; [nodata; palette]]) in
    do! on_panel (set_point_widget_children []) in
    do! assign_point_check false in
    on_panel (set_http_widget_children [filepath])
  else ret tt.

(** The user picks another file type. *)
Definition pick_file_type (new : string) : Py State unit :=
  let! s := get in
  if decide (file_type_value (panel s) = new) then ret tt
  else
    do! on_panel (fun p =>
          mkPanel new (filepath_value p) (layer_name_value p)
            (point_check_value p) (point_popup_options p)
            (point_popup_value p) (longitude_value p) (latitude_value p)
            (label_value p) (texts p) (palette_options p) (palette_value p)
            (chooser_default_path p) (chooser_selected p) (filter_pattern p)
            (csv_widget_children p) (raster_options_children p)
            (point_widget_children p) (http_widget_children p)
            (ok_cancel_value p) (output p)) in
    file_type_changed new.

(** The user enters a path into [filepath]; its observer
    [filepath_change] (lines 666-684) does nothing. *)
Definition enter_path (path : string) : Py State unit :=
  on_panel (store_filepath path).

(** The panel as lines 520-701 build it. *)
Definition new_panel : Panel :=
  mkPanel "Shapefile" "" "Shapefile" false ["None"] ["None"] None None None
          (OpenData.mkFields "" "" "" "") [] None cwd None ["*.shp"]
          [] [] [] [] None [].

(** Lines 703-706 and 873-874; [ctrl] is the fresh [WidgetControl]. *)
Definition open_data_widget (ctrl : Control) : Py State unit :=
  do! on_panel (fun _ => new_panel) in
  let! s := get in
  do! match tool_output_ctrl s with
      | Some c =>
          if decide (c ∈ controls (map s)) then
            in_map (attempt (remove_control c))
          else ret tt
      | None => ret tt
      end in
  do! in_map (attempt (add_control ctrl)) in
  set_tool_output_ctrl (Some ctrl).

End WithMap.

Arguments panel {PyFloat} _.
Arguments tool_output_ctrl {PyFloat} _.
Arguments cursor {PyFloat} _.
Arguments calls {PyFloat} _.
Arguments map {PyFloat} _.

End OpenDataWidget.

(** ** The provider list of [search_basemaps] *)

Module SearchBasemaps.

(** What the [output] widget shows, and the map. *)
Record State : Set := mkState {
  output : list string;
  map : Map
}.

Definition set_output (lines : list string) : Py State unit :=
  modify (fun s => mkState lines (map s)).
Definition in_map {A : Type} (c : Py Map A) : Py State A :=
  fun s => let (m, r) := c (map s) in (mkState (output s) m, r).
Definition lift {A : Type} (r : result A) : Py State A := fun s => (s, r).

(** [provider[4:]] *)
Definition from_4 (provider : string) : string :=
  String.substring 4 (String.length provider - 4) provider.

Section WithProviders.

(** xyzservices: [TileProvider.from_qms], the dictionary
    [xyz.flatten()], and the methods and the attribute of a provider
    that the observer uses. *)
Variable Provider : Type.
Variable from_qms : string -> result Provider.
Variable xyz_flatten : list (string * Provider).
Variable build_url : Provider -> result string.
Variable attribution : Provider -> string.
Variable requires_token : Provider -> bool.

(** [Map.add_tile_layer(url, name, attribution)] is defined in
    leafmap.py, outside this file. *)
Variable add_tile_layer : string -> string -> string -> Py Map unit.

(** [layers = m.layers], line 1409: the tuple the map showed when the
    panel was built. *)
Variable layers : list Layer.

(** Lines 1472-1499, the observer of the [providers] dropdown. *)
Definition providers_change (new : option string) : Py State unit :=
  if decide (new ≠ Some "") then
    match new with
    | Some provider =>
        if String.prefix "qms" provider then
          do! set_output ["Adding data. Please wait..."] in
          let name := from_4 provider in
          let! qms_provider := lift (from_qms name) in
          let! url := lift (build_url qms_provider) in
          do! in_map (attempt (assign_layers layers)) in
          do! in_map (add_tile_layer url name (attribution qms_provider)) in
          set_output []
        else if String.prefix "xyz" provider then
          let name := from_4 provider in
          let! xyz_provider := getitem name xyz_flatten in
          let! url := lift (build_url xyz_provider) in
          do! in_map (attempt (assign_layers layers)) in
          do! (if requires_token xyz_provider then
                 set_output [String.append provider " requires an API Key."]
               else ret tt) in
          in_map (add_tile_layer url name (attribution xyz_provider))
        else ret tt
    | None => ret tt
    end
  else ret tt.

End WithProviders.

End SearchBasemaps.

(** ** Concrete maps, tables and panels *)

Module Examples.

Definition osm : Layer := mkLayer 10 false.
Definition hybrid : Layer := mkLayer 11 false.
Definition nlcd : Layer := mkLayer 12 true.

Definition leafmap_basemaps : list (string * Layer) :=
  [ ("OpenStreetMap", osm); ("HYBRID", hybrid);
    ("NLCD 2016 CONUS Land Cover", nlcd) ].

Definition planet_2020_01 : Layer := mkLayer 20 false.
Definition planet_2020_02 : Layer := mkLayer 21 false.

Definition planet_monthly_tiles : result (list (string * Layer)) :=
  Ok [ ("Planet_2020_01", planet_2020_01) ].

Definition two_months : list (string * Layer) :=
  [ ("Planet_2020_01", planet_2020_01); ("Planet_2020_02", planet_2020_02) ].

(** The layer a new map comes with. *)
Definition default_layer : Layer := mkLayer 1 false.

(** Names and urls of the layer objects above. *)
Definition attrs (i : nat) : LayerAttrs :=
  match i with
  | 10 => mkAttrs "OpenStreetMap"
                  "https://tile.openstreetmap.org/{z}/{x}/{y}.png"
  | 11 => mkAttrs "Google Satellite"
                  "https://mt1.google.com/vt/lyrs=y&x={x}&y={y}&z={z}"
  | 12 => mkAttrs "NLCD 2016 CONUS Land Cover"
                  "https://www.mrlc.gov/geoserver/mrlc_display/wms?"
  | 20 => mkAttrs "Planet_2020_01"
                  "https://tiles.planet.com/basemaps/v1/planet-tiles/2020_01"
  | 21 => mkAttrs "Planet_2020_02"
                  "https://tiles.planet.com/basemaps/v1/planet-tiles/2020_02"
  | _ => mkAttrs "OpenStreetMap.Mapnik"
                 "https://a.tile.openstreetmap.org/{z}/{x}/{y}.png"
  end.

(** The controls a new map comes with. *)
Definition zoom : Control := mkControl 1 ZoomControl.
Definition main_toolbar_control : Control := mkControl 2 WidgetControl.

Definition initial_map : Map :=
  mkMap [default_layer] [zoom; main_toolbar_control] None None None
        MainToolbar.toolbar_grid attrs.

(** The map after the basemap tool was opened once. *)
Definition map_with_osm : Map := set_layers [default_layer; osm] initial_map.

Definition map_without_layers : Map := clear_layers initial_map.

(** A map that shows the OpenStreetMap basemap below another one. *)
Definition map_with_osm_below : Map :=
  set_layers [default_layer; hybrid; osm] initial_map.

(** Fresh controls. *)
Definition panel_control : Control := mkControl 30 WidgetControl.
Definition basemap_control : Control := mkControl 31 WidgetControl.
Definition slider_control : Control := mkControl 32 WidgetControl.
Definition split_widgets : SplitMap.Widgets :=
  SplitMap.mkWidgets
    (mkControl 40 SplitMapControl) (mkControl 41 WidgetControl)
    (mkControl 42 WidgetControl) (mkControl 43 WidgetControl)
    (mkControl 44 ZoomControl) (mkControl 45 FullScreenControl)
    (mkControl 46 ScaleControl).

(** A tool panel pinned open on the map. *)
Definition map_with_panel : Map :=
  mkMap [default_layer] [zoom; main_toolbar_control; panel_control]
        (Some panel_control) None None MainToolbar.toolbar_grid attrs.
Definition open_world : ToolTemplate.World :=
  (ToolTemplate.opened_panel, Some map_with_panel).

(** Every tool panel puts one control on the map. *)
Definition launch (tool_name : string) : Py Map unit :=
  attempt (add_control panel_control).

(** The grid with the basemap and the open-data toggles on. *)
Definition two_tools_on : Map :=
  MainToolbar.store_tool 0 true (MainToolbar.store_tool 3 true initial_map).

(** Two vector layers (GeoJSON): not tile layers. *)
Definition countries : Layer := mkLayer 50 false.
Definition roads : Layer := mkLayer 51 false.

(** [isinstance(lyr, ipyleaflet.TileLayer)] for the layers above. *)
Definition is_tile_layer (lyr : Layer) : bool := (layer_id lyr <? 50)%nat.

(** The [LayersControl] of the main toolbar ([kind] has no constructor
    of its own for it). *)
Definition layers_control : Control := mkControl 33 WidgetControl.

Definition map_with_one_vector : Map :=
  set_layers [default_layer; osm; countries] initial_map.
Definition map_with_two_vectors : Map :=
  set_layers [default_layer; countries; roads] initial_map.

(** [os.path.splitext(path)[1]] and [str.upper] on the paths used
    below. *)
Definition splitext_ext (path : string) : string :=
  if decide (path = "/home/user/my_map.png") then ".png"
  else if decide (path = "/home/user/my_map.html") then ".html"
  else "".
Definition upper (s : string) : string :=
  if decide (s = ".png") then ".PNG"
  else if decide (s = ".html") then ".HTML"
  else s.

Definition save_control : Control := mkControl 34 WidgetControl.

(** The export panel on the map, a PNG file chosen. *)
Definition saving_png : SaveMap.State :=
  let opened := fst (SaveMap.save_map save_control
                       (ToolbarPanel.assign_toolbar_button true
                          (ToolbarPanel.new_bar None)) initial_map) in
  SaveMap.mkState
    (SaveMap.set_children
       [SaveMap.save_type; SaveMap.file_chooser; SaveMap.ok_cancel]
       (SaveMap.set_selected (Some "/home/user/my_map.png")
          (SaveMap.store_save_type "PNG" (SaveMap.panel opened))))
    (SaveMap.bar opened) (SaveMap.map opened).

(** The same with the type left at HTML. *)
Definition saving_png_as_html : SaveMap.State :=
  SaveMap.mkState (SaveMap.store_save_type "HTML" (SaveMap.panel saving_png))
                  (SaveMap.bar saving_png) (SaveMap.map saving_png).

(** [str.strip], [os.path.splitext(path)[1]] and [str.lower] on the
    file names used below, a loader that leaves the map alone, and the
    column names and palettes on offer. *)
Definition strip (s : string) : string :=
  if decide (s = "   ") then "" else s.
Definition extension (path : string) : string :=
  if decide (path = "/data/dem.img") then ".img"
  else if decide (path = "/data/parcels.json") then ".json"
  else if decide (path = "/data/roads.shp") then ".shp"
  else "".
Definition lower (s : string) : string := s.
Definition load (c : OpenDataWidget.Call Z) : Py Map unit := ret tt.
Definition vector_col_names (path : string) : result (list string) :=
  Ok ["name"; "height"].
Definition palettes : list string := ["viridis"; "terrain"].

Definition first_open_data_control : Control := mkControl 35 WidgetControl.
Definition second_open_data_control : Control := mkControl 36 WidgetControl.

(** A map with an open-data panel on it, the point box ticked. *)
Definition open_data_ticked : OpenDataWidget.State Z :=
  OpenDataWidget.mkState Z
    (OpenDataWidget.mkPanel "Vector" "/data/roads.shp" "Vector" true
       ["name"; "height"] ["name"] None None None
       (OpenData.mkFields "" "" "" "") [] None "/home/user" None ["*.*"]
       [] [] [OpenDataWidget.point_check; OpenDataWidget.point_popup]
       [OpenDataWidget.filepath] None [])
    (Some first_open_data_control) "default" []
    (set_controls [zoom; main_toolbar_control; first_open_data_control]
                  initial_map).

(** Two xyzservices providers, given by URL template and attribution,
    and an [add_tile_layer] that puts one more tile layer on the map. *)
Definition xyz_flatten : list (string * (string * string)) :=
  [ ("OpenTopoMap", ("https://tile.opentopomap.org/z/x/y.png", "OpenTopoMap"));
    ("CartoDB.Positron", ("https://basemaps.cartocdn.com/light_all/z/x/y.png",
                          "CARTO")) ].
Definition from_qms (name : string) : result (string * string) :=
  Raise ValueError.
Definition build_url (p : string * string) : result string := Ok (fst p).
Definition found : Layer := mkLayer 60 false.
Definition add_tile_layer (url name attribution : string) : Py Map unit :=
  attempt (add_layer found).

(** The map with a vector layer added after the search panel opened. *)
Definition searching : SearchBasemaps.State :=
  SearchBasemaps.mkState [] (set_layers [default_layer; roads] initial_map).

End Examples.

(** * Properties *)

(** ** Generic facts about the state-and-exception monad *)

Lemma bind_ok {S A B : Type} (c : Py S A) (k : A -> Py S B) s s' a :
  c s = (s', Ok a) -> bind c k s = k a s'.
Proof. intros H. unfold bind. now rewrite H. Qed.

Lemma bind_raise {S A B : Type} (c : Py S A) (k : A -> Py S B) s s' e :
  c s = (s', Raise e) -> bind c k s = (s', Raise e).
Proof. intros H. unfold bind. now rewrite H. Qed.

Lemma attempt_raise_keeps {S : Type} (f : S -> result S) s s' e :
  attempt f s = (s', Raise e) -> s' = s.
Proof. unfold attempt. destruct (f s); congruence. Qed.

(** ** Facts about the map collaborator *)

Module LeafletFacts.

Lemma assign_layers_ok ls m m' :
  assign_layers ls m = Ok m' -> m' = set_layers ls m.
Proof. unfold assign_layers. case_decide; congruence. Qed.

Lemma assign_controls_ok cs m m' :
  assign_controls cs m = Ok m' -> m' = set_controls cs m.
Proof. unfold assign_controls. case_decide; congruence. Qed.

Lemma assign_layers_NoDup ls m :
  NoDup (layer_id <$> ls) -> assign_layers ls m = Ok (set_layers ls m).
Proof. intros H. unfold assign_layers. case_decide; [reflexivity|tauto]. Qed.

Lemma assign_controls_NoDup cs m :
  NoDup (model_id <$> cs) -> assign_controls cs m = Ok (set_controls cs m).
Proof. intros H. unfold assign_controls. case_decide; [reflexivity|tauto]. Qed.

Lemma add_control_ok c m m' :
  add_control c m = Ok m' -> m' = set_controls (controls m ++ [c]) m.
Proof.
  unfold add_control. case_decide; [discriminate|]. apply assign_controls_ok.
Qed.

Lemma add_layer_ok l m m' :
  add_layer l m = Ok m' -> m' = set_layers (layers m ++ [l]) m.
Proof.
  unfold add_layer. case_decide; [discriminate|]. apply assign_layers_ok.
Qed.

Lemma substitute_layer_ok old new m m' :
  substitute_layer old new m = Ok m' ->
  m' = set_layers
         ((fun l => if decide (layer_id l = layer_id old) then new else l)
            <$> layers m) m.
Proof.
  unfold substitute_layer. case_decide; [|discriminate].
  apply assign_layers_ok.
Qed.

(** What a successful [attempt] leaves behind. *)
Lemma attempt_ok {S : Type} (f : S -> result S) s s' :
  attempt f s = (s', Ok tt) -> f s = Ok s'.
Proof. unfold attempt. destruct (f s); congruence. Qed.

End LeafletFacts.

(** ** The hover and pin state machine of a tool panel *)

Module ToolTemplateFacts.
Import ToolTemplate.

Lemma handle_mouseenter p :
  handle_toolbar_event "mouseenter" p
  = set_children [toolbar_header; toolbar_footer] p.
Proof. reflexivity. Qed.

Lemma handle_mouseleave_unpinned p :
  toolbar_button_value p = false ->
  handle_toolbar_event "mouseleave" p
  = store_close_button false (set_children [toolbar_button] p).
Proof.
  intros Hp. unfold handle_toolbar_event. cbn [decide].
  destruct (decide ("mouseleave" = "mouseenter")) as [E|_]; [discriminate E|].
  destruct (decide ("mouseleave" = "mouseleave")) as [_|N]; [|now destruct N].
  rewrite Hp. cbn [negb].
  unfold assign_close_button_false, assign_toolbar_button.
  cbn [set_children toolbar_button_value]. rewrite Hp.
  destruct (decide (false = false)) as [_|N]; [reflexivity|now destruct N].
Qed.

Lemma handle_mouseleave_pinned p :
  toolbar_button_value p = true ->
  handle_toolbar_event "mouseleave" p = p.
Proof.
  intros Hp. unfold handle_toolbar_event.
  destruct (decide ("mouseleave" = "mouseenter")) as [E|_]; [discriminate E|].
  destruct (decide ("mouseleave" = "mouseleave")) as [_|N]; [|now destruct N].
  now rewrite Hp.
Qed.

Lemma handle_keeps_pin e p :
  toolbar_button_value (handle_toolbar_event e p) = toolbar_button_value p.
Proof.
  unfold handle_toolbar_event.
  destruct (decide (e = "mouseenter")); [reflexivity|].
  destruct (decide (e = "mouseleave")); [|reflexivity].
  destruct (toolbar_button_value p) eqn:Hp; cbn [negb]; [exact Hp|].
  unfold assign_close_button_false, assign_toolbar_button.
  cbn [set_children toolbar_button_value]. rewrite Hp.
  destruct (decide (false = false)) as [_|N]; [exact Hp|now destruct N].
Qed.

Lemma run_events_app evs1 evs2 p :
  run_events (evs1 ++ evs2) p = run_events evs2 (run_events evs1 p).
Proof.
  revert p. induction evs1 as [|e evs1 IH]; intros p; [reflexivity|].
  cbn [app run_events]. apply IH.
Qed.

Lemma run_events_keeps_pin evs p :
  toolbar_button_value (run_events evs p) = toolbar_button_value p.
Proof.
  revert p. induction evs as [|e evs IH]; intros p; [reflexivity|].
  cbn [run_events]. rewrite IH. apply handle_keeps_pin.
Qed.

(** The display after one pointer event on an unpinned panel. *)
Lemma displayed_after_pointer_event e p :
  toolbar_button_value p = false ->
  pointer_event e ->
  displayed (handle_toolbar_event e p)
  = Some (if decide (e = "mouseenter") then Expanded else Collapsed).
Proof.
  intros Hp [-> | ->].
  - rewrite handle_mouseenter. reflexivity.
  - rewrite handle_mouseleave_unpinned by exact Hp. reflexivity.
Qed.

(** C1: on a panel that is not pinned, after any sequence of
    mouseenter/mouseleave events the panel is expanded exactly when the
    last event was mouseenter, and collapsed otherwise; the empty
    sequence leaves the collapsed panel as it is; the pin flag stays
    off all along. *)
Theorem hover_follows_last_pointer_event (evs : list string) (p : Panel) :
  toolbar_button_value p = false ->
  displayed p = Some Collapsed ->
  Forall pointer_event evs ->
  (displayed (run_events evs p) = Some Expanded
   <-> last evs = Some "mouseenter") /\
  (displayed (run_events evs p) = Some Collapsed
   <-> last evs ≠ Some "mouseenter") /\
  (evs = [] -> run_events evs p = p) /\
  (forall k, toolbar_button_value (run_events (take k evs) p) = false).
Proof.
  intros Hp Hd Hall.
  assert (Hpin : forall k,
             toolbar_button_value (run_events (take k evs) p) = false).
  { intros k. rewrite run_events_keeps_pin. exact Hp. }
  destruct evs as [|e0 evs0] using rev_ind.
  - cbn. rewrite Hd. repeat split; try congruence; try discriminate; auto.
  - clear IHevs0.
    apply Forall_app in Hall as [_ Hlast].
    rewrite Forall_singleton in Hlast.
    rewrite run_events_app, last_snoc. cbn [run_events].
    rewrite displayed_after_pointer_event;
      [|rewrite run_events_keeps_pin; exact Hp|exact Hlast].
    destruct (decide (e0 = "mouseenter")) as [->|Hne].
    + repeat split; try congruence; try discriminate; auto.
      intros E. now destruct (app_cons_not_nil _ _ _ (eq_sym E)).
    + repeat split; try congruence; try discriminate; auto.
      intros E. now destruct (app_cons_not_nil _ _ _ (eq_sym E)).
Qed.

Lemma hover_follows_last_pointer_event_witness :
  let evs := ["mouseenter"; "mouseleave"; "mouseenter"] in
  (displayed (run_events evs fresh_panel) = Some Expanded
   <-> last evs = Some "mouseenter") /\
  (displayed (run_events evs fresh_panel) = Some Collapsed
   <-> last evs ≠ Some "mouseenter") /\
  (evs = [] -> run_events evs fresh_panel = fresh_panel) /\
  (forall k, toolbar_button_value (run_events (take k evs) fresh_panel)
             = false).
Proof.
  intros evs.
  apply (hover_follows_last_pointer_event evs fresh_panel).
  - reflexivity.
  - reflexivity.
  - repeat first [apply Forall_nil_2 | apply Forall_cons_2];
      unfold pointer_event; auto.
Defined.


(** C2, as stated, fails: the panel as [tool_template] leaves it, with
    the pointer over it, collapses when the gear button is switched
    off. *)
Lemma unpin_under_pointer_collapses :
  ~ unpin_keeps_hovered_panel hovered_pinned.
Proof.
  intros H. destruct H as [_ H]; [reflexivity|reflexivity|].
  vm_compute in H. discriminate H.
Qed.

(** C2, amended: switching the gear button off clears the pin flag and
    collapses the panel whenever the close button's flag is unset,
    wherever the pointer is; the displayed children are kept only while
    the close button's flag is set. *)
Theorem unpin_collapses_unless_closing (s : Session) :
  toolbar_button_value (panel s) = true ->
  toolbar_button_value (panel (pin_toggle false s)) = false /\
  pointer_over (pin_toggle false s) = pointer_over s /\
  (close_button_value (panel s) = false ->
   displayed (panel (pin_toggle false s)) = Some Collapsed) /\
  (close_button_value (panel s) = true ->
   children (panel (pin_toggle false s)) = children (panel s)).
Proof.
  intros Hpin. destruct s as [[ws tb cb cl] over].
  cbn in Hpin. subst tb.
  unfold pin_toggle, assign_toolbar_button. cbn [panel toolbar_button_value].
  destruct (decide (true = false)) as [E|_]; [discriminate E|].
  unfold toolbar_btn_click, store_toolbar_button.
  cbn [close_button_value children closed pointer_over].
  destruct cb; cbn; repeat split; intros; congruence.
Qed.

Lemma unpin_collapses_unless_closing_witness :
  toolbar_button_value (panel hovered_pinned) = true /\
  pointer_over hovered_pinned = true /\
  displayed (panel (pin_toggle false hovered_pinned)) = Some Collapsed.
Proof.
  split; [reflexivity|]. split; [reflexivity|].
  apply (unpin_collapses_unless_closing hovered_pinned); reflexivity.
Defined.

(** The observer of the close button ignores a change to [False]. *)
Lemma close_btn_click_false toolbar_reset w :
  close_btn_click toolbar_reset false w = (w, Ok tt).
Proof. reflexivity. Qed.

Lemma NoDup_ids_filter (P : Control -> Prop) `{!forall c, Decision (P c)}
      (cs : list Control) :
  NoDup (model_id <$> cs) -> NoDup (model_id <$> filter P cs).
Proof.
  induction cs as [|c cs IH]; [auto|].
  rewrite fmap_cons, NoDup_cons. intros [Hc Hcs].
  rewrite filter_cons. destruct (decide (P c)); [|auto].
  rewrite fmap_cons, NoDup_cons. split; [|auto].
  intros Hin. apply Hc.
  apply list_elem_of_fmap in Hin as (c' & -> & Hc').
  apply list_elem_of_filter in Hc' as [_ Hc'].
  now apply list_elem_of_fmap_2.
Qed.

(** [m.remove_control(c)] under the guard of line 159. *)
Lemma remove_control_present c m :
  c ∈ controls m -> NoDup (control_ids m) ->
  remove_control c m
  = Ok (set_controls
          (filter (fun c' => model_id c' ≠ model_id c) (controls m)) m).
Proof.
  intros Hin Hnd. unfold remove_control, assign_controls.
  destruct (decide (model_id c ∈ control_ids m)) as [_|N].
  - destruct (decide (NoDup (model_id <$>
                filter (fun c' => model_id c' ≠ model_id c) (controls m))))
      as [_|N]; [reflexivity|].
    destruct N. now apply NoDup_ids_filter.
  - destruct N. unfold control_ids. now apply list_elem_of_fmap_2.
Qed.

Lemma removed_control_absent c (cs : list Control) :
  c ∉ filter (fun c' => model_id c' ≠ model_id c) cs.
Proof. rewrite list_elem_of_filter. intros [N _]. now apply N. Qed.

Section Close.

Variable toolbar_reset : Map -> Map.
Hypothesis reset_keeps_controls : keeps_controls toolbar_reset.

Let close := close_btn_click toolbar_reset true.

(** The outcome of [close_btn_click], case by case. *)
Lemma close_btn_click_cases (w : World) :
  world_ok w ->
  snd (close w) = Ok tt /\
  closed (fst (fst (close w))) = true /\
  match snd w with
  | None => snd (fst (close w)) = None
  | Some m =>
      match tool_control m with
      | Some c =>
          if decide (c ∈ controls m) then
            snd (fst (close w))
            = Some (set_tool_control None
                      (set_controls
                         (filter (fun c' => model_id c' ≠ model_id c)
                                 (controls m)) (toolbar_reset m)))
          else snd (fst (close w)) = Some (toolbar_reset m)
      | None => snd (fst (close w)) = Some (toolbar_reset m)
      end
  end.
Proof.
  destruct w as [p [m|]]; unfold world_ok; cbn [snd]; intros Hok.
  - destruct (reset_keeps_controls m) as [Hc Ht].
    subst close. unfold close_btn_click, bind, on_panel, when_map, modify,
      get, ret. cbn [fst snd].
    rewrite Ht. destruct (tool_control m) as [c|]; [|auto].
    rewrite Hc. destruct (decide (c ∈ controls m)) as [Hin|Hout]; [|auto].
    unfold attempt. rewrite remove_control_present;
      [|now rewrite Hc|unfold control_ids; now rewrite Hc].
    rewrite Hc. auto.
  - subst close. cbn. auto.
Qed.

(** C5: [close_btn_click] never raises; on a panel whose control is
    already off the map it leaves the control list as it is; a second
    close right after a first one does not raise either, finds the
    panel detached, and the control that the first close removed is
    still absent. *)
Theorem close_is_safe_when_detached (w : World) :
  world_ok w ->
  snd (close w) = Ok tt /\
  (detached w -> world_controls (fst (close w)) = world_controls w) /\
  detached (fst (close w)) /\
  snd (close (fst (close w))) = Ok tt /\
  world_controls (fst (close (fst (close w))))
  = world_controls (fst (close w)) /\
  (forall m c, snd w = Some m -> tool_control m = Some c ->
               c ∉ world_controls (fst (close (fst (close w))))).
Proof.
  intros Hok.
  destruct (close_btn_click_cases w Hok) as (Hret & _ & Hcase).
  assert (Hdet1 : detached (fst (close w))).
  { unfold detached. destruct (snd w) as [m|]; [|now rewrite Hcase].
    destruct (reset_keeps_controls m) as [Hc Ht].
    destruct (tool_control m) as [c|] eqn:Htc.
    - destruct (decide (c ∈ controls m)) as [Hin|Hout]; rewrite Hcase.
      + exact I.
      + rewrite Ht, Hc. exact Hout.
    - rewrite Hcase, Ht. exact I. }
  assert (Hkeep : forall w0, world_ok w0 -> detached w0 ->
             world_controls (fst (close w0)) = world_controls w0).
  { intros w0 Hok0 Hdet0.
    destruct (close_btn_click_cases w0 Hok0) as (_ & _ & Hcase0).
    unfold detached in Hdet0. unfold world_controls.
    destruct (snd w0) as [m|]; [|now rewrite Hcase0].
    destruct (reset_keeps_controls m) as [Hc _].
    destruct (tool_control m) as [c|].
    - destruct (decide (c ∈ controls m)) as [Hin|_];
        [now destruct Hdet0|].
      now rewrite Hcase0.
    - now rewrite Hcase0. }
  assert (Hok1 : world_ok (fst (close w))).
  { unfold world_ok in *. destruct (snd w) as [m|]; [|now rewrite Hcase].
    destruct (reset_keeps_controls m) as [Hc Ht].
    assert (Hnd : NoDup (control_ids (toolbar_reset m)))
      by (unfold control_ids; now rewrite Hc).
    destruct (tool_control m) as [c|];
      [destruct (decide (c ∈ controls m))|]; rewrite Hcase; auto.
    unfold control_ids. cbn [set_tool_control set_controls controls].
    now apply NoDup_ids_filter. }
  split; [exact Hret|].
  split; [apply Hkeep; exact Hok|].
  split; [exact Hdet1|].
  split; [apply (close_btn_click_cases _ Hok1)|].
  split; [apply Hkeep; assumption|].
  intros m c Hm Htc. rewrite Hkeep by assumption.
  unfold world_controls, detached in *. rewrite Hm in Hcase.
  rewrite Htc in Hcase. destruct (reset_keeps_controls m) as [Hc Ht].
  destruct (decide (c ∈ controls m)) as [Hin|Hout]; rewrite Hcase.
  - cbn [set_tool_control set_controls controls].
    apply removed_control_absent.
  - now rewrite Hc.
Qed.

End Close.

(** The panel that a returning [close_btn_click] leaves behind. *)
Lemma close_btn_click_panel toolbar_reset p m w' :
  close_btn_click toolbar_reset true (p, m) = (w', Ok tt) ->
  fst w' = close_widget (assign_toolbar_button false p).
Proof.
  unfold close_btn_click, bind, on_panel, when_map, modify, get, ret, attempt.
  cbn [fst snd].
  repeat case_match; intros; simplify_eq; reflexivity.
Qed.

(** A second click that sets the close button to [True] again changes
    no trait, so the observer is not even called. *)
Lemma second_click_on_close_is_ignored toolbar_reset (w : World) :
  let w1 := fst (assign_close_button toolbar_reset true w) in
  snd (assign_close_button toolbar_reset true w) = Ok tt ->
  assign_close_button toolbar_reset true w1 = (w1, Ok tt).
Proof.
  cbv zeta. unfold assign_close_button.
  destruct (decide (close_button_value (fst w) = true)) as [E|E].
  - intros _. cbn [fst]. now rewrite decide_True by exact E.
  - destruct w as [p m]. cbn [fst snd].
    destruct (close_btn_click toolbar_reset true (store_close_button true p, m))
      as [w' [[]|e]] eqn:Hclose; [|discriminate].
    intros _. cbn [fst].
    apply close_btn_click_panel in Hclose.
    rewrite decide_True; [reflexivity|].
    rewrite Hclose. unfold assign_toolbar_button, toolbar_btn_click.
    case_decide; reflexivity.
Qed.

Lemma reset_all_keeps_controls : keeps_controls MainToolbar.reset_all.
Proof. intros m. split; reflexivity. Qed.

Lemma close_is_safe_when_detached_witness :
  let close := close_btn_click MainToolbar.reset_all true in
  let w1 := fst (close Examples.open_world) in
  world_ok Examples.open_world /\
  snd (close Examples.open_world) = Ok tt /\
  world_controls w1 = [Examples.zoom; Examples.main_toolbar_control] /\
  detached w1 /\
  snd (close w1) = Ok tt /\
  world_controls (fst (close w1)) = world_controls w1 /\
  Examples.panel_control ∉ world_controls (fst (close w1)).
Proof.
  intros close w1.
  assert (Hok : world_ok Examples.open_world)
    by (apply (bool_decide_unpack _); vm_compute; exact I).
  destruct (close_is_safe_when_detached MainToolbar.reset_all
              reset_all_keeps_controls Examples.open_world Hok)
    as (H1 & _ & H3 & H4 & H5 & H6).
  split; [exact Hok|]. split; [exact H1|]. split; [reflexivity|].
  split; [exact H3|]. split; [exact H4|]. split; [exact H5|].
  apply (H6 Examples.map_with_panel); reflexivity.
Defined.

(** *** Pinning *)

Lemma handle_on_pinned e p :
  toolbar_button_value p = true ->
  displayed p = Some Expanded ->
  displayed (handle_toolbar_event e p) = Some Expanded /\
  close_button_value (handle_toolbar_event e p) = close_button_value p.
Proof.
  intros Hpin Hd. unfold handle_toolbar_event.
  destruct (decide (e = "mouseenter")); [split; reflexivity|].
  destruct (decide (e = "mouseleave")); [|split; [exact Hd|reflexivity]].
  rewrite Hpin. cbn [negb]. split; [exact Hd|reflexivity].
Qed.

(** X1: a pinned, expanded panel stays expanded and pinned under every
    sequence of DOM events, mouseleave included, and its close flag is
    not touched. *)
Theorem pinned_panel_stays_expanded (evs : list string) (p : Panel) :
  toolbar_button_value p = true ->
  displayed p = Some Expanded ->
  displayed (run_events evs p) = Some Expanded /\
  toolbar_button_value (run_events evs p) = true /\
  close_button_value (run_events evs p) = close_button_value p.
Proof.
  revert p. induction evs as [|e evs IH]; intros p Hpin Hd; [auto|].
  cbn [run_events].
  destruct (handle_on_pinned e p Hpin Hd) as [Hd' Hc'].
  destruct (IH (handle_toolbar_event e p)) as (H1 & H2 & H3);
    [now rewrite handle_keeps_pin|exact Hd'|].
  repeat split; congruence.
Qed.

Lemma pinned_panel_stays_expanded_witness :
  toolbar_button_value opened_panel = true /\
  displayed (run_events ["mouseleave"; "mouseenter"; "mouseleave"]
                        opened_panel) = Some Expanded.
Proof.
  split; [reflexivity|].
  apply (pinned_panel_stays_expanded
           ["mouseleave"; "mouseenter"; "mouseleave"] opened_panel);
    reflexivity.
Defined.

Lemma toolbar_btn_click_keeps_pin v p :
  toolbar_button_value (toolbar_btn_click v p) = toolbar_button_value p.
Proof.
  unfold toolbar_btn_click. destruct v; [reflexivity|].
  destruct (close_button_value p); reflexivity.
Qed.

Lemma assign_toolbar_button_value v p :
  toolbar_button_value (assign_toolbar_button v p) = v.
Proof.
  unfold assign_toolbar_button. case_decide; [assumption|].
  now rewrite toolbar_btn_click_keeps_pin.
Qed.

(** X2: assigning the gear button is idempotent (a repeated assignment
    of the same value is not even observed); switching it on expands the
    panel and clears the close flag, whatever the panel showed. *)
Theorem pin_toggle_is_idempotent (v : bool) (p : Panel) :
  assign_toolbar_button v (assign_toolbar_button v p)
  = assign_toolbar_button v p /\
  toolbar_button_value (assign_toolbar_button v p) = v /\
  (toolbar_button_value p = false ->
   displayed (assign_toolbar_button true p) = Some Expanded /\
   close_button_value (assign_toolbar_button true p) = false).
Proof.
  split; [|split].
  - unfold assign_toolbar_button at 1.
    now rewrite decide_True by apply assign_toolbar_button_value.
  - apply assign_toolbar_button_value.
  - intros Hp. unfold assign_toolbar_button. rewrite Hp.
    destruct (decide (false = true)) as [E|_]; [discriminate E|].
    split; reflexivity.
Qed.

(** *** Opening and closing a panel on the map *)

Lemma filter_other_ids_snoc (c : Control) (cs : list Control) :
  model_id c ∉ (model_id <$> cs) ->
  filter (fun c' => model_id c' ≠ model_id c) (cs ++ [c]) = cs.
Proof.
  intros Hfresh. rewrite filter_app, filter_cons, filter_nil.
  rewrite decide_False by (intros N; now apply N).
  rewrite app_nil_r. induction cs as [|c0 cs IH]; [reflexivity|].
  rewrite fmap_cons, not_elem_of_cons in Hfresh. destruct Hfresh as [Hne Hcs].
  rewrite filter_cons, decide_True by congruence.
  now rewrite IH.
Qed.

Lemma NoDup_ids_snoc (c : Control) (cs : list Control) :
  NoDup (model_id <$> cs) -> model_id c ∉ (model_id <$> cs) ->
  NoDup (model_id <$> (cs ++ [c])).
Proof.
  intros Hnd Hfresh. rewrite fmap_app. apply NoDup_app.
  split; [exact Hnd|]. split.
  - intros x Hx Hin. cbn in Hin. apply list_elem_of_singleton in Hin.
    subst x. now apply Hfresh.
  - cbn. apply NoDup_singleton.
Qed.

(** [m.add_control(c)] for a control whose identifier is new. *)
Lemma add_control_fresh c m :
  NoDup (control_ids m) -> model_id c ∉ control_ids m ->
  add_control c m = Ok (set_controls (controls m ++ [c]) m).
Proof.
  intros Hnd Hfresh. unfold add_control.
  rewrite decide_False by exact Hfresh.
  apply LeafletFacts.assign_controls_NoDup. now apply NoDup_ids_snoc.
Qed.

Lemma fresh_id_not_member c m :
  model_id c ∉ control_ids m -> c ∉ controls m.
Proof.
  intros Hfresh Hin. apply Hfresh. unfold control_ids.
  now apply list_elem_of_fmap_2.
Qed.

(** What [tool_template] leaves on a map for a new control. *)
Lemma tool_template_fresh c m :
  NoDup (control_ids m) -> model_id c ∉ control_ids m ->
  tool_template c (Some m)
  = ((opened_panel,
      Some (set_tool_control (Some c) (set_controls (controls m ++ [c]) m))),
     Ok tt).
Proof.
  intros Hnd Hfresh.
  unfold tool_template, attach, bind, on_panel, when_map, modify, get, attempt.
  cbn [fst snd].
  rewrite decide_True by (now apply fresh_id_not_member).
  rewrite add_control_fresh by assumption. reflexivity.
Qed.

Section OpenClose.

Variable toolbar_reset : Map -> Map.
Hypothesis reset_toolbar_only : toolbar_only toolbar_reset.

Lemma reset_fields m :
  controls (toolbar_reset m) = controls m /\
  tool_control (toolbar_reset m) = tool_control m /\
  layers (toolbar_reset m) = layers m /\
  basemap_ctrl (toolbar_reset m) = basemap_ctrl m /\
  slider_ctrl (toolbar_reset m) = slider_ctrl m /\
  layer_attrs (toolbar_reset m) = layer_attrs m.
Proof. rewrite (reset_toolbar_only m). repeat split. Qed.

Lemma toolbar_only_keeps_controls : keeps_controls toolbar_reset.
Proof. intros m. destruct (reset_fields m) as (H1 & H2 & _). now split. Qed.

(** The map block of [close_btn_click] when [tool_control] is on the
    map. *)
Lemma close_removes_tool_control p m c :
  NoDup (control_ids m) -> tool_control m = Some c -> c ∈ controls m ->
  close_btn_click toolbar_reset true (p, Some m)
  = ((close_widget (assign_toolbar_button false p),
      Some (set_tool_control None
              (set_controls
                 (filter (fun c' => model_id c' ≠ model_id c) (controls m))
                 (toolbar_reset m)))),
     Ok tt).
Proof.
  intros Hnd Htc Hin.
  destruct (reset_fields m) as (Hc & Ht & _).
  unfold close_btn_click, bind, on_panel, when_map, modify, get, attempt.
  cbn [fst snd]. rewrite Ht, Htc, Hc.
  rewrite decide_True by exact Hin.
  rewrite remove_control_present;
    [|now rewrite Hc|unfold control_ids; now rewrite Hc].
  now rewrite Hc.
Qed.

(** The map block of [close_btn_click] when the slot is empty. *)
Lemma close_with_empty_slot p m :
  tool_control m = None ->
  close_btn_click toolbar_reset true (p, Some m)
  = ((close_widget (assign_toolbar_button false p), Some (toolbar_reset m)),
     Ok tt).
Proof.
  intros Htc. destruct (reset_fields m) as (_ & Ht & _).
  unfold close_btn_click, bind, on_panel, when_map, modify, get, ret.
  cbn [fst snd]. now rewrite Ht, Htc.
Qed.

(** X3: opening a tool panel on a map and closing it again is a round
    trip on the map's controls: [tool_template] appends the new control
    and records it in [m.tool_control]; the close button removes exactly
    that control, clears [m.tool_control], closes the widget and does not
    raise. *)
Theorem open_then_close_restores_controls (c : Control) (m : Map) :
  NoDup (control_ids m) ->
  model_id c ∉ control_ids m ->
  let opened := fst (tool_template c (Some m)) in
  let closed_ := close_btn_click toolbar_reset true opened in
  world_controls opened = controls m ++ [c] /\
  (exists m1, snd opened = Some m1 /\ tool_control m1 = Some c) /\
  snd closed_ = Ok tt /\
  world_controls (fst closed_) = controls m /\
  (exists m2, snd (fst closed_) = Some m2 /\ tool_control m2 = None) /\
  closed (fst (fst closed_)) = true.
Proof.
  intros Hnd Hfresh. cbv zeta.
  rewrite tool_template_fresh by assumption. cbn [fst snd].
  split; [reflexivity|]. split; [eexists; split; reflexivity|].
  rewrite (close_removes_tool_control _ _ c);
    [|now apply NoDup_ids_snoc|reflexivity|
     cbn; apply elem_of_app; right; apply list_elem_of_singleton; reflexivity].
  cbn [fst snd world_controls set_tool_control set_controls controls].
  split; [reflexivity|]. split.
  - now apply filter_other_ids_snoc.
  - split; [eexists; split; reflexivity|reflexivity].
Qed.

(** X4: [m.tool_control] is one slot shared by all tool panels.  When a
    second panel is opened while the first is still on the map, the close
    button of the first panel removes the control of the second one; the
    control of the first panel stays on the map, and closing the second
    panel afterwards removes nothing. *)
Theorem closing_first_panel_removes_second (a b : Control) (m : Map) :
  NoDup (control_ids m) ->
  model_id a ∉ control_ids m ->
  model_id b ∉ control_ids m ->
  model_id a ≠ model_id b ->
  forall wa wb ma mb,
    tool_template a (Some m) = (wa, Ok tt) -> snd wa = Some ma ->
    tool_template b (Some ma) = (wb, Ok tt) -> snd wb = Some mb ->
    let first_closed := close_btn_click toolbar_reset true (fst wa, Some mb) in
    snd first_closed = Ok tt /\
    world_controls (fst first_closed) = controls m ++ [a] /\
    let second_closed :=
      close_btn_click toolbar_reset true (fst wb, snd (fst first_closed)) in
    snd second_closed = Ok tt /\
    world_controls (fst second_closed) = controls m ++ [a].
Proof.
  intros Hnd Ha Hb Hab wa wb ma mb Hwa Hma Hwb Hmb.
  rewrite tool_template_fresh in Hwa by assumption.
  injection Hwa as <-. cbn [snd] in Hma. injection Hma as <-.
  assert (Hnd' : NoDup (control_ids
            (set_tool_control (Some a) (set_controls (controls m ++ [a]) m))))
    by (now apply NoDup_ids_snoc).
  assert (Hb' : model_id b ∉ control_ids
            (set_tool_control (Some a) (set_controls (controls m ++ [a]) m))).
  { unfold control_ids. cbn [controls set_tool_control set_controls].
    rewrite fmap_app. intros Hin. apply elem_of_app in Hin as [Hin|Hin].
    - now apply Hb.
    - cbn in Hin. apply list_elem_of_singleton in Hin. congruence. }
  rewrite tool_template_fresh in Hwb by assumption.
  injection Hwb as <-. cbn [snd] in Hmb. injection Hmb as <-.
  cbv zeta. cbn [fst].
  rewrite (close_removes_tool_control _ _ b);
    [|now apply NoDup_ids_snoc|reflexivity|
     cbn; apply elem_of_app; right; apply list_elem_of_singleton; reflexivity].
  cbn [fst snd world_controls set_tool_control set_controls controls].
  assert (Hrest : filter (fun c' => model_id c' ≠ model_id b)
                         ((controls m ++ [a]) ++ [b]) = controls m ++ [a]).
  { apply filter_other_ids_snoc. exact Hb'. }
  split; [reflexivity|]. split; [exact Hrest|].
  rewrite close_with_empty_slot by reflexivity.
  cbn [fst snd world_controls].
  split; [reflexivity|].
  destruct (reset_fields
              (set_tool_control None
                 (set_controls
                    (filter (fun c' => model_id c' ≠ model_id b)
                            ((controls m ++ [a]) ++ [b]))
                    (toolbar_reset
                       (set_tool_control (Some b)
                          (set_controls ((controls m ++ [a]) ++ [b])
                             (set_tool_control (Some a)
                                (set_controls (controls m ++ [a]) m))))))))
    as (Hc & _).
  rewrite Hc. exact Hrest.
Qed.

(** X5: the "Close" choice of the button row does to the map what the
    close button does (it resets the toolbar, removes [m.tool_control]
    when it is on the map and clears it), closes the widget and does not
    raise, but it leaves the gear button and the displayed children as
    they are; "Apply" and "Reset" leave the panel and the map alone; every
    choice ends with [buttons.value] cleared. *)
Theorem close_choice_acts_as_close_button (w : World) (f : Form) :
  world_ok w ->
  let chosen := button_clicked toolbar_reset (Some "Close") (w, f) in
  snd chosen = Ok tt /\
  snd (fst (fst chosen))
  = snd (fst (close_btn_click toolbar_reset true w)) /\
  fst (fst (fst chosen)) = close_widget (fst w) /\
  buttons_value (snd (fst chosen)) = None /\
  (forall choice, choice = "Apply" \/ choice = "Reset" ->
     fst (fst (button_clicked toolbar_reset (Some choice) (w, f))) = w /\
     buttons_value
       (snd (fst (button_clicked toolbar_reset (Some choice) (w, f))))
     = None).
Proof.
  intros Hok. cbv zeta.
  destruct (close_btn_click_cases toolbar_reset toolbar_only_keeps_controls
              w Hok) as (_ & _ & Hcase).
  destruct w as [p [m|]]; unfold world_ok in Hok; cbn [snd] in Hok, Hcase.
  - destruct (reset_fields m) as (Hc & Ht & _).
    assert (Hchoice : forall choice, choice = "Apply" \/ choice = "Reset" ->
       fst (fst (button_clicked toolbar_reset (Some choice) (p, Some m, f)))
       = (p, Some m) /\
       buttons_value
         (snd (fst (button_clicked toolbar_reset (Some choice)
                      (p, Some m, f)))) = None).
    { intros choice [-> | ->]; split; reflexivity. }
    unfold button_clicked, bind, on_world, on_form, on_panel, when_map,
      modify, get, ret, attempt.
    destruct (decide (Some "Close" = Some "Apply")) as [E|_]; [discriminate E|].
    destruct (decide (Some "Close" = Some "Reset")) as [E|_]; [discriminate E|].
    destruct (decide (Some "Close" = Some "Close")) as [_|N]; [|now destruct N].
    cbn [fst snd]. rewrite Ht.
    destruct (tool_control m) as [c|] eqn:Htc.
    + rewrite Hc. destruct (decide (c ∈ controls m)) as [Hin|Hout].
      * rewrite remove_control_present;
          [|now rewrite Hc|unfold control_ids; now rewrite Hc].
        rewrite Hc, Hcase. cbn [fst snd]. repeat split; apply Hchoice; auto.
      * rewrite Hcase. cbn [fst snd]. repeat split; apply Hchoice; auto.
    + rewrite Hcase. cbn [fst snd]. repeat split; apply Hchoice; auto.
  - rewrite Hcase. repeat split; destruct H as [-> | ->]; reflexivity.
Qed.

End OpenClose.

Lemma reset_all_toolbar_only : toolbar_only MainToolbar.reset_all.
Proof. intros m. reflexivity. Qed.

Lemma open_then_close_restores_controls_witness :
  let opened := fst (tool_template Examples.panel_control
                       (Some Examples.initial_map)) in
  NoDup (control_ids Examples.initial_map) /\
  world_controls opened
  = [Examples.zoom; Examples.main_toolbar_control; Examples.panel_control] /\
  world_controls (fst (close_btn_click MainToolbar.reset_all true opened))
  = controls Examples.initial_map.
Proof.
  intros opened.
  assert (Hnd : NoDup (control_ids Examples.initial_map))
    by (apply (bool_decide_unpack _); vm_compute; exact I).
  assert (Hfresh : model_id Examples.panel_control
                   ∉ control_ids Examples.initial_map)
    by (apply (bool_decide_unpack _); vm_compute; exact I).
  destruct (open_then_close_restores_controls MainToolbar.reset_all
              reset_all_toolbar_only Examples.panel_control
              Examples.initial_map Hnd Hfresh) as (H1 & _ & _ & H4 & _).
  split; [exact Hnd|]. split; [exact H1|exact H4].
Defined.

Lemma closing_first_panel_removes_second_witness :
  let wa := fst (tool_template Examples.panel_control
                   (Some Examples.initial_map)) in
  let wb := fst (tool_template Examples.basemap_control (snd wa)) in
  world_controls wb
  = [Examples.zoom; Examples.main_toolbar_control; Examples.panel_control;
     Examples.basemap_control] /\
  world_controls
    (fst (close_btn_click MainToolbar.reset_all true (fst wa, snd wb)))
  = [Examples.zoom; Examples.main_toolbar_control; Examples.panel_control].
Proof.
  intros wa wb. split; [reflexivity|].
  refine (proj1 (proj2 (closing_first_panel_removes_second
            MainToolbar.reset_all reset_all_toolbar_only
            Examples.panel_control Examples.basemap_control
            Examples.initial_map _ _ _ _ wa wb _ _ eq_refl eq_refl
            eq_refl eq_refl))).
  - apply (bool_decide_unpack _); vm_compute; exact I.
  - apply (bool_decide_unpack _); vm_compute; exact I.
  - apply (bool_decide_unpack _); vm_compute; exact I.
  - discriminate.
Defined.

Lemma close_choice_acts_as_close_button_witness :
  let f := mkForm "notes" [] (Some "Close") in
  let chosen := button_clicked MainToolbar.reset_all (Some "Close")
                               (Examples.open_world, f) in
  world_ok Examples.open_world /\
  snd chosen = Ok tt /\
  world_controls (fst (fst chosen))
  = [Examples.zoom; Examples.main_toolbar_control] /\
  buttons_value (snd (fst chosen)) = None.
Proof.
  intros f chosen.
  assert (Hok : world_ok Examples.open_world)
    by (apply (bool_decide_unpack _); vm_compute; exact I).
  destruct (close_choice_acts_as_close_button MainToolbar.reset_all
              reset_all_toolbar_only Examples.open_world f Hok)
    as (H1 & _ & _ & H4 & _).
  split; [exact Hok|]. split; [exact H1|]. split; [reflexivity|exact H4].
Defined.

End ToolTemplateFacts.

(** ** Exclusive tools of the main toolbar *)

Module MainToolbarFacts.
Import MainToolbar.

Lemma tool_value_store_same i m : tool_value i (store_tool i false m) = false.
Proof.
  unfold store_tool, tool_value.
  destruct (toolbar m !! i) as [t|] eqn:E.
  - cbn [toolbar set_toolbar].
    rewrite list_lookup_insert_eq by (eapply lookup_lt_Some; exact E).
    reflexivity.
  - now rewrite E.
Qed.

Lemma tool_value_store_other i v k m :
  k ≠ i -> tool_value k (store_tool i v m) = tool_value k m.
Proof.
  intros Hne. unfold store_tool, tool_value.
  destruct (toolbar m !! i) as [t|] eqn:E; [|reflexivity].
  cbn [toolbar set_toolbar].
  now rewrite list_lookup_insert_ne by congruence.
Qed.

Lemma store_false_switches_nothing_on i :
  switches_nothing_on (store_tool i false).
Proof.
  intros m k H. destruct (decide (k = i)) as [->|Hne].
  - rewrite tool_value_store_same in H. discriminate H.
  - now rewrite tool_value_store_other in H.
Qed.

Lemma tool_value_in_grid i m :
  tool_value i m = true -> i < length (toolbar m).
Proof.
  unfold tool_value. destruct (toolbar m !! i) eqn:E; [|discriminate].
  intros _. eapply lookup_lt_Some. exact E.
Qed.

Lemma reset_all_switches_nothing_on : switches_nothing_on reset_all.
Proof.
  intros m i. unfold tool_value, reset_all. cbn [toolbar set_toolbar].
  rewrite list_lookup_fmap. destruct (toolbar m !! i); cbn; discriminate.
Qed.

Lemma quiet_ret {A : Type} (a : A) : quiet (ret a).
Proof. intros m i H. exact H. Qed.

Lemma quiet_raise {A : Type} e : quiet (@raise Map A e).
Proof. intros m i H. exact H. Qed.

Lemma quiet_get : quiet get.
Proof. intros m i H. exact H. Qed.

Lemma quiet_modify f : switches_nothing_on f -> quiet (modify f).
Proof. intros Hf m i H. now apply Hf. Qed.

Lemma quiet_index {A : Type} i (xs : list A) : quiet (index i xs).
Proof. unfold index. destruct (xs !! i); [apply quiet_ret|apply quiet_raise]. Qed.

Lemma quiet_getitem {V : Type} k (d : list (string * V)) :
  quiet (getitem k d).
Proof.
  unfold getitem. destruct (lookup_key k d);
    [apply quiet_ret|apply quiet_raise].
Qed.

Lemma quiet_bind {A B : Type} (c : Py Map A) (k : A -> Py Map B) :
  quiet c -> (forall a, quiet (k a)) -> quiet (bind c k).
Proof.
  intros Hc Hk m i. unfold bind. cbn beta.
  pose proof (Hc m i) as Hc'. cbn beta in Hc'.
  destruct (c m) as [m1 [a|e]]; cbn [fst] in *; [|exact Hc'].
  intros H. apply Hc'. now apply (Hk a m1 i).
Qed.

Section Callback.

Variable toolbar_reset : Map -> Map.
Variable launch : string -> Py Map unit.
Hypothesis reset_off : switches_nothing_on toolbar_reset.
Hypothesis launch_off : forall name, quiet (launch name).

Lemma tool_callback_false owner m :
  tool_callback toolbar_reset launch owner false m
  = (tool_callback_off toolbar_reset m, Ok tt).
Proof. reflexivity. Qed.

Lemma assign_tool_false_off i m :
  tool_value i (assign_tool_false toolbar_reset i m) = false.
Proof.
  unfold assign_tool_false, tool_callback_off.
  destruct (tool_value i m) eqn:E; [|exact E].
  destruct (tool_value i (toolbar_reset (store_tool i false m))) eqn:E';
    [|reflexivity].
  apply reset_off in E'. now rewrite tool_value_store_same in E'.
Qed.

Lemma assign_tool_false_switches_nothing_on i :
  switches_nothing_on (assign_tool_false toolbar_reset i).
Proof.
  intros m k. unfold assign_tool_false, tool_callback_off.
  destruct (tool_value i m); [|auto].
  intros H. now apply reset_off, store_false_switches_nothing_on in H.
Qed.

Lemma reset_siblings_switches_nothing_on owner idx :
  switches_nothing_on (reset_siblings toolbar_reset owner idx).
Proof.
  induction idx as [|i idx IH]; intros m k; cbn [reset_siblings]; [auto|].
  intros H. apply IH in H.
  destruct (decide (i = owner)); [exact H|].
  now apply assign_tool_false_switches_nothing_on in H.
Qed.

Lemma reset_siblings_off owner idx i m :
  i ∈ idx -> i ≠ owner ->
  tool_value i (reset_siblings toolbar_reset owner idx m) = false.
Proof.
  intros Hin Hne. revert m.
  induction idx as [|j idx IH]; intros m; [now apply elem_of_nil in Hin|].
  cbn [reset_siblings].
  apply elem_of_cons in Hin as [->|Hin]; [|now apply IH].
  destruct (decide (j = owner)) as [E|_]; [now destruct Hne|].
  destruct (tool_value j (reset_siblings toolbar_reset owner idx
                            (assign_tool_false toolbar_reset j m))) eqn:E;
    [|reflexivity].
  apply reset_siblings_switches_nothing_on in E.
  now rewrite assign_tool_false_off in E.
Qed.

(** After the loop of lines 305-307 only the owner may be on. *)
Lemma siblings_off_after_loop owner m i :
  i ≠ owner ->
  tool_value i (reset_siblings toolbar_reset owner
                  (seq 0 (length (toolbar m))) m) = false.
Proof.
  intros Hne.
  destruct (decide (i < length (toolbar m))) as [Hlt|Hge].
  - apply reset_siblings_off; [|exact Hne].
    apply elem_of_seq. lia.
  - destruct (tool_value i (reset_siblings toolbar_reset owner
                              (seq 0 (length (toolbar m))) m)) eqn:E;
      [|reflexivity].
    apply reset_siblings_switches_nothing_on, tool_value_in_grid in E.
    now destruct Hge.
Qed.

Lemma dispatch_quiet name owner :
  quiet (dispatch toolbar_reset launch name owner).
Proof.
  pose proof (assign_tool_false_switches_nothing_on owner) as Hhelp.
  unfold dispatch.
  repeat first
    [ apply quiet_bind; [|intros _]
    | apply quiet_ret
    | apply launch_off
    | apply quiet_modify; exact Hhelp
    | match goal with
      | |- quiet (if ?b then _ else _) => destruct b
      end ].
Qed.

(** Lines 308-360: what runs once the loop is over. *)
Lemma after_loop_quiet owner :
  quiet (do! (let! m := get in
              let! tool := index owner (toolbar m) in
              let! tool_name := getitem (icon tool) tools in
              dispatch toolbar_reset launch tool_name owner) in
         modify toolbar_reset).
Proof.
  apply quiet_bind; [|intros _; apply quiet_modify; exact reset_off].
  apply quiet_bind; [apply quiet_get|intros m].
  apply quiet_bind; [apply quiet_index|intros tool].
  apply quiet_bind; [apply quiet_getitem|intros name].
  apply dispatch_quiet.
Qed.

(** *** What the callback leaves alone *)

Lemma store_tool_keeps_grid i v : keeps_grid (store_tool i v).
Proof.
  intros m. unfold store_tool, grid_icons.
  destruct (toolbar m !! i) as [t|] eqn:E; [|reflexivity].
  cbn [toolbar set_toolbar]. rewrite list_fmap_insert. cbn [icon].
  apply list_insert_id. now rewrite list_lookup_fmap, E.
Qed.

Lemma store_tool_toolbar_only i v : ToolTemplate.toolbar_only (store_tool i v).
Proof.
  intros m. unfold store_tool.
  destruct (toolbar m !! i); [reflexivity|now destruct m].
Qed.

Lemma toolbar_only_compose (f g : Map -> Map) :
  ToolTemplate.toolbar_only f -> ToolTemplate.toolbar_only g ->
  ToolTemplate.toolbar_only (fun m => f (g m)).
Proof.
  intros Hf Hg m. cbn beta. rewrite (Hf (g m)) at 1.
  rewrite (Hg m) at 2. reflexivity.
Qed.

Lemma steady_ret {A : Type} (a : A) : steady (ret a).
Proof. intros m. reflexivity. Qed.

Lemma steady_raise {A : Type} e : steady (@raise Map A e).
Proof. intros m. reflexivity. Qed.

Lemma steady_get : steady get.
Proof. intros m. reflexivity. Qed.

Lemma steady_modify f : keeps_grid f -> steady (modify f).
Proof. intros Hf m. apply Hf. Qed.

Lemma steady_index {A : Type} i (xs : list A) : steady (index i xs).
Proof.
  unfold index. destruct (xs !! i); [apply steady_ret|apply steady_raise].
Qed.

Lemma steady_getitem {V : Type} k (d : list (string * V)) :
  steady (getitem k d).
Proof.
  unfold getitem. destruct (lookup_key k d);
    [apply steady_ret|apply steady_raise].
Qed.

Lemma steady_bind {A B : Type} (c : Py Map A) (k : A -> Py Map B) :
  steady c -> (forall a, steady (k a)) -> steady (bind c k).
Proof.
  intros Hc Hk m. unfold bind. cbn beta.
  pose proof (Hc m) as Hc'. cbn beta in Hc'.
  destruct (c m) as [m1 [a|e]]; cbn [fst] in *; [|exact Hc'].
  rewrite <- Hc'. apply (Hk a m1).
Qed.

Hypothesis reset_keeps_grid : keeps_grid toolbar_reset.
Hypothesis reset_toolbar_only : ToolTemplate.toolbar_only toolbar_reset.
Hypothesis launch_steady : forall name, steady (launch name).

Lemma assign_tool_false_keeps_grid i :
  keeps_grid (assign_tool_false toolbar_reset i).
Proof.
  intros m. unfold assign_tool_false, tool_callback_off.
  destruct (tool_value i m); [|reflexivity].
  rewrite reset_keeps_grid. apply store_tool_keeps_grid.
Qed.

Lemma assign_tool_false_toolbar_only i :
  ToolTemplate.toolbar_only (assign_tool_false toolbar_reset i).
Proof.
  intros m. unfold assign_tool_false, tool_callback_off.
  destruct (tool_value i m); [|now destruct m].
  apply (toolbar_only_compose toolbar_reset (store_tool i false));
    [exact reset_toolbar_only|apply store_tool_toolbar_only].
Qed.

Lemma reset_siblings_keeps_grid owner idx :
  keeps_grid (reset_siblings toolbar_reset owner idx).
Proof.
  induction idx as [|i idx IH]; intros m; cbn [reset_siblings];
    [reflexivity|].
  rewrite IH. destruct (decide (i = owner)); [reflexivity|].
  apply assign_tool_false_keeps_grid.
Qed.

Lemma reset_siblings_toolbar_only owner idx :
  ToolTemplate.toolbar_only (reset_siblings toolbar_reset owner idx).
Proof.
  induction idx as [|i idx IH]; intros m; cbn [reset_siblings];
    [now destruct m|].
  destruct (decide (i = owner)); [apply IH|].
  apply (toolbar_only_compose (reset_siblings toolbar_reset owner idx)
           (assign_tool_false toolbar_reset i));
    [exact IH|apply assign_tool_false_toolbar_only].
Qed.

(** The loop writes nothing when no sibling is on. *)
Lemma reset_siblings_idle owner idx m :
  (forall i, i ≠ owner -> tool_value i m = false) ->
  reset_siblings toolbar_reset owner idx m = m.
Proof.
  intros Hoff. induction idx as [|i idx IH]; cbn [reset_siblings];
    [reflexivity|].
  destruct (decide (i = owner)); [exact IH|].
  unfold assign_tool_false. now rewrite (Hoff i) by assumption.
Qed.

Lemma dispatch_steady name owner :
  steady (dispatch toolbar_reset launch name owner).
Proof.
  pose proof (assign_tool_false_keeps_grid owner) as Hhelp.
  unfold dispatch.
  repeat first
    [ apply steady_bind; [|intros _]
    | apply steady_ret
    | apply launch_steady
    | apply steady_modify; exact Hhelp
    | match goal with
      | |- steady (if ?b then _ else _) => destruct b
      end ].
Qed.

Lemma after_loop_steady owner :
  steady (do! (let! m := get in
               let! tool := index owner (toolbar m) in
               let! tool_name := getitem (icon tool) tools in
               dispatch toolbar_reset launch tool_name owner) in
          modify toolbar_reset).
Proof.
  apply steady_bind; [|intros _; apply steady_modify; exact reset_keeps_grid].
  apply steady_bind; [apply steady_get|intros m].
  apply steady_bind; [apply steady_index|intros tool].
  apply steady_bind; [apply steady_getitem|intros name].
  apply dispatch_steady.
Qed.


End Callback.

Lemma launch_quiet name : quiet (Examples.launch name).
Proof.
  intros m i. unfold Examples.launch, attempt.
  destruct (add_control Examples.panel_control m) as [m'|e] eqn:E;
    [|auto].
  apply LeafletFacts.add_control_ok in E. subst m'. auto.
Qed.

Lemma launch_steady_example name : steady (Examples.launch name).
Proof.
  intros m. unfold Examples.launch, attempt.
  destruct (add_control Examples.panel_control m) as [m'|e] eqn:E;
    [|reflexivity].
  apply LeafletFacts.add_control_ok in E. subst m'. reflexivity.
Qed.

Lemma reset_all_keeps_grid : keeps_grid reset_all.
Proof.
  intros m. unfold grid_icons, reset_all. cbn [toolbar set_toolbar].
  rewrite <- list_fmap_compose. reflexivity.
Qed.


(** *** The dispatch on the tool name *)

Section Dispatch.

Variable toolbar_reset : Map -> Map.
Variable launch : string -> Py Map unit.

Lemma launch_then_nothing name m :
  bind (launch name) (fun _ => ret tt) m = launch name m.
Proof. unfold bind, ret. destruct (launch name m) as [m' [[]|e]]; reflexivity. Qed.

(** X16: every toggle of the grid has an icon that the [tools] table
    knows, so the lookup of line 309 never raises [KeyError]; for every
    tool but "help" the chain of [if]/[elif] of lines 311-349 opens that
    tool's panel once and does nothing else, and for "help" it opens no
    panel and switches the help toggle off again. *)
Theorem every_toggle_launches_its_tool (owner : nat) (tool : ToggleButton) :
  tool ∈ toolbar_grid ->
  exists tool_name,
    lookup_key (icon tool) tools = Some tool_name /\
    forall m,
      dispatch toolbar_reset launch tool_name owner m
      = if decide (tool_name = "help")
        then (assign_tool_false toolbar_reset owner m, Ok tt)
        else launch tool_name m.
Proof.
  unfold toolbar_grid, tools, keys. cbn [fmap list_fmap fst].
  rewrite !elem_of_cons.
  intros H.
  repeat (destruct H as [-> | H]);
    [..|now apply elem_of_nil in H];
    eexists; (split; [reflexivity|]); intros m;
    unfold dispatch; cbn [icon];
    unfold bind at 1 2; cbn -[bind];
    try reflexivity;
    try apply launch_then_nothing;
    unfold bind, ret; destruct (launch _ m) as [m' [[]|e]]; reflexivity.
Qed.

End Dispatch.

Lemma every_toggle_launches_its_tool_witness :
  exists tool_name,
    lookup_key "camera" tools = Some tool_name /\
    forall m, dispatch reset_all Examples.launch tool_name 7 m
              = Examples.launch tool_name m.
Proof.
  destruct (every_toggle_launches_its_tool reset_all Examples.launch 7
              (mkToggle "camera" false)) as (name & Hname & Hm).
  - unfold toolbar_grid, tools, keys. cbn [fmap list_fmap fst].
    rewrite !elem_of_cons. do 7 right. left. reflexivity.
  - exists name. split; [exact Hname|].
    intros m. rewrite Hm.
    cbn in Hname. injection Hname as <-. reflexivity.
Defined.

End MainToolbarFacts.

(** ** Numeric entry fields of the raster branch *)

Module OpenDataFacts.
Import OpenData.

(** C6, as stated, fails: a band text that does not parse also unsets
    a well-formed vmin. *)
Lemma bad_band_unsets_vmin :
  ~ parsed_per_field Z decimal_of_str decimal_of_str
      (mkFields "abc" "1" "" "").
Proof.
  intros (_ & H & _). vm_compute in H. discriminate H.
Qed.

Section Parsers.

Variable PyFloat : Type.
Variable int_of_str : string -> option Z.
Variable float_of_str : string -> option PyFloat.

Local Abbreviation raster_args := (raster_args PyFloat int_of_str float_of_str).
Local Abbreviation int_field := (per_field int_of_str).
Local Abbreviation float_field := (per_field float_of_str).
Local Abbreviation mkArgs := (mkArgs PyFloat).

(** The locals after the guarded block, by the first rejected text. *)
Lemma raster_args_by_rejection (f : RasterFields) :
  band PyFloat (raster_args f) = int_field (bands f) /\
  vis_min PyFloat (raster_args f)
  = (if rejects int_of_str (bands f) then None
     else float_field (vmin f)) /\
  vis_max PyFloat (raster_args f)
  = (if rejects int_of_str (bands f) || rejects float_of_str (vmin f)
     then None else float_field (vmax f)) /\
  vis_nodata PyFloat (raster_args f)
  = (if rejects int_of_str (bands f) || rejects float_of_str (vmin f)
        || rejects float_of_str (vmax f)
     then None else float_field (nodata f)).
Proof.
  destruct f as [b lo hi nd].
  unfold OpenData.raster_args, parse_numeric_fields, except_pass, try_body,
    parse_into, rejects, per_field, bind, modify, ret, raise.
  cbn [bands vmin vmax nodata fst snd].
  destruct (0 <? String.length b)%nat, (int_of_str b);
    destruct (0 <? String.length lo)%nat, (float_of_str lo);
    destruct (0 <? String.length hi)%nat, (float_of_str hi);
    destruct (0 <? String.length nd)%nat, (float_of_str nd);
    cbn; repeat split; reflexivity.
Qed.

(** C6, amended: parsing the four fields never raises; the fields are
    read in the order band, vmin, vmax, nodata inside one guarded
    block, so a field is handed over parsed (unset when its text is
    empty) as long as no earlier text was rejected, and the first
    rejected field and every field after it are handed over unset. *)
Theorem raster_fields_until_first_rejection (f : RasterFields) :
  (forall a,
     snd (parse_numeric_fields PyFloat int_of_str float_of_str f a)
     = Ok tt) /\
  band PyFloat (raster_args f) = int_field (bands f) /\
  vis_min PyFloat (raster_args f)
  = (if rejects int_of_str (bands f) then None
     else float_field (vmin f)) /\
  vis_max PyFloat (raster_args f)
  = (if rejects int_of_str (bands f) || rejects float_of_str (vmin f)
     then None else float_field (vmax f)) /\
  vis_nodata PyFloat (raster_args f)
  = (if rejects int_of_str (bands f) || rejects float_of_str (vmin f)
        || rejects float_of_str (vmax f)
     then None else float_field (nodata f)).
Proof.
  split; [reflexivity|]. apply raster_args_by_rejection.
Qed.

(** When no text is rejected the result is the per-field one. *)
Corollary raster_fields_all_accepted (f : RasterFields) :
  rejects int_of_str (bands f) = false ->
  rejects float_of_str (vmin f) = false ->
  rejects float_of_str (vmax f) = false ->
  parsed_per_field PyFloat int_of_str float_of_str f.
Proof.
  intros Hb Hlo Hhi.
  destruct (raster_args_by_rejection f) as (H1 & H2 & H3 & H4).
  rewrite Hb in *. rewrite Hlo in *. rewrite Hhi in *.
  repeat split; assumption.
Qed.

End Parsers.

End OpenDataFacts.

(** ** The basemap switcher *)

Module BasemapFacts.
Import Basemap LeafletFacts.


(** Neither does [change_basemap] return on every map with layers: when
    the OpenStreetMap basemap is on the map already, but not at index 1,
    putting it in at index 1 lists it twice, and the assignment of line
    892 raises. *)
Lemma change_basemap_with_osm_further_down :
  change_basemap Examples.leafmap_basemaps Examples.basemap_control
                 Examples.map_with_osm_below
  = (Examples.map_with_osm_below, Raise LayerException).
Proof. reflexivity. Qed.

Section WithBasemaps.

Variable leafmap_basemaps : list (string * Layer).

(** Lines 887-891 by the shape of the layer list. *)
Lemma normalized_cases (ls : list Layer) (m : Map) :
  normalized leafmap_basemaps ls m
  = match ls with
    | [] => (m, Ok [])
    | [l0] =>
        match lookup_key "OpenStreetMap" leafmap_basemaps with
        | Some osm => (m, Ok [l0; osm])
        | None => (m, Raise KeyError)
        end
    | l0 :: l1 :: rest =>
        if decide (name_of m l1 ≠ "OpenStreetMap") then
          match lookup_key "OpenStreetMap" leafmap_basemaps with
          | Some osm => (m, Ok (l0 :: osm :: l1 :: rest))
          | None => (m, Raise KeyError)
          end
        else (m, Ok ls)
    end.
Proof.
  unfold normalized.
  destruct ls as [|l0 [|l1 rest]]; cbn [length].
  - repeat case_decide; try lia. reflexivity.
  - repeat case_decide; try lia.
    unfold bind, index, getitem, ret, raise. cbn.
    destruct (lookup_key "OpenStreetMap" leafmap_basemaps); reflexivity.
  - destruct (decide (S (S (length rest)) = 1)) as [E|_]; [lia|].
    destruct (decide (1 < S (S (length rest)))) as [_|N]; [|lia].
    unfold bind, index, getitem, get, ret, raise. cbn.
    destruct (decide (name_of m l1 ≠ "OpenStreetMap")); [|reflexivity].
    destruct (lookup_key "OpenStreetMap" leafmap_basemaps); reflexivity.
Qed.

(** The layers that a returning [change_basemap] leaves on the map. *)
Lemma change_basemap_layers ctl m m' :
  change_basemap leafmap_basemaps ctl m = (m', Ok tt) ->
  normalized leafmap_basemaps (layers m) m = (m, Ok (layers m')).
Proof.
  unfold change_basemap, bind, get.
  pose proof (normalized_cases (layers m) m) as Hn.
  destruct (normalized leafmap_basemaps (layers m) m) as [m0 [ls|e]] eqn:En.
  - assert (m0 = m) as ->.
    { destruct (layers m) as [|l0 [|l1 rest]]; repeat case_match;
        congruence. }
    destruct (attempt (assign_layers ls) m) as [m1 [[]|e]] eqn:E1;
      [|discriminate].
    apply attempt_ok, assign_layers_ok in E1. subst m1.
    destruct (attempt (add_control ctl) (set_layers ls m)) as [m2 [[]|e]] eqn:E2;
      [|discriminate].
    apply attempt_ok, add_control_ok in E2. subst m2.
    unfold modify. intros [= <-]. reflexivity.
  - discriminate.
Qed.

(** The dropdown handler replaces the layer at index 1. *)
Lemma on_click_substitutes_index_1 name m m' :
  on_click leafmap_basemaps name m = (m', Ok tt) ->
  exists old new,
    layers m !! 1 = Some old /\
    lookup_key name leafmap_basemaps = Some new /\
    layers m' !! 1 = Some new.
Proof.
  unfold on_click, bind, get, index, getitem, ret, raise.
  destruct (layers m !! 1) as [old|] eqn:Eold; [|discriminate].
  destruct (lookup_key name leafmap_basemaps) as [new|]; [|discriminate].
  intros H. apply attempt_ok, substitute_layer_ok in H. subst m'.
  exists old, new. repeat split.
  cbn [layers set_layers]. rewrite list_lookup_fmap, Eold. cbn.
  case_decide; [reflexivity|congruence].
Qed.

(** [substitute_layer] on a list without duplicates writes one place. *)
Lemma substitute_at_index (ls : list Layer) (i : nat) (old new : Layer) :
  NoDup (layer_id <$> ls) -> ls !! i = Some old ->
  (fun l => if decide (layer_id l = layer_id old) then new else l) <$> ls
  = <[i := new]> ls.
Proof.
  intros Hnd Hold. apply list_eq. intros j.
  rewrite list_lookup_fmap.
  destruct (decide (j = i)) as [->|Hne].
  - rewrite list_lookup_insert_eq by (eapply lookup_lt_Some; exact Hold).
    rewrite Hold. cbn. now rewrite decide_True by reflexivity.
  - rewrite list_lookup_insert_ne by congruence.
    destruct (ls !! j) as [l|] eqn:Ej; [|reflexivity]. cbn.
    destruct (decide (layer_id l = layer_id old)) as [E|_]; [|reflexivity].
    exfalso. apply Hne.
    apply (NoDup_lookup (layer_id <$> ls) j i (layer_id l) Hnd).
    + now rewrite list_lookup_fmap, Ej.
    + now rewrite list_lookup_fmap, Hold, E.
Qed.

(** Putting a layer in at index 1 keeps the list free of duplicates
    unless the layer is in it already. *)
Lemma NoDup_ids_put_in (l0 osm : Layer) (rest : list Layer) :
  NoDup (layer_id <$> l0 :: rest) ->
  NoDup (layer_id <$> l0 :: osm :: rest)
  <-> layer_id osm ∉ (layer_id <$> l0 :: rest).
Proof.
  cbn [fmap list_fmap]. rewrite !NoDup_cons, !elem_of_cons.
  intros [H0 Hr]. split.
  - intros (Ha & Hb & _) [E|E].
    + apply Ha. left. now symmetry.
    + now apply Hb.
  - intros Hout. split; [|split; [|exact Hr]].
    + intros [E|E]; [apply Hout; left; now symmetry|now apply H0].
    + intros E. apply Hout. now right.
Qed.

(** [change_basemap] for a new control, by the list of lines 887-891. *)
Lemma change_basemap_outcome ctl m ls :
  normalized leafmap_basemaps (layers m) m = (m, Ok ls) ->
  NoDup (control_ids m) -> model_id ctl ∉ control_ids m ->
  change_basemap leafmap_basemaps ctl m
  = if decide (NoDup (layer_id <$> ls))
    then (set_basemap_ctrl (Some ctl)
            (set_controls (controls m ++ [ctl]) (set_layers ls m)), Ok tt)
    else (m, Raise LayerException).
Proof.
  intros Hn Hnd Hfresh. unfold change_basemap, bind, get. rewrite Hn.
  unfold attempt at 1, assign_layers.
  destruct (decide (NoDup (layer_id <$> ls))); [|reflexivity].
  unfold attempt.
  rewrite (ToolTemplateFacts.add_control_fresh ctl (set_layers ls m))
    by assumption.
  reflexivity.
Qed.


End WithBasemaps.


(** *** Opening the switcher twice, and closing it *)

Section Reopen.

Variable leafmap_basemaps : list (string * Layer).
Variable toolbar_reset : Map -> Map.
Hypothesis reset_toolbar_only : ToolTemplate.toolbar_only toolbar_reset.

(** X9: the normalisation of lines 887-891 is idempotent as long as
    the OpenStreetMap basemap of the table is named "OpenStreetMap": run
    on its own result it changes nothing, so opening the switcher again
    inserts no second basemap. *)
Theorem normalized_is_idempotent (ls ls' : list Layer) (m : Map) osm :
  lookup_key "OpenStreetMap" leafmap_basemaps = Some osm ->
  name_of m osm = "OpenStreetMap" ->
  normalized leafmap_basemaps ls m = (m, Ok ls') ->
  normalized leafmap_basemaps ls' m = (m, Ok ls').
Proof.
  intros Hosm Hname. rewrite !normalized_cases, Hosm.
  destruct ls as [|l0 [|l1 rest]].
  - intros [= <-]. reflexivity.
  - intros [= <-]. rewrite decide_False; [reflexivity|].
    intros N. now apply N.
  - destruct (decide (name_of m l1 ≠ "OpenStreetMap")) as [Hn|Hn].
    + intros [= <-]. rewrite decide_False; [reflexivity|].
      intros N. now apply N.
    + intros [= <-]. now rewrite decide_False by exact Hn.
Qed.

(** X8: closing the basemap switcher takes its control off the map
    again, so the control list is what it was before [change_basemap];
    the layer list keeps the OpenStreetMap basemap that [change_basemap]
    inserted, and [m.basemap_ctrl] still names the removed control.  A
    second close removes nothing and does not raise. *)
Theorem basemap_close_restores_controls ctl (m m1 : Map) :
  NoDup (control_ids m) ->
  change_basemap leafmap_basemaps ctl m = (m1, Ok tt) ->
  let closed := close_click toolbar_reset m1 in
  snd closed = Ok tt /\
  controls (fst closed) = controls m /\
  layers (fst closed) = layers m1 /\
  basemap_ctrl (fst closed) = Some ctl /\
  snd (close_click toolbar_reset (fst closed)) = Ok tt /\
  controls (fst (close_click toolbar_reset (fst closed))) = controls m.
Proof.
  intros Hnd Hopen. cbv zeta.
  assert (Hfields : forall m0,
            controls (toolbar_reset m0) = controls m0 /\
            layers (toolbar_reset m0) = layers m0 /\
            basemap_ctrl (toolbar_reset m0) = basemap_ctrl m0).
  { intros m0. rewrite (reset_toolbar_only m0). repeat split. }
  (* the map that [change_basemap] leaves *)
  assert (Hm1 : exists ls, (model_id ctl ∉ control_ids m) /\
            m1 = set_basemap_ctrl (Some ctl)
                   (set_controls (controls m ++ [ctl]) (set_layers ls m))).
  { revert Hopen. unfold change_basemap, bind, get, modify.
    destruct (normalized leafmap_basemaps (layers m) m) as [m0 [ls|e]] eqn:En;
      [|discriminate].
    assert (m0 = m) as ->.
    { rewrite normalized_cases in En.
      destruct (layers m) as [|l0 [|l1 rest]]; repeat case_match; congruence. }
    destruct (attempt (assign_layers ls) m) as [m2 [[]|e]] eqn:E1;
      [|discriminate].
    apply LeafletFacts.attempt_ok, LeafletFacts.assign_layers_ok in E1.
    subst m2.
    destruct (attempt (add_control ctl) (set_layers ls m)) as [m3 [[]|e]] eqn:E2;
      [|discriminate].
    apply LeafletFacts.attempt_ok in E2.
    assert (Hfresh : model_id ctl ∉ control_ids m).
    { unfold add_control in E2. case_decide; [discriminate|assumption]. }
    apply LeafletFacts.add_control_ok in E2. subst m3.
    intros [= <-]. exists ls. split; [exact Hfresh|reflexivity]. }
  destruct Hm1 as (ls & Hfresh & ->).
  set (m1 := set_basemap_ctrl (Some ctl)
               (set_controls (controls m ++ [ctl]) (set_layers ls m))).
  destruct (Hfields m1) as (Hc & Hl & Hb).
  assert (Hclose : close_click toolbar_reset m1
            = (set_controls (controls m) (toolbar_reset m1), Ok tt)).
  { unfold close_click, bind, modify, get, attempt. rewrite Hb.
    cbn [basemap_ctrl m1 set_basemap_ctrl]. rewrite Hc.
    rewrite decide_True
      by (cbn; apply elem_of_app; right; apply list_elem_of_singleton;
          reflexivity).
    rewrite ToolTemplateFacts.remove_control_present.
    - rewrite Hc. cbn [controls m1 set_basemap_ctrl set_controls].
      now rewrite ToolTemplateFacts.filter_other_ids_snoc.
    - rewrite Hc. cbn. apply elem_of_app. right.
      apply list_elem_of_singleton. reflexivity.
    - unfold control_ids. rewrite Hc.
      now apply ToolTemplateFacts.NoDup_ids_snoc. }
  rewrite Hclose. cbn [fst snd].
  split; [reflexivity|]. split; [reflexivity|].
  split; [exact Hl|]. split; [exact Hb|].
  set (m2 := set_controls (controls m) (toolbar_reset m1)).
  destruct (Hfields m2) as (Hc2 & _ & Hb2).
  unfold close_click, bind, modify, get, attempt, ret. rewrite Hb2.
  cbn [basemap_ctrl m2 set_controls]. rewrite Hb.
  cbn [basemap_ctrl m1 set_basemap_ctrl]. rewrite Hc2.
  cbn [controls m2 set_controls].
  rewrite decide_False.
  - cbn [fst snd]. split; [reflexivity|exact Hc2].
  - now apply ToolTemplateFacts.fresh_id_not_member.
Qed.

End Reopen.

Lemma normalized_is_idempotent_witness :
  normalized Examples.leafmap_basemaps
    [Examples.default_layer; Examples.osm] Examples.initial_map
  = (Examples.initial_map, Ok [Examples.default_layer; Examples.osm]).
Proof.
  apply (normalized_is_idempotent Examples.leafmap_basemaps
           [Examples.default_layer] _ Examples.initial_map Examples.osm);
    reflexivity.
Defined.

Lemma basemap_close_restores_controls_witness :
  let m1 := fst (change_basemap Examples.leafmap_basemaps
                   Examples.basemap_control Examples.initial_map) in
  controls m1
  = [Examples.zoom; Examples.main_toolbar_control; Examples.basemap_control] /\
  controls (fst (close_click MainToolbar.reset_all m1))
  = controls Examples.initial_map /\
  layers (fst (close_click MainToolbar.reset_all m1))
  = [Examples.default_layer; Examples.osm].
Proof.
  intros m1. split; [reflexivity|].
  destruct (basemap_close_restores_controls Examples.leafmap_basemaps
              MainToolbar.reset_all ToolTemplateFacts.reset_all_toolbar_only
              Examples.basemap_control Examples.initial_map m1)
    as (_ & H2 & H3 & _).
  - apply (bool_decide_unpack _); vm_compute; exact I.
  - reflexivity.
  - split; [exact H2|]. rewrite H3. reflexivity.
Defined.

End BasemapFacts.

(** ** Split-panel mode *)

Module SplitMapFacts.
Import SplitMap LeafletFacts.

(** Closing restores the saved lists from any state of the map. *)
Lemma close_restores clo m :
  NoDup (model_id <$> saved_controls clo) ->
  NoDup (layer_id <$> saved_layers clo) ->
  close_btn_click clo true m
  = (set_layers (saved_layers clo)
       (clear_layers (set_controls (saved_controls clo) m)), Ok tt).
Proof.
  intros Hc Hl. unfold close_btn_click, bind, attempt, modify.
  rewrite assign_controls_NoDup by exact Hc.
  rewrite assign_layers_NoDup by exact Hl. reflexivity.
Qed.

(** The observer ignores a change to [False]. *)
Lemma split_close_ignores_false clo m :
  close_btn_click clo false m = (m, Ok tt).
Proof. reflexivity. Qed.

(** Closing puts the lists back, not the attributes of the layer
    objects: a url written by [left_change] stays. *)
Lemma close_keeps_layer_attrs clo m :
  layer_attrs (fst (close_btn_click clo true m)) = layer_attrs m.
Proof.
  unfold close_btn_click, bind, attempt, modify, assign_controls,
    assign_layers.
  repeat case_decide; reflexivity.
Qed.

(** The OpenStreetMap basemap is on the map and is also the left layer
    of the split control: the url that [left_change] writes into it is
    still there after closing, although the layer list is restored. *)
Example left_change_survives_close :
  let r := split_basemaps Examples.leafmap_basemaps None None None
                          Examples.split_widgets Examples.map_with_osm in
  let m1 := fst (side_change Examples.osm
                   (default_layers_dict Examples.leafmap_basemaps)
                   "HYBRID" (fst r)) in
  exists clo,
    snd r = Ok clo /\
    layers (fst (close_btn_click clo true m1)) = layers Examples.map_with_osm /\
    url_of (fst (close_btn_click clo true m1)) Examples.osm
    = url_of Examples.map_with_osm Examples.hybrid /\
    url_of (fst (close_btn_click clo true m1)) Examples.osm
    ≠ url_of Examples.map_with_osm Examples.osm.
Proof.
  eexists. split; [reflexivity|]. split; [reflexivity|].
  split; [reflexivity|]. vm_compute. discriminate.
Qed.

Section WithBasemaps.

Variable leafmap_basemaps : list (string * Layer).

(** [split_basemaps] hands the lists found on entry to its close
    button. *)
Lemma split_basemaps_records d left right w m m1 clo :
  split_basemaps leafmap_basemaps d left right w m = (m1, Ok clo) ->
  clo = mkClosure (controls m) (layers m).
Proof.
  unfold split_basemaps, bind, get, modify, ret.
  repeat case_match; intros; simplify_eq; reflexivity.
Qed.

(** C8: [split_basemaps] records the control list and the layer list
    found on entry, and its close button puts exactly these back,
    whatever controls and layers were added, removed or replaced while
    split mode was open. *)
Theorem split_mode_round_trip d left right w m m1 clo (es : list Edit) :
  well_formed m ->
  split_basemaps leafmap_basemaps d left right w m = (m1, Ok clo) ->
  saved_controls clo = controls m /\
  saved_layers clo = layers m /\
  snd (close_btn_click clo true (edits es m1)) = Ok tt /\
  controls (fst (close_btn_click clo true (edits es m1))) = controls m /\
  layers (fst (close_btn_click clo true (edits es m1))) = layers m.
Proof.
  intros [Hc Hl] Hsplit.
  apply split_basemaps_records in Hsplit. subst clo.
  rewrite close_restores by assumption.
  repeat split.
Qed.

End WithBasemaps.

Lemma split_mode_round_trip_witness :
  let r := split_basemaps Examples.leafmap_basemaps None None None
                          Examples.split_widgets Examples.initial_map in
  let es := [AddLayer Examples.hybrid; RemoveControl Examples.zoom;
             AddControl Examples.panel_control;
             SetUrl Examples.default_layer "https://example.org/tiles"] in
  exists clo,
    snd r = Ok clo /\
    length (controls (edits es (fst r))) = 8 /\
    layers (edits es (fst r)) = [Examples.default_layer; Examples.hybrid] /\
    controls (fst (close_btn_click clo true (edits es (fst r))))
    = controls Examples.initial_map /\
    layers (fst (close_btn_click clo true (edits es (fst r))))
    = layers Examples.initial_map.
Proof.
  intros r es. exists (mkClosure (controls Examples.initial_map)
                                 (layers Examples.initial_map)).
  split; [reflexivity|]. split; [reflexivity|]. split; [reflexivity|].
  apply (split_mode_round_trip Examples.leafmap_basemaps None None None
           Examples.split_widgets Examples.initial_map (fst r) _ es).
  - split; apply (bool_decide_unpack _); vm_compute; exact I.
  - reflexivity.
Defined.

(** *** Entering split mode *)

Lemma lookup_key_in_keys {V : Type} (k : string) (d : list (string * V)) :
  k ∈ keys d -> is_Some (lookup_key k d).
Proof.
  induction d as [|[k' v] d IH]; [intros H; now apply elem_of_nil in H|].
  unfold keys. rewrite fmap_cons, elem_of_cons. cbn [fst lookup_key].
  intros [->|Hin].
  - rewrite decide_True by reflexivity. eauto.
  - case_decide; [eauto|]. now apply IH.
Qed.

Lemma last_key_found {V : Type} (k : string) (d : list (string * V)) :
  last (keys d) = Some k -> is_Some (lookup_key k d).
Proof.
  intros Hlast. apply lookup_key_in_keys.
  apply last_Some in Hlast as [l' ->].
  apply elem_of_app. right. apply list_elem_of_singleton. reflexivity.
Qed.

(** [m.add_control(c)] on a map whose controls [cs] have identifiers
    apart from that of [c]. *)
Lemma add_control_apart c m :
  NoDup (model_id <$> (controls m ++ [c])) ->
  attempt (add_control c) m = (set_controls (controls m ++ [c]) m, Ok tt).
Proof.
  intros Hnd. unfold attempt, add_control.
  assert (Hnd' := Hnd).
  rewrite fmap_app in Hnd. apply NoDup_app in Hnd as (_ & Hfresh & _).
  rewrite decide_False.
  - now rewrite LeafletFacts.assign_controls_NoDup by exact Hnd'.
  - intros Hin. apply (Hfresh _ Hin). cbn. apply list_elem_of_singleton.
    reflexivity.
Qed.

Section Entering.

Variable leafmap_basemaps : list (string * Layer).

(** X10: a call that cannot resolve its layers has already wiped the
    map's controls when it raises: with an empty [layers_dict] and no
    [left_name] it raises [IndexError], with a [left_name] that is no key
    of a non-empty [layers_dict] it raises [KeyError], and in both cases
    the map is left with an empty control list (and its layers). *)
Theorem failed_split_has_cleared_controls (right_name : option string)
        (w : Widgets) (m : Map) :
  split_basemaps leafmap_basemaps (Some []) None right_name w m
  = (clear_controls m, Raise IndexError) /\
  (forall d name,
     d ≠ [] -> lookup_key name d = None ->
     split_basemaps leafmap_basemaps (Some d) (Some name) right_name w m
     = (clear_controls m, Raise KeyError)).
Proof.
  split; [reflexivity|].
  intros d name Hd Hname.
  unfold split_basemaps, bind, get, modify, ret, raise, index, getitem.
  cbn [fst snd]. rewrite Hname.
  destruct right_name as [r|]; [reflexivity|].
  destruct (last (keys d)) eqn:El; [reflexivity|].
  exfalso. apply Hd. destruct d; [reflexivity|].
  apply last_None in El. discriminate El.
Qed.

(** X11: for a non-empty [layers_dict] with the default names (first
    key on the left, last key on the right) and seven new controls with
    identifiers of their own, [split_basemaps] returns; afterwards the
    map's controls are exactly these seven, in the order split control,
    left dropdown, right dropdown, close button, zoom, full screen,
    scale, the layers are untouched, and the closure holds the controls
    and layers found on entry. *)
Theorem split_basemaps_installs_its_controls
        (d : list (string * Layer)) (w : Widgets) (m : Map) :
  d ≠ [] ->
  NoDup (model_id <$> widget_list w) ->
  split_basemaps leafmap_basemaps (Some d) None None w m
  = (set_controls (widget_list w) m, Ok (mkClosure (controls m) (layers m))).
Proof.
  intros Hd Hnd.
  destruct d as [|[k0 v0] d']; [congruence|]. clear Hd.
  destruct (last (keys ((k0, v0) :: d'))) as [kl|] eqn:El;
    [|apply last_None in El; discriminate El].
  destruct (last_key_found kl _ El) as [vl Hvl].
  unfold split_basemaps, bind, get, modify, ret, raise, index, getitem.
  cbn [fst snd]. rewrite El.
  change (keys ((k0, v0) :: d') !! 0) with (Some k0).
  assert (Hk0 : lookup_key k0 ((k0, v0) :: d') = Some v0)
    by (cbn; now rewrite decide_True).
  unfold ret. cbn beta iota zeta. rewrite Hk0.
  cbn beta iota zeta. rewrite Hvl. cbn beta iota zeta.
  unfold widget_list in *.
  assert (Hpre : forall pre post, model_id <$> (pre ++ post)
                   = model_id <$> widget_list w ->
                 NoDup (model_id <$> pre)).
  { intros pre post E. unfold widget_list in E. rewrite <- E in Hnd.
    rewrite fmap_app in Hnd. apply NoDup_app in Hnd. tauto. }
  unfold widget_list in Hpre.
  rewrite (add_control_apart (control w) (clear_controls m))
    by (apply (Hpre [control w] [left_control w; right_control w;
          close_control w; zoom_control w; fullscreen_control w;
          scale_control w]); reflexivity).
  cbn [clear_controls controls set_controls app].
  rewrite (add_control_apart (left_control w))
    by (apply (Hpre [control w; left_control w] [right_control w;
          close_control w; zoom_control w; fullscreen_control w;
          scale_control w]); reflexivity).
  cbn [controls set_controls app].
  rewrite (add_control_apart (right_control w))
    by (apply (Hpre [control w; left_control w; right_control w]
          [close_control w; zoom_control w; fullscreen_control w;
           scale_control w]); reflexivity).
  cbn [controls set_controls app].
  rewrite (add_control_apart (close_control w))
    by (apply (Hpre [control w; left_control w; right_control w;
          close_control w] [zoom_control w; fullscreen_control w;
          scale_control w]); reflexivity).
  cbn [controls set_controls app].
  rewrite (add_control_apart (zoom_control w))
    by (apply (Hpre [control w; left_control w; right_control w;
          close_control w; zoom_control w] [fullscreen_control w;
          scale_control w]); reflexivity).
  cbn [controls set_controls app].
  rewrite (add_control_apart (fullscreen_control w))
    by (apply (Hpre [control w; left_control w; right_control w;
          close_control w; zoom_control w; fullscreen_control w]
          [scale_control w]); reflexivity).
  cbn [controls set_controls app].
  rewrite (add_control_apart (scale_control w))
    by (apply (Hpre [control w; left_control w; right_control w;
          close_control w; zoom_control w; fullscreen_control w;
          scale_control w] []); reflexivity).
  reflexivity.
Qed.

End Entering.

Lemma split_basemaps_installs_its_controls_witness :
  controls (fst (split_basemaps Examples.leafmap_basemaps
                   (Some Examples.two_months) None None
                   Examples.split_widgets Examples.initial_map))
  = widget_list Examples.split_widgets.
Proof.
  rewrite (split_basemaps_installs_its_controls Examples.leafmap_basemaps
             Examples.two_months Examples.split_widgets Examples.initial_map).
  - reflexivity.
  - discriminate.
  - apply (bool_decide_unpack _); vm_compute; exact I.
Defined.

End SplitMapFacts.

(** ** The time slider *)

Module TimeSliderFacts.
Import TimeSlider LeafletFacts.

(** *** Playback *)

Lemma active_snoc p pc :
  active (set_tasks (tasks p ++ [pc]) p)
  = active p + (if decide (pc ≠ Finished) then 1 else 0).
Proof.
  unfold active. cbn [tasks set_tasks].
  rewrite filter_app, length_app. f_equal.
  rewrite filter_cons, filter_nil. now case_decide.
Qed.

(** C3, as stated, fails: a second click on play while the first thread
    runs starts a second thread. *)
Lemma second_play_starts_second_task :
  ~ play_is_guarded (play_click (new_player 3)).
Proof.
  intros H. destruct H as [H _]; [reflexivity|vm_compute; constructor|].
  vm_compute in H. discriminate H.
Qed.

(** C3, amended: [play_click] sets the run flag and starts one more
    thread on [work] each time it is called, whether or not the flag was
    already set; it leaves the slider value and the running threads as
    they are. *)
Theorem play_click_always_starts_a_task (p : Player) :
  play_chk (play_click p) = true /\
  tasks (play_click p) = tasks p ++ [AtWhile] /\
  active (play_click p) = S (active p) /\
  slider_value (play_click p) = slider_value p.
Proof.
  repeat split. unfold play_click.
  change (tasks (assign_play_chk true p)) with (tasks p).
  unfold active. cbn [tasks set_tasks assign_play_chk].
  rewrite filter_app, length_app.
  rewrite filter_cons, filter_nil.
  destruct (decide (AtWhile ≠ Finished)) as [_|N]; [cbn; lia|].
  destruct N. discriminate.
Qed.

(** Two clicks on play, then each thread runs one round of the loop:
    the slider moves by two within one period. *)
Example double_advance :
  slider_value
    (run [Play; Play; Step 0; Step 1; Step 0; Step 1; Step 0; Step 1]
         (new_player 3)) = 3%Z.
Proof. reflexivity. Qed.

(** After pause every thread leaves the loop at its next test of the
    flag. *)
Lemma paused_thread_finishes p :
  play_chk p = false -> work_step AtWhile p = (Finished, p).
Proof. intros H. cbn. now rewrite H. Qed.

Lemma clamp_in_range n v : (1 <= n)%Z -> (1 <= clamp n v <= n)%Z.
Proof. unfold clamp. lia. Qed.

Lemma clamp_id n v : (1 <= v <= n)%Z -> clamp n v = v.
Proof. unfold clamp. lia. Qed.

Lemma work_step_n_labels pc p : n_labels (snd (work_step pc p)) = n_labels p.
Proof. destruct pc; reflexivity. Qed.

Lemma work_step_in_range pc p :
  in_range p -> in_range (snd (work_step pc p)).
Proof.
  unfold in_range. intros H.
  destruct pc; cbn [work_step snd assign_slider slider_value n_labels];
    try exact H; apply clamp_in_range; lia.
Qed.

Lemma act_in_range a p : in_range p -> in_range (act a p).
Proof.
  intros H. destruct a as [| |k]; cbn [act]; try exact H.
  unfold task_step. destruct (tasks p !! k) as [pc|]; [|exact H].
  pose proof (work_step_in_range pc p H) as H'.
  destruct (work_step pc p) as [pc' p']. exact H'.
Qed.

(** Whatever the clicks and however the threads are scheduled, the
    slider stays within its bounds. *)
Lemma run_in_range acts p : in_range p -> in_range (run acts p).
Proof.
  revert p. induction acts as [|a acts IH]; intros p H; [exact H|].
  cbn [run]. apply IH, act_in_range, H.
Qed.

(** One undisturbed round of the loop by thread [k]. *)
Lemma round_is_advance k p :
  tasks p !! k = Some AtIf ->
  slider_value (task_step k (task_step k p)) = advance p.
Proof.
  intros Hk. unfold advance, task_step. rewrite Hk.
  assert (Hlt : k < length (tasks p)) by (eapply lookup_lt_Some; exact Hk).
  cbn [work_step].
  destruct (slider_value p <? n_labels p)%Z;
    cbn [tasks set_tasks]; rewrite list_lookup_insert_eq by exact Hlt;
    reflexivity.
Qed.

(** C4: with the slider value [i] within [1, N], one round of the loop
    sets it to [1] when [i = N] and to [i + 1] otherwise; the result is
    never [N + 1] and lies within [1, N]; and the value stays within
    [1, N] under every sequence of clicks and thread steps. *)
Theorem advance_wraps (p : Player) :
  in_range p ->
  (slider_value p = n_labels p -> advance p = 1%Z) /\
  ((slider_value p < n_labels p)%Z -> advance p = (slider_value p + 1)%Z) /\
  advance p ≠ (n_labels p + 1)%Z /\
  (1 <= advance p <= n_labels p)%Z /\
  (forall acts, in_range (run acts p)).
Proof.
  unfold in_range. intros H.
  assert (Hadv : advance p = if (slider_value p <? n_labels p)%Z
                             then (slider_value p + 1)%Z else 1%Z).
  { unfold advance. cbn [work_step].
    destruct (slider_value p <? n_labels p)%Z eqn:E;
      cbn [work_step snd assign_slider slider_value n_labels];
      apply clamp_id; lia. }
  rewrite Hadv.
  destruct (slider_value p <? n_labels p)%Z eqn:E;
    [apply Z.ltb_lt in E|apply Z.ltb_ge in E];
    repeat split; try lia; intros; try lia;
    try (apply run_in_range; exact H).
Qed.

Lemma advance_wraps_witness :
  let p := mkPlayer 3 true 3 [AtIf] in
  in_range p /\ advance p = 1%Z /\ advance (new_player 3) = 2%Z.
Proof.
  intros p. split; [unfold in_range; cbn; lia|]. split.
  - apply (advance_wraps p); [unfold in_range; cbn; lia|reflexivity].
  - reflexivity.
Defined.

(** *** Argument checks of [time_slider] *)

(** C9, as stated, fails: with the default empty [layers_dict] the
    labels are compared with the planet tiles, so labels of that length
    are accepted although their length differs from that of
    [layers_dict]. *)
Lemma labels_checked_against_planet_tiles :
  ~ early_error Examples.planet_monthly_tiles Examples.initial_map
      (Dict []) (Some ["January 2020"]) Examples.slider_control.
Proof.
  intros H. unfold early_error in H.
  assert (Hbad : bad_arguments (Dict []) (Some ["January 2020"]))
    by (cbn; lia).
  specialize (H Hbad). vm_compute in H. discriminate H.
Qed.

Section WithPlanet.

Variable planet_monthly_tiles : result (list (string * Layer)).

(** C9, amended: a call whose [layers_dict] is not a dictionary raises
    [TypeError], and a call with explicit labels whose number differs
    from the size of the dictionary in effect (the planet tiles when
    [layers_dict] is empty) raises [ValueError]; both leave the map as it
    was, no layer or control added. *)
Theorem time_slider_rejects_early m layers_dict labels slider_ctrl :
  rejected planet_monthly_tiles layers_dict labels ->
  time_slider planet_monthly_tiles layers_dict labels slider_ctrl m
  = (m, Raise (match layers_dict with
               | NotADict => TypeError
               | Dict _ => ValueError
               end)).
Proof.
  unfold rejected, effective_dict, time_slider.
  destruct layers_dict as [|d]; [reflexivity|].
  unfold bind, ret, raise. cbn beta iota.
  destruct (decide (length d = 0)) as [Hd|Hd].
  - destruct planet_monthly_tiles as [d'|e]; [|intros []].
    destruct labels as [ls|]; [|intros []].
    intros Hne. now case_decide.
  - destruct labels as [ls|]; [|intros []].
    intros Hne. now case_decide.
Qed.

(** When the planet tiles cannot be fetched the call raises as well, and
    the map is as it was. *)
Lemma time_slider_planet_failure m labels slider_ctrl e :
  planet_monthly_tiles = Raise e ->
  time_slider planet_monthly_tiles (Dict []) labels slider_ctrl m
  = (m, Raise e).
Proof. intros H. unfold time_slider, bind, ret. cbn. now rewrite H. Qed.

End WithPlanet.

Lemma time_slider_rejects_early_witness :
  time_slider Examples.planet_monthly_tiles (Dict Examples.two_months)
              (Some ["January 2020"]) Examples.slider_control
              Examples.initial_map
  = (Examples.initial_map, Raise ValueError).
Proof.
  apply (time_slider_rejects_early Examples.planet_monthly_tiles
           Examples.initial_map (Dict Examples.two_months)
           (Some ["January 2020"]) Examples.slider_control).
  vm_compute. intros E. discriminate E.
Defined.

(** A call that passes the checks adds the first layer and the slider's
    control. *)
Example time_slider_accepts :
  let r := time_slider Examples.planet_monthly_tiles
             (Dict Examples.two_months) None Examples.slider_control
             Examples.initial_map in
  layers (fst r) = [Examples.default_layer; Examples.planet_2020_01] /\
  slider_ctrl (fst r) = Some Examples.slider_control /\
  snd r = Ok (new_player 2).
Proof. repeat split. Qed.

(** *** Moving the slider *)

Lemma lookup_key_at {V : Type} (d : list (string * V)) i k v :
  NoDup (keys d) -> d !! i = Some (k, v) -> lookup_key k d = Some v.
Proof.
  revert i. induction d as [|[k' v'] d IH]; intros i Hnd Hi; [discriminate Hi|].
  unfold keys in Hnd. rewrite fmap_cons, NoDup_cons in Hnd.
  destruct Hnd as [Hfresh Hnd]. cbn [lookup_key fst].
  destruct i as [|i]; cbn in Hi.
  - injection Hi as -> ->. now rewrite decide_True.
  - rewrite decide_False; [now apply (IH i)|].
    intros ->. apply Hfresh.
    apply (list_elem_of_fmap_2 fst) with (x := (k, v)).
    eapply list_elem_of_lookup_2. exact Hi.
Qed.

Lemma py_index_in_range {S A : Type} (xs : list A) (i : nat) (x : A) (s : S) :
  xs !! i = Some x -> py_index (Z.of_nat i) xs s = (s, Ok x).
Proof.
  intros H. unfold py_index, index.
  rewrite (proj2 (Z.leb_le 0 (Z.of_nat i))) by lia.
  now rewrite Nat2Z.id, H.
Qed.

(** [slider_changed] once the label at the slider's position is known. *)
Lemma slider_changed_at f (i : nat) lab (m : Map) old :
  frame_labels f !! i = Some lab ->
  slider_changed f (Z.of_nat i + 1) (m, old)
  = match lookup_key lab (frame_layers f) with
    | Some chosen =>
        let m1 := assign_url (shown_layer f) (url_of m chosen) m in
        ((assign_name (shown_layer f) (name_of m1 chosen) m1, lab), Ok tt)
    | None => ((m, lab), Raise KeyError)
    end.
Proof.
  intros Hlab. unfold slider_changed.
  replace (Z.of_nat i + 1 - 1)%Z with (Z.of_nat i) by lia.
  unfold bind. rewrite (py_index_in_range _ _ _ _ Hlab).
  unfold modify, get, getitem, ret, raise. cbn [fst snd].
  destruct (lookup_key lab (frame_layers f)) as [chosen|] eqn:E;
    [|reflexivity].
  cbn [fst snd]. now rewrite E.
Qed.

(** X13: with the slider at a position within the labels,
    [slider_changed] returns exactly when the label there is a key of
    [layers_dict]; for a label that is no key it raises [KeyError] after
    it has already written the label, and it leaves every layer as it
    was.  So explicit labels work only if they are the dictionary's own
    keys. *)
Theorem slider_changed_needs_label_as_key f (i : nat) lab (m : Map) old :
  frame_labels f !! i = Some lab ->
  (snd (slider_changed f (Z.of_nat i + 1) (m, old)) = Ok tt
   <-> is_Some (lookup_key lab (frame_layers f))) /\
  (lookup_key lab (frame_layers f) = None ->
   slider_changed f (Z.of_nat i + 1) (m, old) = ((m, lab), Raise KeyError)) /\
  snd (fst (slider_changed f (Z.of_nat i + 1) (m, old))) = lab.
Proof.
  intros Hlab. rewrite (slider_changed_at f i lab m old Hlab).
  destruct (lookup_key lab (frame_layers f)) as [chosen|] eqn:E.
  - cbn. repeat split; eauto. discriminate.
  - cbn. repeat split; auto.
    + discriminate.
    + intros [x Hx]. discriminate Hx.
Qed.

Lemma slider_changed_needs_label_as_key_witness :
  let f := mkFrames ["January 2020"; "February 2020"] Examples.two_months
                    Examples.planet_2020_01 in
  slider_changed f 2 (Examples.initial_map, "January 2020")
  = ((Examples.initial_map, "February 2020"), Raise KeyError).
Proof.
  intros f.
  apply (slider_changed_needs_label_as_key f 1 "February 2020"
           Examples.initial_map "January 2020"); reflexivity.
Defined.

(** X12: the layer shown on the map is the dictionary's first layer
    object itself, and [slider_changed] writes the chosen frame's url and
    name into it.  So once the slider has shown a frame [i > 1] whose
    layer is another object, moving it back to position 1 copies the
    first layer's attributes onto themselves: the map goes on showing the
    url and name of frame [i], and the first frame's own url is lost. *)
Theorem first_frame_is_overwritten (d : list (string * Layer)) k0 l0 rest
        (i : nat) k l (m : Map) old :
  d = (k0, l0) :: rest ->
  NoDup (keys d) ->
  d !! i = Some (k, l) ->
  layer_id l ≠ layer_id l0 ->
  let f := mkFrames (keys d) d l0 in
  let s1 := fst (slider_changed f (Z.of_nat i + 1) (m, old)) in
  let s2 := fst (slider_changed f 1 s1) in
  snd (slider_changed f (Z.of_nat i + 1) (m, old)) = Ok tt /\
  snd (slider_changed f 1 s1) = Ok tt /\
  snd s2 = k0 /\
  url_of (fst s2) l0 = url_of m l /\
  name_of (fst s2) l0 = name_of m l /\
  url_of (fst s2) l = url_of m l.
Proof.
  intros Hd Hnd Hi Hne. cbv zeta.
  assert (Hk : keys d !! i = Some k).
  { unfold keys. now rewrite list_lookup_fmap, Hi. }
  assert (Hl : lookup_key k d = Some l) by (eapply lookup_key_at; eassumption).
  assert (Hl0 : lookup_key k0 d = Some l0)
    by (subst d; cbn; now rewrite decide_True).
  assert (Hk0 : keys d !! 0%nat = Some k0) by (subst d; reflexivity).
  rewrite (slider_changed_at (mkFrames (keys d) d l0) i k m old Hk).
  cbn [frame_layers shown_layer]. rewrite Hl. cbv zeta. cbn [fst snd].
  change 1%Z with (Z.of_nat 0 + 1)%Z.
  rewrite (slider_changed_at (mkFrames (keys d) d l0) 0 k0 _ k Hk0).
  cbn [frame_layers shown_layer]. rewrite Hl0. cbv zeta. cbn [fst snd].
  unfold url_of, name_of, assign_url, assign_name.
  cbn [layer_attrs set_layer_attrs layer_name layer_url].
  repeat split;
    repeat (case_decide; try congruence; cbn [layer_name layer_url]);
    reflexivity.
Qed.

Lemma first_frame_is_overwritten_witness :
  let f := mkFrames (keys Examples.two_months) Examples.two_months
                    Examples.planet_2020_01 in
  let s1 := fst (slider_changed f 2 (Examples.initial_map, "Planet_2020_01")) in
  let s2 := fst (slider_changed f 1 s1) in
  snd s2 = "Planet_2020_01" /\
  url_of (fst s2) Examples.planet_2020_01
  = url_of Examples.initial_map Examples.planet_2020_02.
Proof.
  intros f s1 s2.
  destruct (first_frame_is_overwritten Examples.two_months
              "Planet_2020_01" Examples.planet_2020_01
              [("Planet_2020_02", Examples.planet_2020_02)]
              1 "Planet_2020_02" Examples.planet_2020_02
              Examples.initial_map "Planet_2020_01")
    as (_ & _ & H3 & H4 & _).
  - reflexivity.
  - apply (bool_decide_unpack _); vm_compute; exact I.
  - reflexivity.
  - discriminate.
  - split; [exact H3|exact H4].
Defined.

(** *** Pausing *)

Lemma work_step_waiting pc p :
  play_chk p = false -> waiting pc ->
  waiting (fst (work_step pc p)) /\ snd (work_step pc p) = p.
Proof.
  intros Hflag [-> | [-> | ->]]; cbn; rewrite ?Hflag; split;
    unfold waiting; auto.
Qed.

Lemma task_step_quiescent k p :
  quiescent p ->
  quiescent (task_step k p) /\
  slider_value (task_step k p) = slider_value p.
Proof.
  intros [Hflag Hall]. unfold task_step.
  destruct (tasks p !! k) as [pc|] eqn:Hk; [|now split].
  assert (Hw : waiting pc).
  { rewrite Forall_lookup in Hall. exact (Hall k pc Hk). }
  destruct (work_step_waiting pc p Hflag Hw) as [Hw' Hp'].
  destruct (work_step pc p) as [pc' p']. cbn [fst snd] in Hw', Hp'. subst p'.
  split; [|reflexivity]. split; [exact Hflag|].
  cbn [tasks set_tasks]. now apply Forall_insert.
Qed.

Lemma waiting_thread_finishes k p pc :
  play_chk p = false -> waiting pc -> tasks p !! k = Some pc ->
  tasks (task_step k (task_step k p)) !! k = Some Finished.
Proof.
  intros Hflag Hw Hk.
  assert (Hlt : k < length (tasks p)) by (eapply lookup_lt_Some; exact Hk).
  destruct Hw as [-> | [-> | ->]].
  - unfold task_step at 2. rewrite Hk. cbn [work_step]. rewrite Hflag.
    unfold task_step. cbn [tasks set_tasks].
    rewrite list_lookup_insert_eq by exact Hlt. cbn [work_step tasks set_tasks].
    rewrite list_lookup_insert_eq; [reflexivity|now rewrite length_insert].
  - unfold task_step at 2. rewrite Hk. cbn [work_step].
    unfold task_step. cbn [tasks set_tasks].
    rewrite list_lookup_insert_eq by exact Hlt.
    cbn [work_step play_chk set_tasks]. rewrite Hflag.
    cbn [tasks set_tasks].
    rewrite list_lookup_insert_eq; [reflexivity|now rewrite length_insert].
  - unfold task_step at 2. rewrite Hk. cbn [work_step].
    unfold task_step. cbn [tasks set_tasks].
    rewrite list_lookup_insert_eq by exact Hlt. cbn [work_step tasks set_tasks].
    rewrite list_lookup_insert_eq; [reflexivity|now rewrite length_insert].
Qed.

(** X14: pausing is cooperative.  Once the run flag is cleared and
    every thread is sleeping or about to test the flag, no schedule of
    thread steps and further pause clicks changes the slider value, the
    flag stays cleared, and each thread has left the loop after at most
    two steps of its own. *)
Theorem paused_slider_stands_still (acts : list Action) (p : Player) :
  quiescent p ->
  Forall (fun a => a ≠ Play) acts ->
  slider_value (run acts p) = slider_value p /\
  quiescent (run acts p) /\
  (forall k pc, tasks p !! k = Some pc ->
     tasks (task_step k (task_step k p)) !! k = Some Finished).
Proof.
  intros Hq Hacts.
  assert (Hrun : slider_value (run acts p) = slider_value p /\
                 quiescent (run acts p)).
  { revert p Hq. induction Hacts as [|a acts Ha _ IH]; intros p Hq; [auto|].
    cbn [run]. destruct a as [| |k]; [now destruct Ha| |].
    - cbn [act]. apply (IH (pause_click p)). destruct Hq as [_ Hall].
      split; [reflexivity|exact Hall].
    - cbn [act]. destruct (task_step_quiescent k p Hq) as [Hq' Hv].
      destruct (IH _ Hq') as [H1 H2]. split; [congruence|exact H2]. }
  destruct Hrun as [H1 H2]. split; [exact H1|]. split; [exact H2|].
  intros k pc Hk. destruct Hq as [Hflag Hall].
  apply (waiting_thread_finishes k p pc Hflag); [|exact Hk].
  rewrite Forall_lookup in Hall. exact (Hall k pc Hk).
Qed.

Lemma paused_slider_stands_still_witness :
  let p := pause_click (run [Play; Step 0; Step 0; Step 0; Step 0]
                            (new_player 3)) in
  slider_value p = 2%Z /\
  quiescent p /\
  slider_value (run [Step 0; Pause; Step 0; Step 0] p) = 2%Z /\
  tasks (run [Step 0; Step 0] p) = [Finished].
Proof.
  intros p.
  assert (Hq : quiescent p).
  { split; [reflexivity|]. apply Forall_cons_2; [|apply Forall_nil_2].
    left. reflexivity. }
  split; [reflexivity|]. split; [exact Hq|]. split; [|reflexivity].
  apply (paused_slider_stands_still [Step 0; Pause; Step 0; Step 0] p Hq).
  repeat first [apply Forall_nil_2 | apply Forall_cons_2]; discriminate.
Defined.

(** *** Closing the slider *)

Section Closing.

Variable planet_monthly_tiles : result (list (string * Layer)).
Variable toolbar_reset : Map -> Map.
Hypothesis reset_toolbar_only : ToolTemplate.toolbar_only toolbar_reset.

(** The map that a returning [time_slider] leaves. *)
Lemma time_slider_returns layers_dict labels ctl m m1 p :
  time_slider planet_monthly_tiles layers_dict labels ctl m = (m1, Ok p) ->
  exists layer n,
    (model_id ctl ∉ model_id <$> controls m) /\
    (layer_id layer ∉ layer_id <$> layers m) /\
    p = new_player n /\
    m1 = set_slider_ctrl (Some ctl)
           (set_controls (controls m ++ [ctl])
              (set_layers (layers m ++ [layer]) m)).
Proof.
  unfold time_slider, bind, ret, raise, get, modify, index, getitem, attempt,
    add_layer, add_control, assign_layers, assign_controls.
  destruct layers_dict as [|d]; [discriminate|]. cbn beta iota zeta.
  assert (Hstate : forall (r : result (list (string * Layer))) d0,
            (if decide (length d = 0) then fun m0 : Map => (m0, r)
             else fun m0 => (m0, Ok d0)) m
            = (m, if decide (length d = 0) then r else Ok d0))
    by (intros; case_decide; reflexivity).
  rewrite Hstate. clear Hstate.
  destruct (if decide (length d = 0) then planet_monthly_tiles else Ok d)
    as [d'|e]; [|discriminate].
  unfold ret, raise.
  destruct (decide (length (match labels with
                            | Some ls => ls
                            | None => keys d'
                            end) ≠ length d')); [discriminate|].
  destruct (decide (length (match labels with
                            | Some ls => ls
                            | None => keys d'
                            end) = 0)); [discriminate|].
  destruct (match labels with Some ls => ls | None => keys d' end !! 0)
    as [label|]; [|discriminate].
  destruct (keys d' !! 0) as [key0|]; [|discriminate].
  destruct (lookup_key key0 d') as [layer|]; [|discriminate].
  destruct (decide (layer_id layer ∈ layer_ids m)) as [|Hlayer];
    [discriminate|].
  destruct (decide (NoDup (layer_id <$> layers m ++ [layer])));
    [|discriminate].
  destruct (decide (model_id ctl
                    ∈ control_ids (set_layers (layers m ++ [layer]) m)))
    as [|Hctl]; [discriminate|].
  destruct (decide (NoDup (model_id <$>
              controls (set_layers (layers m ++ [layer]) m) ++ [ctl])));
    [|discriminate].
  intros [= <- <-].
  exists layer, (Z.of_nat (length (match labels with
                                   | Some ls => ls
                                   | None => keys d'
                                   end))).
  repeat split; assumption.
Qed.

(** X15: closing the time slider clears the run flag and takes the
    slider's control off the map again, so the control list is what it
    was before [time_slider]; the layer that [time_slider] added stays on
    the map, and [m.slider_ctrl] still names the removed control. *)
Theorem slider_close_keeps_the_layer layers_dict labels ctl (m m1 : Map)
        (p p' : Player) :
  NoDup (control_ids m) ->
  time_slider planet_monthly_tiles layers_dict labels ctl m = (m1, Ok p) ->
  let closed := close_click toolbar_reset (m1, p') in
  snd closed = Ok tt /\
  play_chk (snd (fst closed)) = false /\
  controls (fst (fst closed)) = controls m /\
  layers (fst (fst closed)) = layers m1 /\
  (exists layer, layers m1 = layers m ++ [layer] /\ layer ∉ layers m) /\
  slider_ctrl (fst (fst closed)) = Some ctl.
Proof.
  intros Hnd Hopen. cbv zeta.
  destruct (time_slider_returns _ _ _ _ _ _ Hopen)
    as (layer & n & Hctl & Hlayer & _ & ->).
  set (m1 := set_slider_ctrl (Some ctl)
               (set_controls (controls m ++ [ctl])
                  (set_layers (layers m ++ [layer]) m))).
  assert (Hfields : controls (toolbar_reset m1) = controls m1 /\
                    layers (toolbar_reset m1) = layers m1 /\
                    slider_ctrl (toolbar_reset m1) = slider_ctrl m1).
  { rewrite (reset_toolbar_only m1). repeat split. }
  destruct Hfields as (Hc & Hl & Hs).
  unfold close_click, bind, modify, get, attempt, ret. cbn [fst snd].
  rewrite Hs. cbn [slider_ctrl m1 set_slider_ctrl]. rewrite Hc.
  rewrite decide_True
    by (cbn; apply elem_of_app; right; apply list_elem_of_singleton;
        reflexivity).
  rewrite ToolTemplateFacts.remove_control_present.
  - cbn [fst snd]. rewrite Hc.
    cbn [controls layers slider_ctrl m1 set_slider_ctrl set_controls
         set_layers play_chk assign_play_chk].
    rewrite ToolTemplateFacts.filter_other_ids_snoc by exact Hctl.
    split; [reflexivity|]. split; [reflexivity|]. split; [reflexivity|].
    split; [exact Hl|]. split; [|exact Hs].
    exists layer. split; [reflexivity|].
    intros Hin. apply Hlayer. now apply list_elem_of_fmap_2.
  - cbn [fst snd]. rewrite Hc. cbn. apply elem_of_app. right.
    apply list_elem_of_singleton. reflexivity.
  - cbn [fst snd]. unfold control_ids. rewrite Hc.
    now apply ToolTemplateFacts.NoDup_ids_snoc.
Qed.

End Closing.

Lemma slider_close_keeps_the_layer_witness :
  let opened := time_slider Examples.planet_monthly_tiles
                  (Dict Examples.two_months) None Examples.slider_control
                  Examples.initial_map in
  let closed := close_click MainToolbar.reset_all
                  (fst opened, play_click (new_player 2)) in
  controls (fst opened)
  = [Examples.zoom; Examples.main_toolbar_control; Examples.slider_control] /\
  controls (fst (fst closed)) = controls Examples.initial_map /\
  layers (fst (fst closed))
  = [Examples.default_layer; Examples.planet_2020_01] /\
  play_chk (snd (fst closed)) = false.
Proof.
  intros opened closed. split; [reflexivity|].
  destruct (slider_close_keeps_the_layer Examples.planet_monthly_tiles
              MainToolbar.reset_all ToolTemplateFacts.reset_all_toolbar_only
              (Dict Examples.two_months) None Examples.slider_control
              Examples.initial_map (fst opened) (new_player 2)
              (play_click (new_player 2)))
    as (_ & H2 & H3 & H4 & _).
  - apply (bool_decide_unpack _); vm_compute; exact I.
  - reflexivity.
  - split; [exact H3|]. split; [|exact H2].
    etransitivity; [exact H4|reflexivity].
Defined.

End TimeSliderFacts.

(** ** The main toolbar's own panel *)

Module ToolbarPanelFacts.
Import ToolbarPanel.

Ltac bar_simpl :=
  unfold consistent, handle_toolbar_event, assign_toolbar_button,
    toolbar_btn_click, assign_layers_button_false, layers_btn_click_off,
    set_children, set_footer, store_toolbar_button, store_layers_button in *;
  cbn [children toolbar_button_value layers_button_value footer
       layer_control negb] in *.

Lemma consistent_assign_toolbar v b :
  consistent b -> consistent (assign_toolbar_button v b).
Proof.
  destruct b as [ws tb lb ft lc]. bar_simpl. intros [H1 H2].
  case_decide; [now split|].
  destruct v, lb; cbn; split; intros; try tauto; try congruence; try discriminate.
Qed.

Lemma consistent_handle e b :
  consistent b -> consistent (handle_toolbar_event e b).
Proof.
  destruct b as [ws tb lb ft lc]. bar_simpl. intros [H1 H2].
  repeat case_decide; try (now split);
    destruct tb, lb; cbn in *; split; intros;
    try tauto; try congruence; try discriminate.
Qed.

Lemma assign_toolbar_false_when_layers_on b :
  layers_button_value b = true ->
  toolbar_button_value (assign_toolbar_button false b) = false /\
  layers_button_value (assign_toolbar_button false b) = true /\
  footer (assign_toolbar_button false b) = footer b /\
  layer_control (assign_toolbar_button false b) = layer_control b /\
  children (assign_toolbar_button false b) = children b.
Proof.
  destruct b as [ws tb lb ft lc]. bar_simpl. intros ->.
  case_decide; subst; cbn; repeat split.
Qed.

Section WithClasses.

Variable is_tile_layer : Layer -> bool.
Variable new_layer_control : Control.

Abbreviation layers_btn_click :=
  (ToolbarPanel.layers_btn_click is_tile_layer new_layer_control).
Abbreviation step := (ToolbarPanel.step is_tile_layer new_layer_control).
Abbreviation run := (ToolbarPanel.run is_tile_layer new_layer_control).
Abbreviation listed := (ToolbarPanel.listed is_tile_layer).

(** What a returning [layers_btn_click(True)] leaves behind. *)
Lemma layers_btn_click_on_returns b m s' :
  layers_button_value b = true ->
  layers_btn_click true (b, m) = (s', Ok tt) ->
  toolbar_button_value (fst s') = false /\
  layers_button_value (fst s') = true /\
  footer (fst s')
  = LayerRows (name_of m <$> filter (fun l => listed l = true) (layers m)) /\
  layers (snd s') = layers m /\
  layer_attrs (snd s') = layer_attrs m.
Proof.
  intros Hlb.
  unfold ToolbarPanel.layers_btn_click, bind, get, ret, on_bar, on_map,
    modify, attempt.
  cbn [fst snd].
  assert (Hend : forall b0 rows,
    layers_button_value b0 = true ->
    let b1 := assign_toolbar_button false (set_footer (LayerRows rows) b0) in
    toolbar_button_value b1 = false /\ layers_button_value b1 = true /\
    footer b1 = LayerRows rows).
  { intros b0 rows Hb0 b1.
    destruct (assign_toolbar_false_when_layers_on
                (set_footer (LayerRows rows) b0) Hb0) as (H1 & H2 & H3 & _).
    repeat split; assumption. }
  repeat case_match; intros; simplify_eq; cbn [fst snd] in *.
  all: repeat match goal with
       | H : add_control _ _ = Ok _ |- _ =>
           apply LeafletFacts.add_control_ok in H; subst
       end.
  all: match goal with
       | |- context [assign_toolbar_button false
                       (set_footer (LayerRows ?rows) ?b0)] =>
           destruct (Hend b0 rows Hlb) as (? & ? & ?)
       end.
  all: repeat split; try assumption; reflexivity.
Qed.

Lemma step_keeps_consistent e s s' :
  step e s = (s', Ok tt) ->
  consistent (fst s) ->
  consistent (fst s') /\ layers (snd s') = layers (snd s) /\
  layer_attrs (snd s') = layer_attrs (snd s).
Proof.
  destruct s as [b m]. destruct e as [type|v|v]; cbn [ToolbarPanel.step].
  - unfold on_bar, modify. intros [= <-] H. cbn [fst snd].
    split; [now apply consistent_handle|split; reflexivity].
  - unfold on_bar, modify. intros [= <-] H. cbn [fst snd].
    split; [now apply consistent_assign_toolbar|split; reflexivity].
  - cbn [fst snd]. case_decide.
    + intros [= <-] H'. cbn [fst snd]. split; [exact H'|split; reflexivity].
    + destruct v.
      * intros Hret _.
        apply layers_btn_click_on_returns in Hret; [|reflexivity].
        destruct Hret as (H1 & H2 & H3 & H4 & H5).
        split; [|split; assumption].
        split; [intros; congruence|]. rewrite H3, H2.
        split; discriminate.
      * unfold ToolbarPanel.layers_btn_click, on_bar, modify.
        intros [= <-] _. cbn [fst snd]. split; [|split; reflexivity].
        split; [reflexivity|]. split; reflexivity.
Qed.

(** X6: whatever sequence of pointer events and clicks on the wrench
    and layers toggles the main toolbar panel handles, the two toggles
    are never on together and the footer shows the layer rows exactly
    while the layers toggle is on (the tool grid otherwise); the panel
    never changes the map's layer list. *)
Theorem toolbar_toggles_stay_exclusive (evs : list Event) (s s' : State) :
  consistent (fst s) ->
  run evs s = (s', Ok tt) ->
  consistent (fst s') /\
  layers (snd s') = layers (snd s) /\
  layer_attrs (snd s') = layer_attrs (snd s).
Proof.
  revert s. induction evs as [|e evs IH]; intros s Hc.
  - cbn. intros [= <-]. auto.
  - cbn [ToolbarPanel.run]. unfold bind.
    destruct (step e s) as [s1 [[]|err]] eqn:Estep; [|discriminate].
    intros Hrun.
    destruct (step_keeps_consistent e s s1 Estep Hc) as (Hc1 & Hl1 & Ha1).
    destruct (IH s1 Hc1 Hrun) as (Hc' & Hl' & Ha').
    split; [exact Hc'|]. split; congruence.
Qed.

Lemma filter_listed_split (ls : list Layer) :
  length (filter (fun l => listed l = true) ls)
  + length (filter (fun l => listed l = false) ls) = length ls.
Proof.
  induction ls as [|l ls IH]; [reflexivity|].
  rewrite !filter_cons. destruct (listed l) eqn:E.
  - rewrite decide_True by reflexivity.
    rewrite decide_False by discriminate. cbn [length]. lia.
  - rewrite decide_False by discriminate.
    rewrite decide_True by reflexivity. cbn [length]. lia.
Qed.

(** X7: when the layers toggle is switched on and the map has no layer
    control yet, the built-in [LayersControl] is created and put on the
    map exactly when at least two layers of the map are not tile or WMS
    layers (the test is [len(layers) < len(m.layers) - 1]); with a single
    such layer the control list is left as it is.  The call does not
    raise, lists one row per tile or WMS layer and switches the wrench
    toggle off. *)
Theorem layer_control_needs_two_unlisted (b : Bar) (m : Map) :
  layer_control b = None ->
  layers_button_value b = true ->
  NoDup (control_ids m) ->
  model_id new_layer_control ∉ control_ids m ->
  let r := layers_btn_click true (b, m) in
  let unlisted := length (filter (fun l => listed l = false) (layers m)) in
  snd r = Ok tt /\
  controls (snd (fst r))
  = (if decide (2 <= unlisted) then controls m ++ [new_layer_control]
     else controls m) /\
  layer_control (fst (fst r))
  = (if decide (2 <= unlisted) then Some new_layer_control else None) /\
  footer (fst (fst r))
  = LayerRows (name_of m <$> filter (fun l => listed l = true) (layers m)) /\
  toolbar_button_value (fst (fst r)) = false.
Proof.
  intros Hlc Hlb Hnd Hfresh. cbv zeta.
  pose proof (filter_listed_split (layers m)) as Hsplit.
  destruct (assign_toolbar_false_when_layers_on
              (set_footer
                 (LayerRows (name_of m <$>
                    filter (fun l => listed l = true) (layers m))) b) Hlb)
    as (Ht1 & _ & Hf1 & Hl1 & _).
  destruct (assign_toolbar_false_when_layers_on
              (set_footer
                 (LayerRows (name_of m <$>
                    filter (fun l => listed l = true) (layers m)))
                 (set_layer_control (Some new_layer_control) b)) Hlb)
    as (Ht2 & _ & Hf2 & Hl2 & _).
  cbn [layer_control footer set_footer set_layer_control] in Hf1, Hl1, Hf2, Hl2.
  rewrite Hlc in Hl1.
  unfold ToolbarPanel.layers_btn_click, bind, get, ret, on_bar, on_map,
    modify, attempt.
  cbn [fst snd].
  destruct (Z.of_nat (length (filter (fun l => listed l = true) (layers m)))
            <? Z.of_nat (length (layers m)) - 1)%Z eqn:Etest.
  - apply Z.ltb_lt in Etest.
    destruct (decide (2 <= length (filter (fun l => listed l = false)
                                          (layers m)))) as [_|N]; [|lia].
    rewrite Hlc. cbn [fst snd layer_control set_layer_control].
    rewrite decide_True
      by (now apply ToolTemplateFacts.fresh_id_not_member).
    rewrite ToolTemplateFacts.add_control_fresh by assumption.
    cbn [fst snd]. rewrite Hl2, Hf2, Ht2. repeat split.
  - apply Z.ltb_ge in Etest.
    destruct (decide (2 <= length (filter (fun l => listed l = false)
                                          (layers m)))) as [Y|_]; [lia|].
    cbn [fst snd]. rewrite Hl1, Hf1, Ht1. repeat split.
Qed.

End WithClasses.

Lemma toolbar_toggles_stay_exclusive_witness :
  let evs := [Dom "mouseenter"; ToolbarClick true; LayersClick true;
              Dom "mouseleave"; ToolbarClick true] in
  let r := ToolbarPanel.run Examples.is_tile_layer Examples.layers_control
             evs (new_bar None, Examples.map_with_two_vectors) in
  snd r = Ok tt /\
  toolbar_button_value (fst (fst r)) = true /\
  layers_button_value (fst (fst r)) = false /\
  footer (fst (fst r)) = Grid /\
  consistent (fst (fst r)).
Proof.
  intros evs r. split; [reflexivity|]. split; [reflexivity|].
  split; [reflexivity|]. split; [reflexivity|].
  apply (toolbar_toggles_stay_exclusive Examples.is_tile_layer
           Examples.layers_control evs
           (new_bar None, Examples.map_with_two_vectors) (fst r)).
  - split; [discriminate|]. split; reflexivity.
  - reflexivity.
Defined.

Lemma layer_control_needs_two_unlisted_witness :
  let b := store_layers_button true (new_bar None) in
  controls (snd (fst (ToolbarPanel.layers_btn_click Examples.is_tile_layer
                        Examples.layers_control true
                        (b, Examples.map_with_one_vector))))
  = controls Examples.map_with_one_vector /\
  controls (snd (fst (ToolbarPanel.layers_btn_click Examples.is_tile_layer
                        Examples.layers_control true
                        (b, Examples.map_with_two_vectors))))
  = controls Examples.map_with_two_vectors ++ [Examples.layers_control].
Proof.
  intros b. split.
  - refine (proj1 (proj2 (layer_control_needs_two_unlisted
              Examples.is_tile_layer Examples.layers_control b
              Examples.map_with_one_vector eq_refl eq_refl _ _))).
    + apply (bool_decide_unpack _); vm_compute; exact I.
    + apply (bool_decide_unpack _); vm_compute; exact I.
  - refine (proj1 (proj2 (layer_control_needs_two_unlisted
              Examples.is_tile_layer Examples.layers_control b
              Examples.map_with_two_vectors eq_refl eq_refl _ _))).
    + apply (bool_decide_unpack _); vm_compute; exact I.
    + apply (bool_decide_unpack _); vm_compute; exact I.
Defined.

End ToolbarPanelFacts.

(** ** The export panel *)

Module SaveMapFacts.
Import SaveMap.

Section WithBuiltins.

Variable splitext_ext : string -> string.
Variable upper : string -> string.
Variable toolbar_reset : Map -> Map.
Hypothesis reset_toolbar_only : ToolTemplate.toolbar_only toolbar_reset.

Abbreviation click := (SaveMap.click splitext_ext upper toolbar_reset).

Lemma reset_keeps_controls_and_layers m :
  controls (toolbar_reset m) = controls m /\
  layers (toolbar_reset m) = layers m.
Proof. rewrite (reset_toolbar_only m). split; reflexivity. Qed.

(** The tail of [ok_cancel_clicked]: lines 1023-1024. *)
Lemma ok_cancel_tail (s : State) choice :
  ok_cancel_value (panel s) = Some choice ->
  bind (assign_ok_cancel_none toolbar_reset)
       (fun _ => on_map toolbar_reset) s
  = (mkState (store_ok_cancel None (panel s)) (bar s)
             (toolbar_reset (toolbar_reset (map s))), Ok tt).
Proof.
  intros Hv. unfold assign_ok_cancel_none, bind, get, on_panel, on_map,
    modify, ret. cbn [fst snd]. rewrite Hv.
  destruct (decide (Some choice = None)) as [E|_]; [discriminate E|].
  reflexivity.
Qed.

(** X17: with a file selected, "OK" exports nothing unless the
    upper-cased extension of the file goes with the selected type: on a
    mismatch the panel shows the label instead of the buttons, no export
    is made, the panel's control stays where it is, and the click
    returns with [ok_cancel.value] cleared.  For type HTML and a matching
    extension exactly one [to_html] export is made and the panel stays on
    the map. *)
Theorem export_needs_matching_extension (s : State) (path : string) :
  selected (panel s) = Some path ->
  ok_cancel_value (panel s) ≠ Some "OK" ->
  let r := click "OK" s in
  (~ matching (panel s) (upper (splitext_ext path)) ->
   snd r = Ok tt /\
   exports (panel (fst r)) = exports (panel s) /\
   children (panel (fst r)) = [save_type; file_chooser; label] /\
   save_map_control (panel (fst r)) = save_map_control (panel s) /\
   controls (map (fst r)) = controls (map s) /\
   ok_cancel_value (panel (fst r)) = None) /\
  (save_type_value (panel s) = "HTML" ->
   upper (splitext_ext path) = ".HTML" ->
   snd r = Ok tt /\
   exports (panel (fst r)) = exports (panel s) ++ [ToHtml path] /\
   save_map_control (panel (fst r)) = save_map_control (panel s) /\
   controls (map (fst r)) = controls (map s)).
Proof.
  intros Hsel Hval. cbv zeta.
  destruct s as [p b m]. cbn [panel bar map] in *.
  destruct (reset_keeps_controls_and_layers m) as [Hc1 _].
  destruct (reset_keeps_controls_and_layers (toolbar_reset m)) as [Hc2 _].
  split.
  - intros Hno.
    assert (Hclick : click "OK" (mkState p b m)
              = (mkState
                   (store_ok_cancel None
                      (set_children [save_type; file_chooser; label]
                         (store_ok_cancel (Some "OK") p)))
                   b (toolbar_reset (toolbar_reset m)), Ok tt)).
    { unfold SaveMap.click. cbn [panel bar map].
      rewrite decide_False by exact Hval.
      unfold ok_cancel_clicked.
      rewrite decide_True by reflexivity.
      unfold bind at 1. unfold bind at 1. unfold get at 1.
      cbn [fst snd panel bar map store_ok_cancel selected save_type_value].
      rewrite Hsel. unfold bind at 1. unfold ret at 1.
      cbn [fst snd panel bar map store_ok_cancel selected save_type_value].
      rewrite !decide_False
        by (intros [H1 H2]; apply Hno; unfold matching; tauto).
      unfold on_panel at 1, modify at 1.
      cbn [fst snd panel bar map].
      erewrite ok_cancel_tail by reflexivity. reflexivity. }
    rewrite Hclick.
    cbn [fst snd panel bar map exports children save_map_control
         ok_cancel_value store_ok_cancel set_children].
    rewrite Hc2, Hc1. repeat split.
  - intros Htype Hext.
    assert (Hclick : click "OK" (mkState p b m)
              = (mkState
                   (store_ok_cancel None
                      (record_export (ToHtml path)
                         (store_ok_cancel (Some "OK") p)))
                   b (toolbar_reset (toolbar_reset m)), Ok tt)).
    { unfold SaveMap.click. cbn [panel bar map].
      rewrite decide_False by exact Hval.
      unfold ok_cancel_clicked.
      rewrite decide_True by reflexivity.
      unfold bind at 1. unfold bind at 1. unfold get at 1.
      cbn [fst snd panel bar map store_ok_cancel selected save_type_value].
      rewrite Hsel. unfold bind at 1. unfold ret at 1.
      cbn [fst snd panel bar map store_ok_cancel selected save_type_value].
      rewrite decide_True by (split; assumption).
      unfold on_panel at 1, modify at 1.
      cbn [fst snd panel bar map].
      erewrite ok_cancel_tail by reflexivity. reflexivity. }
    rewrite Hclick.
    cbn [fst snd panel bar map exports children save_map_control
         ok_cancel_value store_ok_cancel record_export].
    rewrite Hc2, Hc1. repeat split.
Qed.


End WithBuiltins.

Lemma export_needs_matching_extension_witness :
  let r := SaveMap.click Examples.splitext_ext Examples.upper
             MainToolbar.reset_all "OK" Examples.saving_png_as_html in
  snd r = Ok tt /\
  exports (panel (fst r)) = [] /\
  children (panel (fst r)) = [save_type; file_chooser; label].
Proof.
  intros r.
  destruct (export_needs_matching_extension Examples.splitext_ext
              Examples.upper MainToolbar.reset_all
              ToolTemplateFacts.reset_all_toolbar_only
              Examples.saving_png_as_html "/home/user/my_map.png")
    as [Hmis _].
  - reflexivity.
  - discriminate.
  - destruct Hmis as (H1 & H2 & H3 & _).
    + unfold matching. vm_compute.
      intros [[_ E] | [[E _] | [E _]]]; discriminate E.
    + split; [exact H1|]. split; [exact H2|exact H3].
Defined.


End SaveMapFacts.

(** ** The open-data panel *)

Module OpenDataWidgetFacts.
Import OpenDataWidget.

Section WithMap.

Variable PyFloat : Type.
Variable int_of_str : string -> option Z.
Variable float_of_str : string -> option PyFloat.
Variable strip : string -> string.
Variable splitext_ext : string -> string.
Variable lower : string -> string.
Variable cwd : string.
Variable toolbar_reset : Map -> Map.
Variable load : Call PyFloat -> Py Map unit.
Variable vector_col_names : string -> result (list string).
Variable palettes : list string.
Variable swallows : bool.

Abbreviation State := (State PyFloat).
Abbreviation file_type_changed :=
  (OpenDataWidget.file_type_changed PyFloat strip cwd vector_col_names
     palettes).
Abbreviation pick_file_type :=
  (OpenDataWidget.pick_file_type PyFloat strip cwd vector_col_names palettes).
Abbreviation click :=
  (OpenDataWidget.click PyFloat int_of_str float_of_str strip splitext_ext
     lower toolbar_reset load swallows).
Abbreviation open_data_widget := (OpenDataWidget.open_data_widget PyFloat cwd).

(** The file types on offer. *)
Definition file_types : list string :=
  ["Shapefile"; "GeoJSON"; "CSV"; "Vector"; "Raster"].

(** X21: the point checkbox outlives a change of the file type made
    while it is ticked: the change unticks the box, and the observer of
    the box then puts the box back into the row that the branch for the
    new type had just emptied, whatever the new type.  When the box is
    not ticked, the row is left empty for every type but Vector. *)
Theorem ticked_point_box_survives_type_change (kind : string) (s : State) :
  kind ∈ file_types ->
  let r := file_type_changed kind s in
  snd r = Ok tt /\
  point_check_value (panel (fst r)) = false /\
  (point_check_value (panel s) = true ->
   point_widget_children (panel (fst r)) = [point_check]) /\
  (point_check_value (panel s) = false -> kind ≠ "Vector" ->
   point_widget_children (panel (fst r)) = []).
Proof.
  intros Hkind. cbv zeta.
  destruct s as [p ctl cur cs m]. destruct p.
  unfold file_types in Hkind.
  repeat (apply elem_of_cons in Hkind as [->|Hkind]);
    [..|now apply elem_of_nil in Hkind];
    destruct point_check_value0; cbn;
    (repeat split; try reflexivity; try discriminate;
     intros; congruence).
Qed.

(** Apply on a path that no branch of lines 795-840 takes. *)
Lemma apply_takes_no_branch (s : State) :
  ok_cancel_value (panel s) ≠ Some "Apply" ->
  point_check_value (panel s) = false ->
  strip (filepath_value (panel s)) ≠ "" ->
  let ext := lower (splitext_ext (filepath_value (panel s))) in
  ext ≠ ".shp" -> ext ≠ ".geojson" ->
  ~ (ext = ".csv" /\ file_type_value (panel s) = "CSV") ->
  ~ ((ext = ".tif" \/ ext = "img") /\ file_type_value (panel s) = "Raster") ->
  click "Apply" s
  = (mkState PyFloat
       (store_ok_cancel None
          (set_output [] (store_ok_cancel (Some "Apply") (panel s))))
       (tool_output_ctrl s) "default" (calls s) (toolbar_reset (map s)),
     Ok tt).
Proof.
  destruct s as [p ctl cur cs m]. cbn [panel tool_output_ctrl calls map].
  intros Hval Hpoint Hpath Hshp Hgeo Hcsv Htif.
  unfold OpenDataWidget.click, bind at 1, get at 1. cbn [panel fst snd].
  rewrite decide_False by exact Hval.
  unfold bind at 1, on_panel at 1, modify at 1. cbn [panel fst snd].
  unfold ok_cancel_clicked. rewrite decide_True by reflexivity.
  unfold with_output, apply_block, on_panel, on_map, set_cursor, bind, get,
    modify, ret.
  cbn [panel tool_output_ctrl cursor calls map fst snd].
  destruct p; cbn in *. rewrite Hpoint.
  rewrite decide_True by exact Hpath.
  rewrite (decide_False (P := _ = ".shp")) by exact Hshp.
  rewrite (decide_False (P := _ = ".geojson")) by exact Hgeo.
  rewrite (decide_False (P := _ /\ _ = "CSV")) by exact Hcsv.
  rewrite (decide_False (P := _ /\ _ = "Raster")) by exact Htif.
  reflexivity.
Qed.

(** Picking a type other than Vector. *)
Lemma pick_file_type_unticks (kind : string) (s : State) :
  kind ∈ file_types ->
  file_type_value (panel s) ≠ kind ->
  let r := pick_file_type kind s in
  snd r = Ok tt /\
  file_type_value (panel (fst r)) = kind /\
  point_check_value (panel (fst r)) = false /\
  ok_cancel_value (panel (fst r)) = None /\
  tool_output_ctrl (fst r) = tool_output_ctrl s /\
  calls (fst r) = calls s /\
  map (fst r) = map s.
Proof.
  intros Hin Hkind. cbv zeta.
  destruct s as [p ctl cur cs m]. destruct p. cbn [panel file_type_value] in *.
  assert (Hpick : pick_file_type kind
            (mkState PyFloat
               (mkPanel file_type_value0 filepath_value0 layer_name_value0
                  point_check_value0 point_popup_options0 point_popup_value0
                  longitude_value0 latitude_value0 label_value0 texts0
                  palette_options0 palette_value0 chooser_default_path0
                  chooser_selected0 filter_pattern0 csv_widget_children0
                  raster_options_children0 point_widget_children0
                  http_widget_children0 ok_cancel_value0 output0)
               ctl cur cs m)
          = file_type_changed kind
              (mkState PyFloat
                 (mkPanel kind filepath_value0 layer_name_value0
                    point_check_value0 point_popup_options0 point_popup_value0
                    longitude_value0 latitude_value0 label_value0 texts0
                    palette_options0 palette_value0 chooser_default_path0
                    chooser_selected0 filter_pattern0 csv_widget_children0
                    raster_options_children0 point_widget_children0
                    http_widget_children0 ok_cancel_value0 output0)
                 ctl cur cs m)).
  { unfold OpenDataWidget.pick_file_type, bind at 1, get at 1.
    cbn [panel file_type_value fst snd].
    rewrite decide_False by exact Hkind. reflexivity. }
  rewrite Hpick. clear Hpick Hkind.
  unfold file_types in Hin.
  repeat (apply elem_of_cons in Hin as [->|Hin]);
    [..|now apply elem_of_nil in Hin];
    destruct point_check_value0; cbn; repeat split.
Qed.

(** Apply with the point box ticked: line 794 is tested before any
    extension, and the call is made whatever it does afterwards. *)
Lemma apply_on_ticked (s : State) :
  ok_cancel_value (panel s) ≠ Some "Apply" ->
  point_check_value (panel s) = true ->
  strip (filepath_value (panel s)) ≠ "" ->
  calls (fst (click "Apply" s))
  = calls s
    ++ [add_point_layer PyFloat (filepath_value (panel s))
          match point_popup_value (panel s) with
          | [name] => One name
          | names => Several names
          end
          (layer_name_value (panel s))].
Proof.
  destruct s as [p ctl cur cs m]. cbn [panel tool_output_ctrl calls map].
  intros Hval Hpoint Hpath.
  unfold OpenDataWidget.click, bind at 1, get at 1. cbn [panel fst snd].
  rewrite decide_False by exact Hval.
  unfold bind at 1, on_panel at 1, modify at 1. cbn [panel fst snd].
  unfold ok_cancel_clicked. rewrite decide_True by reflexivity.
  unfold with_output, apply_block, call, record_call, in_map, on_panel,
    on_map, set_cursor, bind, get, modify, ret.
  cbn [panel tool_output_ctrl cursor calls map fst snd].
  destruct p; cbn in *. rewrite Hpoint.
  rewrite decide_True by exact Hpath.
  cbn [panel tool_output_ctrl cursor calls map fst snd].
  match goal with
  | |- context [load ?c ?m0] => destruct (load c m0) as [m' [[]|e]]
  end; destruct swallows; reflexivity.
Qed.

(** Ticking the point box: whether or not its observer raises, the box
    is ticked afterwards and nothing else that Apply reads has moved. *)
Lemma tick_keeps_the_path (s : State) :
  point_check_value (panel s) = false ->
  let ticked := fst (assign_point_check PyFloat strip vector_col_names
                       true s) in
  point_check_value (panel ticked) = true /\
  filepath_value (panel ticked) = filepath_value (panel s) /\
  layer_name_value (panel ticked) = layer_name_value (panel s) /\
  ok_cancel_value (panel ticked) = ok_cancel_value (panel s) /\
  calls ticked = calls s.
Proof.
  destruct s as [p ctl cur cs m]. destruct p. cbn [panel point_check_value].
  intros ->. cbv zeta.
  unfold assign_point_check, point_layer_check, bind, get, on_panel,
    set_cursor, modify, index, ret, raise.
  cbn [panel tool_output_ctrl cursor calls map fst snd point_check_value
       store_point_check filepath_value].
  destruct (decide (false = true)) as [E|_]; [discriminate E|].
  cbn [panel tool_output_ctrl cursor calls map fst snd point_check_value
       store_point_check filepath_value].
  destruct (decide (strip filepath_value0 ≠ "")); [|cbn; repeat split].
  cbn [panel tool_output_ctrl cursor calls map fst snd].
  destruct (vector_col_names filepath_value0) as [[|name names]|e];
    cbn; repeat split.
Qed.

(** X19: two kinds of file that the chooser offers are opened as point
    layers only.  Picking the type Raster sets the chooser's filter to
    "*.tif" and "*.img", and picking GeoJSON sets it to "*.geojson" and
    "*.json", and leaves the point box unticked.  Apply on a path whose
    lower-cased extension is ".img" (the code compares with "img") or
    ".json" then calls no loading method: the click returns, the output
    is empty and the cursor is back to default.  Once the point box is
    ticked, Apply on the same path calls [add_point_layer], since line
    794 looks at the box before any extension. *)
Theorem offered_files_open_only_as_points (kind path : string) (s : State) :
  file_type_value (panel s) ≠ kind ->
  strip path ≠ "" ->
  (kind = "Raster" /\ lower (splitext_ext path) = ".img") \/
  (kind = "GeoJSON" /\ lower (splitext_ext path) = ".json") ->
  let picked := fst (pick_file_type kind s) in
  let entered := fst (enter_path PyFloat path picked) in
  let r := click "Apply" entered in
  let ticked := fst (assign_point_check PyFloat strip vector_col_names
                       true entered) in
  (String.append "*" (lower (splitext_ext path))
   ∈ filter_pattern (panel picked)) /\
  point_check_value (panel entered) = false /\
  snd r = Ok tt /\
  calls (fst r) = calls s /\
  output (panel (fst r)) = [] /\
  cursor (fst r) = "default" /\
  map (fst r) = toolbar_reset (map s) /\
  point_check_value (panel ticked) = true /\
  calls (fst (click "Apply" ticked))
  = calls s
    ++ [add_point_layer PyFloat path
          match point_popup_value (panel ticked) with
          | [name] => One name
          | names => Several names
          end
          kind].
Proof.
  intros Hkind Hpath Hext. cbv zeta.
  assert (Hin : kind ∈ file_types).
  { unfold file_types.
    destruct Hext as [[-> _] | [-> _]];
      apply (bool_decide_unpack _); vm_compute; exact I. }
  destruct (pick_file_type_unticks kind s Hin Hkind)
    as (_ & Htype & Hpoint & Hval & _ & Hcalls & Hmap).
  split.
  { clear Htype Hpoint Hval Hcalls Hmap.
    destruct s as [p ctl cur cs m]. destruct p.
    cbn [panel file_type_value] in Hkind.
    unfold OpenDataWidget.pick_file_type, bind at 1, get at 1.
    cbn [panel file_type_value fst snd].
    rewrite decide_False by exact Hkind.
    destruct Hext as [[-> ->] | [-> ->]];
      destruct point_check_value0; cbn;
      apply (bool_decide_unpack _); vm_compute; exact I. }
  assert (Hname : layer_name_value (panel (fst (pick_file_type kind s)))
                  = kind).
  { clear Htype Hpoint Hval Hcalls Hmap.
    destruct s as [p ctl cur cs m]. destruct p.
    cbn [panel file_type_value] in Hkind.
    unfold OpenDataWidget.pick_file_type, bind at 1, get at 1.
    cbn [panel file_type_value fst snd].
    rewrite decide_False by exact Hkind.
    destruct Hext as [[-> _] | [-> _]];
      destruct point_check_value0; reflexivity. }
  set (picked := fst (pick_file_type kind s)) in *.
  set (entered := fst (enter_path PyFloat path picked)).
  assert (Hentered : filepath_value (panel entered) = path /\
                     point_check_value (panel entered) = false /\
                     ok_cancel_value (panel entered) = None /\
                     file_type_value (panel entered) = kind /\
                     layer_name_value (panel entered) = kind /\
                     calls entered = calls s /\
                     map entered = map s).
  { subst entered. unfold enter_path, on_panel, modify.
    cbn [fst panel calls map].
    rewrite <- Hcalls, <- Hmap. destruct (panel picked); cbn in *.
    repeat split; assumption. }
  destruct Hentered as (Hp & Hpt & Hv & Hty & Hnm & Hcs & Hm).
  split; [exact Hpt|].
  assert (Hskip : click "Apply" entered
            = (mkState PyFloat
                 (store_ok_cancel None
                    (set_output []
                       (store_ok_cancel (Some "Apply") (panel entered))))
                 (tool_output_ctrl entered) "default" (calls entered)
                 (toolbar_reset (map entered)), Ok tt)).
  { apply apply_takes_no_branch.
    - rewrite Hv. discriminate.
    - exact Hpt.
    - now rewrite Hp.
    - rewrite Hp. destruct Hext as [[_ ->] | [_ ->]]; discriminate.
    - rewrite Hp. destruct Hext as [[_ ->] | [_ ->]]; discriminate.
    - rewrite Hp.
      destruct Hext as [[_ ->] | [_ ->]]; intros [E _]; discriminate E.
    - rewrite Hp.
      destruct Hext as [[_ ->] | [_ ->]]; intros [[E|E] _]; discriminate E. }
  rewrite Hskip. cbn [fst snd panel calls cursor map].
  split; [reflexivity|]. split; [exact Hcs|].
  split; [now destruct (panel entered)|].
  split; [reflexivity|]. split; [now rewrite Hm|].
  destruct (tick_keeps_the_path entered Hpt)
    as (Ht & Htp & Htn & Htv & Htc).
  split; [exact Ht|].
  rewrite apply_on_ticked.
  - now rewrite Htp, Htn, Htc, Hp, Hnm, Hcs.
  - rewrite Htv, Hv. discriminate.
  - exact Ht.
  - now rewrite Htp, Hp.
Qed.

Hypothesis reset_keeps_controls : ToolTemplate.keeps_controls toolbar_reset.

Lemma fresh_id_after_filter (P : Control -> Prop) `{!forall c, Decision (P c)}
      (c : Control) (cs : list Control) :
  model_id c ∉ (model_id <$> cs) -> model_id c ∉ (model_id <$> filter P cs).
Proof.
  intros Hfresh Hin. apply Hfresh.
  apply list_elem_of_fmap in Hin as (c' & -> & Hc').
  apply list_elem_of_filter in Hc' as [_ Hc'].
  now apply list_elem_of_fmap_2.
Qed.

(** X20: a map shows at most one open-data panel.  Opening the panel on
    a map that still shows an earlier one takes the earlier panel's
    control off the map before the new control is added and recorded in
    [m.tool_output_ctrl]; Close then removes the new control and clears
    the attribute; and a second Close finds nothing to remove, leaves
    the whole state as it is (not even [toolbar_reset] runs) and
    returns. *)
Theorem open_data_panel_replaces_the_earlier_one
        (earlier ctrl : Control) (s : State) :
  NoDup (control_ids (map s)) ->
  tool_output_ctrl s = Some earlier ->
  earlier ∈ controls (map s) ->
  model_id ctrl ∉ control_ids (map s) ->
  let others :=
    filter (fun c' => model_id c' ≠ model_id earlier) (controls (map s)) in
  let opened := open_data_widget ctrl s in
  let closed := click "Close" (fst opened) in
  let again := click "Close" (fst closed) in
  snd opened = Ok tt /\
  controls (map (fst opened)) = others ++ [ctrl] /\
  (earlier ∉ controls (map (fst opened))) /\
  tool_output_ctrl (fst opened) = Some ctrl /\
  snd closed = Ok tt /\
  controls (map (fst closed)) = others /\
  tool_output_ctrl (fst closed) = None /\
  again = (fst closed, Ok tt).
Proof.
  intros Hnd Hctl Hin Hfresh. cbv zeta.
  destruct s as [p ctl cur cs m]. cbn [map tool_output_ctrl] in *. subst ctl.
  set (others := filter (fun c' => model_id c' ≠ model_id earlier)
                        (controls m)).
  assert (Hnd' : NoDup (model_id <$> others))
    by (now apply ToolTemplateFacts.NoDup_ids_filter).
  assert (Hfresh' : model_id ctrl ∉ (model_id <$> others))
    by (now apply fresh_id_after_filter).
  assert (Hopen : open_data_widget ctrl
                    (mkState PyFloat p (Some earlier) cur cs m)
            = (mkState PyFloat (new_panel cwd) (Some ctrl) cur cs
                 (set_controls (others ++ [ctrl]) (set_controls others m)),
               Ok tt)).
  { unfold OpenDataWidget.open_data_widget, bind at 1, on_panel at 1,
      modify at 1. cbn [fst snd panel tool_output_ctrl cursor calls map].
    unfold bind at 1, get at 1.
    cbn [fst snd panel tool_output_ctrl cursor calls map].
    rewrite decide_True by exact Hin.
    unfold bind at 1, in_map at 1, attempt at 1.
    cbn [fst snd panel tool_output_ctrl cursor calls map].
    rewrite ToolTemplateFacts.remove_control_present by assumption.
    fold others.
    unfold bind at 1, in_map at 1, attempt at 1.
    cbn [fst snd panel tool_output_ctrl cursor calls map].
    rewrite ToolTemplateFacts.add_control_fresh by assumption.
    reflexivity. }
  rewrite Hopen. cbn [fst snd map tool_output_ctrl controls set_controls].
  split; [reflexivity|]. split; [reflexivity|].
  split.
  { intros Hmem. apply elem_of_app in Hmem as [Hmem|Hmem].
    - now apply (ToolTemplateFacts.removed_control_absent earlier (controls m)).
    - apply list_elem_of_singleton in Hmem. subst earlier.
      apply Hfresh. unfold control_ids. now apply list_elem_of_fmap_2. }
  split; [reflexivity|].
  set (m1 := set_controls (others ++ [ctrl]) (set_controls others m)).
  assert (Hclose : click "Close"
                     (mkState PyFloat (new_panel cwd) (Some ctrl) cur cs m1)
            = (mkState PyFloat
                 (store_ok_cancel None
                    (store_ok_cancel (Some "Close") (new_panel cwd)))
                 None cur cs
                 (toolbar_reset (set_controls others m1)), Ok tt)).
  { unfold OpenDataWidget.click, bind at 1, get at 1.
    cbn [fst snd panel]. unfold new_panel at 1. cbn [ok_cancel_value].
    destruct (decide (None = Some "Close")) as [E|_]; [discriminate E|].
    unfold bind at 1, on_panel at 1, modify at 1.
    cbn [fst snd panel tool_output_ctrl cursor calls map].
    unfold ok_cancel_clicked.
    destruct (decide (Some "Close" = Some "Apply")) as [E|_];
      [discriminate E|].
    destruct (decide (Some "Close" = Some "Reset")) as [E|_];
      [discriminate E|].
    destruct (decide (Some "Close" = Some "Close")) as [_|N];
      [|now destruct N].
    unfold bind at 1. unfold bind at 1, get at 1.
    cbn [fst snd panel tool_output_ctrl cursor calls map].
    rewrite decide_True
      by (apply elem_of_app; right; now apply list_elem_of_singleton).
    unfold bind at 1, in_map at 1, attempt at 1.
    cbn [fst snd panel tool_output_ctrl cursor calls map].
    rewrite ToolTemplateFacts.remove_control_present;
      [|apply elem_of_app; right; now apply list_elem_of_singleton
       |now apply ToolTemplateFacts.NoDup_ids_snoc].
    cbn [controls set_controls m1].
    rewrite ToolTemplateFacts.filter_other_ids_snoc by assumption.
    reflexivity. }
  rewrite Hclose. cbn [fst snd map tool_output_ctrl].
  split; [reflexivity|].
  split; [now rewrite (proj1 (reset_keeps_controls _))|].
  split; [reflexivity|].
  unfold OpenDataWidget.click, bind at 1, get at 1.
  cbn [fst snd panel]. unfold new_panel, store_ok_cancel. cbn [ok_cancel_value].
  destruct (decide (None = Some "Close")) as [E|_]; [discriminate E|].
  unfold bind at 1, on_panel at 1, modify at 1.
  cbn [fst snd panel tool_output_ctrl cursor calls map].
  unfold ok_cancel_clicked.
  destruct (decide (Some "Close" = Some "Apply")) as [E|_];
    [discriminate E|].
  destruct (decide (Some "Close" = Some "Reset")) as [E|_];
    [discriminate E|].
  destruct (decide (Some "Close" = Some "Close")) as [_|N];
    [|now destruct N].
  reflexivity.
Qed.

End WithMap.

Lemma ticked_point_box_survives_type_change_witness :
  let r := file_type_changed Z Examples.strip "/home/user"
             Examples.vector_col_names Examples.palettes "Shapefile"
             Examples.open_data_ticked in
  point_widget_children (panel Examples.open_data_ticked)
  = [point_check; point_popup] /\
  snd r = Ok tt /\
  point_check_value (panel (fst r)) = false /\
  point_widget_children (panel (fst r)) = [point_check].
Proof.
  intros r. split; [reflexivity|].
  destruct (ticked_point_box_survives_type_change Z Examples.strip
              "/home/user" Examples.vector_col_names Examples.palettes
              "Shapefile" Examples.open_data_ticked)
    as (H1 & H2 & H3 & _).
  - apply (bool_decide_unpack _); vm_compute; exact I.
  - split; [exact H1|]. split; [exact H2|]. apply H3. reflexivity.
Defined.

Lemma offered_files_open_only_as_points_witness :
  let picked := fst (pick_file_type Z Examples.strip "/home/user"
                       Examples.vector_col_names Examples.palettes "Raster"
                       Examples.open_data_ticked) in
  let entered := fst (enter_path Z "/data/dem.img" picked) in
  let r := click Z OpenData.decimal_of_str OpenData.decimal_of_str
             Examples.strip Examples.extension Examples.lower
             MainToolbar.reset_all Examples.load true "Apply" entered in
  let ticked := fst (assign_point_check Z Examples.strip
                       Examples.vector_col_names true entered) in
  let r' := click Z OpenData.decimal_of_str OpenData.decimal_of_str
              Examples.strip Examples.extension Examples.lower
              MainToolbar.reset_all Examples.load true "Apply" ticked in
  filter_pattern (panel picked) = ["*.tif"; "*.img"] /\
  snd r = Ok tt /\
  calls (fst r) = [] /\
  calls (fst r') = [add_point_layer Z "/data/dem.img" (One "name") "Raster"].
Proof.
  intros picked entered r ticked r'. split; [reflexivity|].
  destruct (offered_files_open_only_as_points Z OpenData.decimal_of_str
              OpenData.decimal_of_str Examples.strip Examples.extension
              Examples.lower "/home/user" MainToolbar.reset_all Examples.load
              Examples.vector_col_names Examples.palettes true
              "Raster" "/data/dem.img" Examples.open_data_ticked)
    as (_ & _ & H1 & H2 & _ & _ & _ & _ & H3).
  - intros E. discriminate E.
  - intros E. discriminate E.
  - left. split; reflexivity.
  - split; [exact H1|]. split; [exact H2|exact H3].
Defined.

Lemma open_data_panel_replaces_the_earlier_one_witness :
  let opened := open_data_widget Z "/home/user"
                  Examples.second_open_data_control
                  Examples.open_data_ticked in
  let closed := click Z OpenData.decimal_of_str OpenData.decimal_of_str
                  Examples.strip Examples.extension Examples.lower
                  MainToolbar.reset_all Examples.load true "Close"
                  (fst opened) in
  controls (map Examples.open_data_ticked)
  = [Examples.zoom; Examples.main_toolbar_control;
     Examples.first_open_data_control] /\
  controls (map (fst opened))
  = [Examples.zoom; Examples.main_toolbar_control;
     Examples.second_open_data_control] /\
  snd closed = Ok tt /\
  controls (map (fst closed))
  = [Examples.zoom; Examples.main_toolbar_control].
Proof.
  intros opened closed. split; [reflexivity|].
  destruct (open_data_panel_replaces_the_earlier_one Z
              OpenData.decimal_of_str OpenData.decimal_of_str Examples.strip
              Examples.extension Examples.lower "/home/user"
              MainToolbar.reset_all Examples.load true
              ToolTemplateFacts.reset_all_keeps_controls
              Examples.first_open_data_control
              Examples.second_open_data_control Examples.open_data_ticked)
    as (_ & H2 & _ & _ & H5 & H6 & _).
  - apply (bool_decide_unpack _); vm_compute; exact I.
  - reflexivity.
  - apply (bool_decide_unpack _); vm_compute; exact I.
  - apply (bool_decide_unpack _); vm_compute; exact I.
  - split; [exact H2|]. split; [exact H5|exact H6].
Defined.

End OpenDataWidgetFacts.

(** ** The provider list of the search panel *)

Module SearchBasemapsFacts.
Import SearchBasemaps.

Section WithProviders.

Variable Provider : Type.
Variable from_qms : string -> result Provider.
Variable xyz_flatten : list (string * Provider).
Variable build_url : Provider -> result string.
Variable attribution : Provider -> string.
Variable requires_token : Provider -> bool.
Variable add_tile_layer : string -> string -> string -> Py Map unit.
Variable layers : list Layer.

Abbreviation providers_change :=
  (SearchBasemaps.providers_change Provider from_qms xyz_flatten build_url
     attribution requires_token add_tile_layer layers).

(** X22: a pick in the provider list starts from the layers the map
    showed when the search panel was built, not from the layers it
    shows now.  When the observer returns for a "qms" or "xyz" provider,
    the map it leaves is what [add_tile_layer] makes of the map with the
    layers of line 1409 put back, so the tile layer of an earlier pick
    and every layer added since the panel was built are gone; and
    the outcome is the same whatever layers the map showed before the
    pick. *)
Theorem pick_starts_from_layers_at_opening (provider : string) (s : State) :
  NoDup (layer_id <$> layers) ->
  String.prefix "qms" provider = true \/ String.prefix "xyz" provider = true ->
  snd (providers_change (Some provider) s) = Ok tt ->
  (exists url credit,
     map (fst (providers_change (Some provider) s))
     = fst (add_tile_layer url (from_4 provider) credit
              (set_layers layers (map s)))) /\
  (forall shown,
     providers_change (Some provider)
                      (mkState (output s) (set_layers shown (map s)))
     = providers_change (Some provider) s).
Proof.
  intros Hnd Hprefix. destruct s as [out m]. cbn [output map].
  unfold SearchBasemaps.providers_change.
  destruct (decide (Some provider ≠ Some "")) as [_|N].
  2:{ intros _. exfalso. apply N. intros E. injection E as ->.
      destruct Hprefix as [H|H]; discriminate H. }
  destruct (String.prefix "qms" provider) eqn:Hqms.
  - unfold bind, set_output, modify, lift, in_map, attempt.
    cbn [fst snd output map].
    destruct (from_qms (from_4 provider)) as [q|e]; [|discriminate].
    destruct (build_url q) as [url|e]; [|discriminate].
    rewrite !(LeafletFacts.assign_layers_NoDup _ _ Hnd).
    cbn [fst snd output map].
    destruct (add_tile_layer url (from_4 provider) (attribution q)
                (set_layers layers m)) as [m' [[]|e]] eqn:Hadd;
      [|cbn; discriminate].
    intros _. cbn [fst snd map]. split.
    + exists url, (attribution q). now rewrite Hadd.
    + intros shown.
      rewrite !(LeafletFacts.assign_layers_NoDup _ _ Hnd).
      cbn [fst snd output map].
      change (set_layers layers (set_layers shown m))
        with (set_layers layers m).
      now rewrite Hadd.
  - destruct Hprefix as [H|Hxyz]; [discriminate H|]. rewrite Hxyz.
    unfold bind, getitem, set_output, modify, lift, in_map, attempt, ret,
      raise.
    cbn [fst snd output map].
    destruct (lookup_key (from_4 provider) xyz_flatten) as [x|];
      [|discriminate].
    destruct (build_url x) as [url|e]; [|discriminate].
    rewrite !(LeafletFacts.assign_layers_NoDup _ _ Hnd).
    cbn [fst snd output map].
    destruct (requires_token x); cbn [fst snd output map];
      (destruct (add_tile_layer url (from_4 provider) (attribution x)
                   (set_layers layers m)) as [m' [[]|e]] eqn:Hadd;
       [|cbn; discriminate]);
      intros _; cbn [fst snd map];
      (split;
       [exists url, (attribution x); now rewrite Hadd
       |intros shown;
        rewrite !(LeafletFacts.assign_layers_NoDup _ _ Hnd);
        cbn [fst snd output map];
        change (set_layers layers (set_layers shown m))
          with (set_layers layers m);
        now rewrite Hadd]).
Qed.

End WithProviders.

Lemma pick_starts_from_layers_at_opening_witness :
  let pick := SearchBasemaps.providers_change (string * string)
                Examples.from_qms Examples.xyz_flatten Examples.build_url
                snd (fun _ => false) Examples.add_tile_layer
                [Examples.default_layer] (Some "xyz.OpenTopoMap") in
  layers (map Examples.searching) = [Examples.default_layer; Examples.roads] /\
  layers (map (fst (pick Examples.searching)))
  = [Examples.default_layer; Examples.found] /\
  pick (mkState [] (set_layers [Examples.default_layer; Examples.countries]
                               (map Examples.searching)))
  = pick Examples.searching.
Proof.
  intros pick. split; [reflexivity|]. split; [reflexivity|].
  refine (proj2 (pick_starts_from_layers_at_opening (string * string)
                   Examples.from_qms Examples.xyz_flatten Examples.build_url
                   snd (fun _ => false) Examples.add_tile_layer
                   [Examples.default_layer] "xyz.OpenTopoMap"
                   Examples.searching _ _ _)
                [Examples.default_layer; Examples.countries]).
  - apply (bool_decide_unpack _); vm_compute; exact I.
  - right. reflexivity.
  - reflexivity.
Defined.

End SearchBasemapsFacts.
